(** * netcheck: the diagnosis engine, the interface parsers and the monitor loop

    A shallow embedding of the Python sources

      - [src/netcheck/diagnostics.py]     ([NetworkDiagnostics])
      - [src/netcheck/network_checker.py] ([NetworkChecker], the two parsers)
      - [src/netcheck/monitor.py]         ([NetworkMonitor])

    Python values are embedded as follows.

      - a [float] is an IEEE binary64 value, held in the Standard Library's
        [spec_float]; comparisons against integer literals are exact, as in
        CPython; [str(x)] and [format(x, '.1f')] are computed from the exact
        binary value;
      - a [str] is a [string] (characters are code points below 256);
      - the results dictionary is a [gmap string pyval], so that a missing key
        is a [KeyError] and not a type error of the model;
      - a raised exception is the [Raise] branch of [result];
      - [print] (the event [Stdout]), [time.sleep], a full diagnostic and
        the optional callback of the monitor are events of an explicit trace;
        [time.sleep] raises for an interval it does not accept;
        what the collaborator calls return is an input. *)

From Stdlib Require Import ZArith String Ascii List Bool Lia DecimalString.
From Stdlib Require Import Floats.SpecFloat.
From stdpp Require Import base option gmap strings list.
Import ListNotations.

#[local] Open Scope bool_scope.
#[local] Open Scope string_scope.
#[local] Open Scope list_scope.

(** ** Python floats

    A binary64 number is a [spec_float] that satisfies [valid_binary 53 1024]:
    a zero, an infinity, nan, or [(-1)^s * m * 2^e] with a canonical mantissa.
    The comparisons and [float_format_1f] below work on the exact value and so are
    defined the same way on every [spec_float]; [float_str] takes [2^e] for
    the unit in the last place, which it is for a binary64. *)

Module PyFloat.
#[local] Open Scope Z_scope.

(** Decimal digits of a non-negative integer. *)
Definition digits_of_Z (n : Z) : string :=
  NilZero.string_of_uint (N.to_uint (Z.to_N n)).

(** [str(n)] for a Python [int]. *)
Definition int_str (n : Z) : string :=
  if n <? 0 then "-" +:+ digits_of_Z (- n) else digits_of_Z n.

Fixpoint zeros (n : nat) : string :=
  match n with
  | O => ""
  | S n' => String "0" (zeros n')
  end.

(** The value [m * 2^e] as a fraction [p / q] with [q > 0]. *)
Definition scale (m e : Z) : Z * Z :=
  if 0 <=? e then (m * 2 ^ e, 1) else (m, 2 ^ (- e)).

(** Sign of [a/b - c/d] for positive denominators. *)
Definition qcmp (a b c d : Z) : comparison := (a * d ?= c * b).

(** Exact three-way comparison of a float with an integer; [None] for nan. *)
Definition cmp_Z (f : spec_float) (n : Z) : option comparison :=
  match f with
  | S754_nan => None
  | S754_infinity s => Some (if s then Lt else Gt)
  | S754_zero _ => Some (0 ?= n)
  | S754_finite s m e =>
      let '(p, q) := scale (Zpos m) e in
      Some (qcmp (if s then - p else p) q n 1)
  end.

(** [f > n] *)
Definition gt_Z (f : spec_float) (n : Z) : bool :=
  match cmp_Z f n with
  | Some Gt => true
  | _ => false
  end.

(** [f <= n] *)
Definition le_Z (f : spec_float) (n : Z) : bool :=
  match cmp_Z f n with
  | Some Lt | Some Eq => true
  | _ => false
  end.

(** [bool(f)]: only the two zeros are false; nan is true. *)
Definition float_bool (f : spec_float) : bool :=
  match f with
  | S754_zero _ => false
  | _ => true
  end.

(** [float(n)] for an integer small enough to be exact ([|n| < 2^53]). *)
Definition of_Z (n : Z) : spec_float :=
  match n with
  | Z0 => S754_zero false
  | Zpos p =>
      let sh := 53 - Z.log2 (Zpos p) - 1 in
      S754_finite false (Z.to_pos (Zpos p * 2 ^ sh)) (- sh)
  | Zneg p =>
      let sh := 53 - Z.log2 (Zpos p) - 1 in
      S754_finite true (Z.to_pos (Zpos p * 2 ^ sh)) (- sh)
  end.

(** Round [p / q] to the nearest integer, ties to even. *)
Definition round_half_even (p q : Z) : Z :=
  let f := p / q in
  match 2 * (p mod q) ?= q with
  | Lt => f
  | Gt => f + 1
  | Eq => if Z.even f then f else f + 1
  end.

Definition sign_str (s : bool) : string := if s then "-" else "".

(** The digits of [format(x, '.1f')] for [x = m * 2^e > 0]: the exact value
    is rounded to tenths, ties to even. *)
Definition fixed1 (m : positive) (e : Z) : string :=
  let '(p, q) := scale (Zpos m) e in
  let t := round_half_even (10 * p) q in
  digits_of_Z (t / 10) +:+ "." +:+ digits_of_Z (t mod 10).

(** [format(x, '.1f')], the conversion behind [f"{x:.1f}"]. *)
Definition float_format_1f (f : spec_float) : string :=
  match f with
  | S754_nan => "nan"
  | S754_infinity s => sign_str s +:+ "inf"
  | S754_zero s => sign_str s +:+ "0.0"
  | S754_finite s m e => sign_str s +:+ fixed1 m e
  end.

(** *** [repr]: the shortest decimal string that reads back as the float *)

(** [10^t <= p/q] *)
Definition le_pow10 (t p q : Z) : bool :=
  if 0 <=? t then 10 ^ t * q <=? p else q <=? p * 10 ^ (- t).

Fixpoint exp10_from (fuel : nat) (t p q : Z) : Z :=
  match fuel with
  | O => t
  | S fuel' => if le_pow10 t p q then t else exp10_from fuel' (t - 1) p q
  end.

(** [floor (log10 (p/q))], found downwards from an estimate that is never
    too small. *)
Definition exp10 (p q : Z) : Z :=
  exp10_from 4 ((Z.log2 p - Z.log2 q + 1) * 30103 / 100000 + 1) p q.

(** The decimal [d * 10^k] as a fraction. *)
Definition dec (d k : Z) : Z * Z :=
  if 0 <=? k then (d * 10 ^ k, 1) else (d, 10 ^ (- k)).

(** Does the fraction [c] read back as the binary64 value [m * 2^e]?  The
    rounding interval reaches half a unit in the last place to either side,
    a quarter below a power of two, and includes its end points exactly when
    the mantissa is even. *)
Definition in_interval (m : positive) (e : Z) (c : Z * Z) : bool :=
  let '(un, ud) := scale 1 (e - 2) in
  let boundary := (Zpos m =? 2 ^ 52) && (-1074 <? e) in
  let lo := if boundary then 4 * Zpos m - 1 else 4 * Zpos m - 2 in
  let hi := 4 * Zpos m + 2 in
  let incl := Z.even (Zpos m) in
  let '(cp, cq) := c in
  match qcmp (lo * un) ud cp cq with
  | Lt => true
  | Eq => incl
  | Gt => false
  end &&
  match qcmp cp cq (hi * un) ud with
  | Lt => true
  | Eq => incl
  | Gt => false
  end.

(** The [n]-digit decimal nearest to the value that still reads back as it,
    if there is one; [t] is the decimal exponent of the value. *)
Definition shortest_step (m : positive) (e t n : Z) : option (Z * Z) :=
  let '(p, q) := scale (Zpos m) e in
  let k := t - n + 1 in
  let '(kp, kq) := dec 1 k in
  let lowd := (p * kq) / (q * kp) in
  let i1 := in_interval m e (dec lowd k) in
  let i2 := in_interval m e (dec (lowd + 1) k) in
  match i1, i2 with
  | true, true =>
      match qcmp (2 * p) q ((2 * lowd + 1) * kp) kq with
      | Lt => Some (lowd, k)
      | Gt => Some (lowd + 1, k)
      | Eq => if Z.even lowd then Some (lowd, k) else Some (lowd + 1, k)
      end
  | true, false => Some (lowd, k)
  | false, true => Some (lowd + 1, k)
  | false, false => None
  end.

Fixpoint shortest_from (fuel : nat) (m : positive) (e t n : Z) : Z * Z :=
  match fuel with
  | O => (Zpos m, e)
  | S fuel' =>
      match shortest_step m e t n with
      | Some r => r
      | None => shortest_from fuel' m e t (n + 1)
      end
  end.

Fixpoint strip_zeros (fuel : nat) (d k : Z) : Z * Z :=
  match fuel with
  | O => (d, k)
  | S fuel' =>
      if (d mod 10 =? 0) && negb (d =? 0)
      then strip_zeros fuel' (d / 10) (k + 1)
      else (d, k)
  end.

(** Shortest digit string and the position of the decimal point (seventeen
    digits always suffice for a binary64). *)
Definition shortest (m : positive) (e : Z) : string * Z :=
  let '(p, q) := scale (Zpos m) e in
  let '(d, k) := shortest_from 17 m e (exp10 p q) 1 in
  let '(d', k') := strip_zeros 400 d k in
  let ds := digits_of_Z d' in
  (ds, k' + Z.of_nat (String.length ds)).

Definition exp_str (x : Z) : string :=
  (if x <? 0 then "-" else "+") +:+
  (if Z.abs x <? 10 then "0" else "") +:+ digits_of_Z (Z.abs x).

(** Layout of [repr]: scientific notation when the decimal point would fall
    more than four places before or sixteen places after the first digit,
    positional notation with at least one fractional digit otherwise. *)
Definition repr_finite (m : positive) (e : Z) : string :=
  let '(ds, decpt) := shortest m e in
  let n := String.length ds in
  if (decpt <=? -4) || (16 <? decpt) then
    String.substring 0 1 ds +:+
    (if (1 <? n)%nat then "." +:+ String.substring 1 (n - 1) ds else "") +:+
    "e" +:+ exp_str (decpt - 1)
  else if decpt <=? 0 then
    "0." +:+ zeros (Z.to_nat (- decpt)) +:+ ds
  else if Z.of_nat n <=? decpt then
    ds +:+ zeros (Z.to_nat (decpt - Z.of_nat n)) +:+ ".0"
  else
    String.substring 0 (Z.to_nat decpt) ds +:+ "." +:+
    String.substring (Z.to_nat decpt) (n - Z.to_nat decpt) ds.

(** [str(x)] (the same as [repr(x)]), the conversion behind [f"{x}"]. *)
Definition float_str (f : spec_float) : string :=
  match f with
  | S754_nan => "nan"
  | S754_infinity s => sign_str s +:+ "inf"
  | S754_zero s => sign_str s +:+ "0.0"
  | S754_finite s m e => sign_str s +:+ repr_finite m e
  end.

End PyFloat.

(** ** Python values, exceptions and the results dictionary *)

Module Py.

Inductive exn :=
| KeyError (key : string)
| TypeError
| ValueError
| OverflowError.

Inductive result (A : Type) :=
| Ok (a : A)
| Raise (e : exn).
Arguments Ok {A} a.
Arguments Raise {A} e.

#[export] Instance result_ret : MRet result := @Ok.
#[export] Instance result_bind : MBind result :=
  fun A B f r =>
    match r with
    | Ok a => f a
    | Raise e => Raise e
    end.

(** The scalars a results dictionary holds: [None], a [bool], a [float] or a
    [str]. *)
Inductive pyscalar :=
| PNone
| PBool (b : bool)
| PFloat (f : spec_float)
| PStr (s : string).

(** An interface dictionary [{'name': .., 'type': .., 'ip': ..}], as the two
    parsers of [NetworkChecker] build it; ['ip'] starts as [None]. *)
Record InterfaceInfo := {
  iface_name : string;
  iface_type : string;
  iface_ip : option string
}.

(** The values stored under the keys of a results dictionary: a scalar, a
    ping dictionary, or the list of interfaces. *)
Inductive pyval :=
| VScalar (x : pyscalar)
| VDict (d : gmap string pyscalar)
| VList (l : list InterfaceInfo).

Definition of_opt_str (o : option string) : pyscalar :=
  match o with
  | Some s => PStr s
  | None => PNone
  end.

(** An address as [get_local_ip] and [get_gateway] report it: the host part
    of [getsockname()], a field of [str.split()] or a match of [\d+\.]..., and
    so never the empty string. *)
Record address := {
  addr_first : ascii;
  addr_rest : string
}.

Definition addr_str (a : address) : string :=
  String (addr_first a) (addr_rest a).

Definition of_opt_addr (o : option address) : pyscalar :=
  match o with
  | Some a => PStr (addr_str a)
  | None => PNone
  end.

Definition of_opt_float (o : option spec_float) : pyscalar :=
  match o with
  | Some f => PFloat f
  | None => PNone
  end.

(** [bool(x)], the test behind [if x], [not x] and [x and y]. *)
Definition scalar_truthy (x : pyscalar) : bool :=
  match x with
  | PNone => false
  | PBool b => b
  | PFloat f => PyFloat.float_bool f
  | PStr s => negb (String.eqb s "")
  end.

Definition truthy (v : pyval) : bool :=
  match v with
  | VScalar x => scalar_truthy x
  | VDict d => negb (Nat.eqb (size d) 0)
  | VList l => negb (Nat.eqb (length l) 0)
  end.

(** [d[k]] on a dictionary. *)
Definition getitem {V : Type} (d : gmap string V) (k : string) : result V :=
  match d !! k with
  | Some v => Ok v
  | None => Raise (KeyError k)
  end.

(** [v[k]] with a string key on an arbitrary value: only a dictionary can be
    subscripted that way. *)
Definition subscript (v : pyval) (k : string) : result pyscalar :=
  match v with
  | VDict d => getitem d k
  | VScalar _ | VList _ => Raise TypeError
  end.

(** [x > n] for an integer literal [n]. *)
Definition gt_int (x : pyscalar) (n : Z) : result bool :=
  match x with
  | PFloat f => Ok (PyFloat.gt_Z f n)
  | PBool b => Ok (Z.b2z b >? n)%Z
  | PNone | PStr _ => Raise TypeError
  end.

(** [f"{x}"] *)
Definition format_default (x : pyscalar) : string :=
  match x with
  | PNone => "None"
  | PBool b => if b then "True" else "False"
  | PFloat f => PyFloat.float_str f
  | PStr s => s
  end.

(** [f"{x:.1f}"] *)
Definition format_1f (x : pyscalar) : result string :=
  match x with
  | PFloat f => Ok (PyFloat.float_format_1f f)
  | PBool b => Ok (if b then "1.0" else "0.0")
  | PNone => Raise TypeError
  | PStr _ => Raise ValueError
  end.

End Py.

(** ** [diagnostics.py] *)

Module Diagnostics.
Import Py.

(** The outcome of [NetworkChecker.ping_host]:
    [(success, avg_time_ms, packet_loss_percent)]. *)
Record PingResult := {
  success : bool;
  avg : option spec_float;
  loss : option spec_float
}.

(** What the collaborator calls of one [run_full_diagnostic] return. *)
Record Probes := {
  get_local_ip : option address;
  get_external_ip : option string;
  get_gateway : option address;
  get_network_interfaces : list InterfaceInfo;
  ping_host : string -> PingResult;
  check_dns : string -> bool
}.

Definition ping_dict (p : PingResult) : gmap string pyscalar :=
  {[ "success" := PBool (success p);
     "avg" := of_opt_float (avg p);
     "loss" := of_opt_float (loss p) ]}.

(** [NetworkDiagnostics]: the platform flag of its checker and the stored
    results. *)
Record NetworkDiagnostics := {
  is_windows : bool;
  results : gmap string pyval
}.

(** [__init__]: [self.results = {}] *)
Definition NetworkDiagnostics_init (checker_is_windows : bool) : NetworkDiagnostics :=
  {| is_windows := checker_is_windows; results := ∅ |}.

(** [run_full_diagnostic]: returns the results and stores them. *)
Definition run_full_diagnostic (self : NetworkDiagnostics) (c : Probes)
  : NetworkDiagnostics * gmap string pyval :=
  let results : gmap string pyval :=
    {[ "local_ip" := VScalar PNone;
       "external_ip" := VScalar PNone;
       "gateway" := VScalar PNone;
       "interfaces" := VList [];
       "ping_google_dns" :=
         VDict {[ "success" := PBool false; "avg" := PNone; "loss" := PNone ]};
       "ping_domain" :=
         VDict {[ "success" := PBool false; "avg" := PNone; "loss" := PNone ]};
       "dns_working" := VScalar (PBool false);
       "internet_connected" := VScalar (PBool false) ]} in
  let results := <["local_ip" := VScalar (of_opt_addr (get_local_ip c))]> results in
  let results := <["external_ip" := VScalar (of_opt_str (get_external_ip c))]> results in
  let results := <["gateway" := VScalar (of_opt_addr (get_gateway c))]> results in
  let results := <["interfaces" := VList (get_network_interfaces c)]> results in
  let ping1 := ping_host c "8.8.8.8" in
  let results := <["ping_google_dns" := VDict (ping_dict ping1)]> results in
  let ping2 := ping_host c "google.com" in
  let results := <["ping_domain" := VDict (ping_dict ping2)]> results in
  let results := <["dns_working" := VScalar (PBool (check_dns c "google.com"))]> results in
  let results := <["internet_connected" := VScalar (PBool (success ping1))]> results in
  ({| is_windows := is_windows self; results := results |}, results).

(** The dictionary [{'status': .., 'issues': [..], 'advice': [..]}]. *)
Record Diagnosis := {
  status : string;
  issues : list string;
  advice : list string
}.

(** [diagnosis['status'] = s] *)
Definition set_status (s : string) (d : Diagnosis) : Diagnosis :=
  {| status := s; issues := issues d; advice := advice d |}.

(** [diagnosis['issues'].append(s)] *)
Definition append_issue (s : string) (d : Diagnosis) : Diagnosis :=
  {| status := status d; issues := issues d ++ [s]; advice := advice d |}.

(** [diagnosis['advice'].append(s)] *)
Definition append_advice (s : string) (d : Diagnosis) : Diagnosis :=
  {| status := status d; issues := issues d; advice := advice d ++ [s] |}.

(** [results['ping_google_dns'][k]] *)
Definition ping_item (results : gmap string pyval) (k : string)
  : result pyscalar :=
  pg ← getitem results "ping_google_dns"; subscript pg k.

(** [x and x > n], as an [if] condition *)
Definition truthy_and_gt (x : result pyscalar) (n : Z) : result bool :=
  v ← x; if scalar_truthy v then v' ← x; gt_int v' n else Ok false.

(** The states an instance goes through: [__init__] creates it and only
    [run_full_diagnostic] assigns [self.results] afterwards. *)
Inductive reachable : NetworkDiagnostics -> Prop :=
| reachable_init w : reachable (NetworkDiagnostics_init w)
| reachable_run self c :
    reachable self -> reachable (fst (run_full_diagnostic self c)).

(** [get_diagnosis] *)
Definition get_diagnosis (self : NetworkDiagnostics)
    (results : option (gmap string pyval)) : result Diagnosis :=
  let results :=
    match results with
    | None => Diagnostics.results self
    | Some r => r
    end in
  let diagnosis := {| status := "unknown"; issues := []; advice := [] |} in
  (* Check for complete failure *)
  internet_connected ← getitem results "internet_connected";
  if negb (truthy internet_connected) then
    let diagnosis := set_status "no_connection" diagnosis in
    let diagnosis := append_issue "No internet connectivity detected" diagnosis in
    local_ip ← getitem results "local_ip";
    if negb (truthy local_ip) then
      let diagnosis := append_issue "No network connection (no local IP)" diagnosis in
      let diagnosis := append_advice "Check your network cable or Wi-Fi connection" diagnosis in
      let diagnosis := append_advice "Restart your network adapter" diagnosis in
      Ok diagnosis
    else
      gateway ← getitem results "gateway";
      if negb (truthy gateway) then
        let diagnosis := append_issue "No default gateway detected" diagnosis in
        let diagnosis := append_advice "Check router connection" diagnosis in
        let diagnosis := append_advice "Restart your router" diagnosis in
        Ok diagnosis
      else
        let diagnosis := append_issue "Connected to router but no internet access" diagnosis in
        let diagnosis := append_advice "Check if your router has internet access" diagnosis in
        let diagnosis := append_advice "Contact your ISP if router is online but no internet" diagnosis in
        Ok diagnosis
  else
  (* Has basic connectivity, check DNS *)
  dns_working ← getitem results "dns_working";
  if negb (truthy dns_working) then
    let diagnosis := set_status "dns_issue" diagnosis in
    let diagnosis := append_issue "DNS not responding properly" diagnosis in
    let diagnosis := append_advice "Try changing DNS server to 8.8.8.8 or 1.1.1.1" diagnosis in
    let diagnosis := append_advice "Flush DNS cache" diagnosis in
    let diagnosis :=
      if is_windows self
      then append_advice "Run: ipconfig /flushdns" diagnosis
      else append_advice "Restart network service or reboot" diagnosis in
    Ok diagnosis
  else
  (* Check for high packet loss *)
  high_loss ← truthy_and_gt (ping_item results "loss") 20;
  if (high_loss : bool) then
    let diagnosis := set_status "unstable_connection" diagnosis in
    loss ← ping_item results "loss";
    let diagnosis :=
      append_issue ("High packet loss (" +:+ format_default loss +:+ "%)") diagnosis in
    let diagnosis := append_advice "Network connection is unstable" diagnosis in
    let diagnosis := append_advice "Check Wi-Fi signal strength if using wireless" diagnosis in
    let diagnosis := append_advice "Check network cables if using Ethernet" diagnosis in
    let diagnosis := append_advice "Restart router if problem persists" diagnosis in
    Ok diagnosis
  else
  (* Check for slow connection *)
  high_latency ← truthy_and_gt (ping_item results "avg") 100;
  if (high_latency : bool) then
    let diagnosis := set_status "slow_connection" diagnosis in
    avg ← ping_item results "avg";
    avg_str ← format_1f avg;
    let diagnosis :=
      append_issue ("High latency (" +:+ avg_str +:+ "ms)") diagnosis in
    let diagnosis := append_advice "Network latency is high" diagnosis in
    let diagnosis := append_advice "Close bandwidth-intensive applications" diagnosis in
    let diagnosis := append_advice "Check if others are using network heavily" diagnosis in
    Ok diagnosis
  else
  (* Everything looks good *)
  let diagnosis := set_status "healthy" diagnosis in
  let diagnosis :=
    {| status := status diagnosis; issues := []; advice := advice diagnosis |} in
  let diagnosis :=
    {| status := status diagnosis; issues := issues diagnosis;
       advice := ["Internet is working normally"] |} in
  Ok diagnosis.

(** A well-formed results dictionary: the eight keys of the literal in
    [run_full_diagnostic], each holding a value of the type the collector
    declares for it. *)
Record Measurement := {
  local_ip : option address;
  external_ip : option string;
  gateway : option address;
  interfaces : list InterfaceInfo;
  ping_google_dns : PingResult;
  ping_domain : PingResult;
  dns_working : bool;
  internet_connected : bool
}.

Definition to_results (m : Measurement) : gmap string pyval :=
  {[ "local_ip" := VScalar (of_opt_addr (local_ip m));
     "external_ip" := VScalar (of_opt_str (external_ip m));
     "gateway" := VScalar (of_opt_addr (gateway m));
     "interfaces" := VList (interfaces m);
     "ping_google_dns" := VDict (ping_dict (ping_google_dns m));
     "ping_domain" := VDict (ping_dict (ping_domain m));
     "dns_working" := VScalar (PBool (dns_working m));
     "internet_connected" := VScalar (PBool (internet_connected m)) ]}.

(** The measurement one full diagnostic collects; connectivity is the
    success of the ping of 8.8.8.8. *)
Definition collect (c : Probes) : Measurement :=
  {| local_ip := get_local_ip c;
     external_ip := get_external_ip c;
     gateway := get_gateway c;
     interfaces := get_network_interfaces c;
     ping_google_dns := ping_host c "8.8.8.8";
     ping_domain := ping_host c "google.com";
     dns_working := check_dns c "google.com";
     internet_connected := success (ping_host c "8.8.8.8") |}.

Definition host_address : address :=
  {| addr_first := "1"; addr_rest := "92.168.1.5" |}.

Definition router_address : address :=
  {| addr_first := "1"; addr_rest := "92.168.1.1" |}.

(** A measurement with the given connectivity, DNS outcome, packet loss and
    average latency (whole numbers), on a host with a local address and a
    gateway. *)
Definition measurement (connected dns : bool) (l a : option Z) : Measurement :=
  let ping :=
    {| success := connected;
       avg := PyFloat.of_Z <$> a;
       loss := PyFloat.of_Z <$> l |} in
  {| local_ip := Some host_address;
     external_ip := None;
     gateway := Some router_address;
     interfaces := [];
     ping_google_dns := ping;
     ping_domain := ping;
     dns_working := dns;
     internet_connected := connected |}.

(** [o] is present and greater than [n]. *)
Definition exceeds (o : option spec_float) (n : Z) : bool :=
  match o with
  | Some f => PyFloat.gt_Z f n
  | None => false
  end.

(** The cascade as the specification words it: the rules in priority order,
    each with its condition on the measurement and the status it assigns. *)
Definition rules (m : Measurement) : list (bool * string) :=
  [ (negb (internet_connected m), "no_connection");
    (negb (dns_working m), "dns_issue");
    (exceeds (loss (ping_google_dns m)) 20, "unstable_connection");
    (exceeds (avg (ping_google_dns m)) 100, "slow_connection");
    (true, "healthy") ].

(** The status of the first rule whose condition holds. *)
Definition first_match (m : Measurement) : option string :=
  snd <$> List.find fst (rules m).

End Diagnostics.

(** ** Python string operations used by the parsers *)

Module PyStr.

Definition code (c : ascii) : N := N_of_ascii c.

(** [c.isspace()], which is what [str.strip()] removes. *)
Definition is_space (c : ascii) : bool :=
  let n := code c in
  ((9 <=? n) && (n <=? 13) || (28 <=? n) && (n <=? 32) || (n =? 133) || (n =? 160))%N.

(** [c.isdigit()]: the decimal digits and the superscripts one, two, three. *)
Definition isdigit (c : ascii) : bool :=
  let n := code c in
  ((48 <=? n) && (n <=? 57) || (n =? 178) || (n =? 179) || (n =? 185))%N.

(** The class [\d] of [re]. *)
Definition is_decimal (c : ascii) : bool :=
  let n := code c in
  ((48 <=? n) && (n <=? 57))%N.

Definition lower_char (c : ascii) : ascii :=
  let n := code c in
  if ((65 <=? n) && (n <=? 90) || (192 <=? n) && (n <=? 222) && negb (n =? 215))%N
  then ascii_of_N (n + 32)
  else c.

(** [s.lower()] *)
Fixpoint lower (s : string) : string :=
  match s with
  | "" => ""
  | String c s' => String (lower_char c) (lower s')
  end.

(** [s.lstrip()], [s.rstrip()], [s.strip()] *)
Fixpoint lstrip (s : string) : string :=
  match s with
  | "" => ""
  | String c s' => if is_space c then lstrip s' else s
  end.

Fixpoint rstrip (s : string) : string :=
  match s with
  | "" => ""
  | String c s' =>
      match rstrip s' with
      | "" => if is_space c then "" else String c ""
      | r => String c r
      end
  end.

Definition strip (s : string) : string := rstrip (lstrip s).

(** [s.startswith(p)] *)
Definition startswith (s p : string) : bool := String.prefix p s.

(** [sub in s] *)
Fixpoint contains (sub s : string) : bool :=
  String.prefix sub s ||
  match s with
  | "" => false
  | String _ s' => contains sub s'
  end.

(** [s.split(sep)] for a separator of one character. *)
Fixpoint split (sep : ascii) (s : string) : list string :=
  match s with
  | "" => [""]
  | String c s' =>
      if Ascii.eqb c sep then "" :: split sep s'
      else
        match split sep s' with
        | [] => [String c ""]
        | p :: ps => String c p :: ps
        end
  end.

(** [s * n] *)
Fixpoint repeat_str (s : string) (n : nat) : string :=
  match n with
  | O => ""
  | S n' => s +:+ repeat_str s n'
  end.

Definition newline : string := String (ascii_of_N 10) "".

(** *** The two regular expressions of the parsers *)

(** The longest run of decimal digits at the start of [s], and the rest. *)
Fixpoint span_digits (s : string) : string * string :=
  match s with
  | "" => ("", "")
  | String c s' =>
      if is_decimal c
      then let '(d, r) := span_digits s' in (String c d, r)
      else ("", s)
  end.

(** [\d+\.] at the start of [s]: the text matched and the rest.  A digit run
    followed by a dot can only be the longest run, so no backtracking is
    lost. *)
Definition digits_dot (s : string) : option (string * string) :=
  match span_digits s with
  | (String c d, String "." r) => Some (String c d +:+ ".", r)
  | _ => None
  end.

(** [\d+\.\d+\.\d+\.\d+] at the start of [s]: the text matched. *)
Definition match_quad (s : string) : option string :=
  '(a, r) ← digits_dot s;
  '(b, r) ← digits_dot r;
  '(c, r) ← digits_dot r;
  match span_digits r with
  | (String x d, _) => Some (a +:+ b +:+ c +:+ String x d)
  | _ => None
  end.

(** [re.search(r'(\d+\.\d+\.\d+\.\d+)', s)], group 1 of the leftmost match. *)
Fixpoint search_quad (s : string) : option string :=
  match match_quad s with
  | Some ip => Some ip
  | None =>
      match s with
      | "" => None
      | String _ s' => search_quad s'
      end
  end.

Fixpoint drop_chars (n : nat) (s : string) : string :=
  match n, s with
  | S n', String _ s' => drop_chars n' s'
  | _, _ => s
  end.

(** [inet (\d+\.\d+\.\d+\.\d+)] at the start of [s]: group 1. *)
Definition match_inet_quad (s : string) : option string :=
  if String.prefix "inet " s then match_quad (drop_chars 5 s) else None.

(** [re.search(r'inet (\d+\.\d+\.\d+\.\d+)', s)], group 1. *)
Fixpoint search_inet_quad (s : string) : option string :=
  match match_inet_quad s with
  | Some ip => Some ip
  | None =>
      match s with
      | "" => None
      | String _ s' => search_inet_quad s'
      end
  end.

End PyStr.

(** ** [network_checker.py]: the interface parsers *)

Module Checker.
Import Py PyStr.

Definition set_type (t : string) (i : InterfaceInfo) : InterfaceInfo :=
  {| iface_name := iface_name i; iface_type := t; iface_ip := iface_ip i |}.

Definition set_ip (a : string) (i : InterfaceInfo) : InterfaceInfo :=
  {| iface_name := iface_name i; iface_type := iface_type i; iface_ip := Some a |}.

(** The two loop variables of a parser. *)
Record parser := {
  interfaces : list InterfaceInfo;
  current_interface : option InterfaceInfo
}.

(** [if current_interface: interfaces.append(current_interface)] *)
Definition flush (st : parser) : list InterfaceInfo :=
  match current_interface st with
  | Some i => interfaces st ++ [i]
  | None => interfaces st
  end.

(** [i.get('ip')] as a condition *)
Definition has_ip (i : InterfaceInfo) : bool :=
  scalar_truthy (of_opt_str (iface_ip i)).

(** One iteration of the loop of [_parse_ipconfig]. *)
Definition ipconfig_line (st : parser) (line : string) : parser :=
  let line := strip line in
  (* Check for adapter name *)
  let st :=
    if contains "adapter" (lower line) && contains ":" line then
      let interfaces := flush st in
      let current :=
        {| iface_name := strip (hd "" (split ":" line));
           iface_type := "Unknown";
           iface_ip := None |} in
      let current :=
        if contains "Ethernet" line then set_type "Ethernet" current
        else if contains "Wi-Fi" line || contains "Wireless" line
             then set_type "Wi-Fi" current
        else if contains "VPN" line then set_type "VPN" current
        else current in
      {| interfaces := interfaces; current_interface := Some current |}
    else st in
  (* Check for IPv4 address *)
  match current_interface st with
  | Some current =>
      if contains "IPv4 Address" line then
        match search_quad line with
        | Some a =>
            {| interfaces := interfaces st;
               current_interface := Some (set_ip a current) |}
        | None => st
        end
      else st
  | None => st
  end.

(** [_parse_ipconfig] *)
Definition _parse_ipconfig (output : string) : list InterfaceInfo :=
  let st :=
    fold_left ipconfig_line (split (ascii_of_N 10) output)
      {| interfaces := []; current_interface := None |} in
  List.filter has_ip (flush st).

(** [_determine_interface_type] *)
Definition _determine_interface_type (name : string) : string :=
  let name_lower := lower name in
  if contains "eth" name_lower || contains "enp" name_lower then "Ethernet"
  else if contains "wl" name_lower || contains "wlan" name_lower then "Wi-Fi"
  else if contains "tun" name_lower || contains "vpn" name_lower then "VPN"
  else "Unknown".

(** [line and line[0].isdigit()] *)
Definition starts_with_digit (line : string) : bool :=
  match line with
  | "" => false
  | String c _ => isdigit c
  end.

(** One iteration of the loop of [_parse_ip_addr]. *)
Definition ip_addr_line (st : parser) (line : string) : parser :=
  let line := strip line in
  (* Check for interface name *)
  let st :=
    if starts_with_digit line && contains ":" line then
      let interfaces := flush st in
      let parts := split ":" line in
      match parts with
      | _ :: part1 :: _ =>
          let name := strip part1 in
          {| interfaces := interfaces;
             current_interface :=
               Some {| iface_name := name;
                       iface_type := _determine_interface_type name;
                       iface_ip := None |} |}
      | _ =>
          (* [len(parts) < 2] cannot happen for a line with a colon *)
          {| interfaces := interfaces;
             current_interface := current_interface st |}
      end
    else st in
  (* Check for IPv4 address *)
  match current_interface st with
  | Some current =>
      if contains "inet " line then
        match search_inet_quad line with
        | Some a =>
            (* Skip loopback *)
            if negb (startswith a "127.") then
              {| interfaces := interfaces st;
                 current_interface := Some (set_ip a current) |}
            else st
        | None => st
        end
      else st
  | None => st
  end.

(** [_parse_ip_addr] *)
Definition _parse_ip_addr (output : string) : list InterfaceInfo :=
  let st :=
    fold_left ip_addr_line (split (ascii_of_N 10) output)
      {| interfaces := []; current_interface := None |} in
  List.filter has_ip (flush st).

(** What [_parse_ip_addr] maintains about every dictionary it holds: an
    address, once assigned, does not start with "127.". *)
Definition no_loopback (i : InterfaceInfo) : Prop :=
  forall a, iface_ip i = Some a -> startswith a "127." = false.

Definition parser_no_loopback (st : parser) : Prop :=
  Forall no_loopback (interfaces st) /\
  forall i, current_interface st = Some i -> no_loopback i.

(** An [ipconfig] listing of one adapter that carries a loopback address. *)
Definition loopback_ipconfig : string :=
  "Ethernet adapter Ethernet0:" +:+ newline +:+
  "   IPv4 Address. . . . . . . . . . . : 127.0.0.1" +:+ newline.

End Checker.

(** ** [monitor.py] *)

Module Monitor.
Import Py PyStr Diagnostics.

(** [NetworkMonitor]; [previous_status] is [None], [True] or [False]. *)
Record NetworkMonitor := {
  diagnostics : NetworkDiagnostics;
  interval : Z;
  previous_status : option bool;
  running : bool
}.

(** [__init__] *)
Definition NetworkMonitor_init (checker_is_windows : bool) (interval : Z)
  : NetworkMonitor :=
  {| diagnostics := Diagnostics.NetworkDiagnostics_init checker_is_windows;
     interval := interval;
     previous_status := None;
     running := false |}.

(** What one run of the loop does to the outside world, in order. *)
Inductive event :=
| Stdout (line : string)
| FullDiagnostic
| Callback (connected : bool) (timestamp : string)
| Sleep (seconds : Z).

(** What the outside world answers during one iteration: the clock, the
    quick connectivity check, and the probes of a full diagnostic should one
    be run. *)
Record Tick := {
  now : string;
  is_connected : bool;
  probes : Probes
}.

Definition rule : string := repeat_str "=" 60.

(** Equality of two values that are each [None], [True] or [False]; on these
    [x is y] and [x == y] agree. *)
Definition status_eqb (x y : option bool) : bool :=
  match x, y with
  | None, None => true
  | Some a, Some b => Bool.eqb a b
  | _, _ => false
  end.

(** [for x in xs: print(f"  - {x}")] *)
Definition print_items (xs : list string) : list event :=
  map (fun x => Stdout ("  - " +:+ x)) xs.

(** [if xs: print(title); for x in xs: print(f"  - {x}")] *)
Definition print_section (title : string) (xs : list string) : list event :=
  match xs with
  | [] => []
  | _ => Stdout title :: print_items xs
  end.

Definition with_diagnostics (self : NetworkMonitor) (d : NetworkDiagnostics)
  : NetworkMonitor :=
  {| diagnostics := d;
     interval := interval self;
     previous_status := previous_status self;
     running := running self |}.

(** [_handle_status_change] *)
Definition _handle_status_change (self : NetworkMonitor) (connected : bool)
    (timestamp : string) (c : Probes) : result (NetworkMonitor * list event) :=
  if connected && status_eqb (previous_status self) (Some false) then
    (* Connection restored *)
    Ok (self,
        [ Stdout (newline +:+ rule);
          Stdout ("[" +:+ timestamp +:+ "] [ALERT] Internet connection RESTORED [OK]");
          Stdout (rule +:+ newline) ])
  else if negb connected && status_eqb (previous_status self) (Some true) then
    (* Connection lost *)
    let out :=
      [ Stdout (newline +:+ rule);
        Stdout ("[" +:+ timestamp +:+ "] [ALERT] Internet connection LOST [FAIL]") ] in
    (* Run diagnostic to determine cause *)
    let '(d, results) := run_full_diagnostic (diagnostics self) c in
    let self := with_diagnostics self d in
    let out := out ++ [FullDiagnostic] in
    diagnosis ← get_diagnosis (diagnostics self) (Some results);
    let out := out ++ print_section (newline +:+ "Reason:") (issues diagnosis) in
    let out := out ++ print_section (newline +:+ "Advice:") (advice diagnosis) in
    Ok (self, out ++ [Stdout (rule +:+ newline)])
  else if status_eqb (previous_status self) None then
    (* Initial check *)
    if connected then
      Ok (self, [Stdout ("[" +:+ timestamp +:+ "] [OK] Initial check: Internet is UP")])
    else
      let out := [Stdout ("[" +:+ timestamp +:+ "] [FAIL] Initial check: Internet is DOWN")] in
      (* Run diagnostic *)
      let '(d, results) := run_full_diagnostic (diagnostics self) c in
      let self := with_diagnostics self d in
      let out := out ++ [FullDiagnostic] in
      diagnosis ← get_diagnosis (diagnostics self) (Some results);
      let out := out ++ print_section (newline +:+ "Issues detected:") (issues diagnosis) in
      let out := out ++ print_section (newline +:+ "Recommended actions:") (advice diagnosis) in
      Ok (self, out ++ [Stdout ""])
  else Ok (self, []).

Definition set_previous_status (self : NetworkMonitor) (connected : bool)
  : NetworkMonitor :=
  {| diagnostics := diagnostics self;
     interval := interval self;
     previous_status := Some connected;
     running := running self |}.

Definition set_running (self : NetworkMonitor) (b : bool) : NetworkMonitor :=
  {| diagnostics := diagnostics self;
     interval := interval self;
     previous_status := previous_status self;
     running := b |}.

(** [time.sleep(secs)] for an [int].  The argument is first converted to a
    count of nanoseconds in 64 bits, which raises [OverflowError] when it
    does not fit; a negative one then raises [ValueError]; [monitor] catches
    neither.  Any other is handed to the operating system and taken to be
    slept: that is so up to [sleep_granted] below, while a sleep that ends
    beyond the range of the system clock, within reach only close to
    [sleep_limit], may be refused there. *)
Definition sleep_limit : Z := 9223372036.

Definition time_sleep (secs : Z) : result (list event) :=
  if ((secs <? - sleep_limit) || (sleep_limit <? secs))%Z then Raise OverflowError
  else if (secs <? 0)%Z then Raise ValueError
  else Ok [Sleep secs].

(** The longest interval the properties of the loop are stated for:
    [2^32 - 1] milliseconds, in whole seconds, which every timer behind
    [time.sleep] takes. *)
Definition sleep_granted : Z := 4294967.

(** The heartbeat line of an unchanged status. *)
Definition heartbeat (timestamp : string) (connected : bool) : string :=
  let status_symbol := if connected then "[OK]" else "[FAIL]" in
  "[" +:+ timestamp +:+ "] " +:+ status_symbol +:+ " Connection status: " +:+
  (if connected then "UP" else "DOWN").

(** The body of the [while] loop of [monitor]; [callback] tells whether a
    callback was given.  An exception ends the iteration, and with it the
    call of [monitor]. *)
Definition monitor_tick (callback : bool) (self : NetworkMonitor) (t : Tick)
  : result (NetworkMonitor * list event) :=
  let timestamp := now t in
  (* Quick connectivity check *)
  let connected := is_connected t in
  '(self, out) ←
    (if negb (status_eqb (Some connected) (previous_status self)) then
       '(self, out) ← _handle_status_change self connected timestamp (probes t);
       Ok (self, out ++ if callback then [Callback connected timestamp] else [])
     else
       (* Status unchanged, just show heartbeat *)
       Ok (self, [Stdout (heartbeat timestamp connected)]));
  let self := set_previous_status self connected in
  slept ← time_sleep (interval self);
  Ok (self, out ++ slept).

(** The iterations of the loop, one for each answer of the outside world. *)
Fixpoint monitor_loop (callback : bool) (self : NetworkMonitor) (ts : list Tick)
  : result (NetworkMonitor * list event) :=
  match ts with
  | [] => Ok (self, [])
  | t :: ts' =>
      '(self, out) ← monitor_tick callback self t;
      '(self, out') ← monitor_loop callback self ts';
      Ok (self, out ++ out')
  end.

(** [monitor], interrupted from the keyboard after the iterations [ts]. *)
Definition monitor (callback : bool) (self : NetworkMonitor) (ts : list Tick)
  : result (NetworkMonitor * list event) :=
  let self := set_running self true in
  let out :=
    [ Stdout ("Starting network monitor (checking every " +:+
             PyFloat.int_str (interval self) +:+ " seconds)");
      Stdout ("Press Ctrl+C to stop" +:+ newline) ] in
  '(self, out') ← monitor_loop callback self ts;
  let out := out ++ out' ++ [Stdout (newline +:+ newline +:+ "Monitoring stopped by user")] in
  Ok (set_running self false, out).

(** The events of a run, none if it raised. *)
Definition trace (r : result (NetworkMonitor * list event)) : list event :=
  match r with
  | Ok (_, out) => out
  | Raise _ => []
  end.

Definition is_callback (e : event) : bool :=
  match e with
  | Callback _ _ => true
  | _ => false
  end.

(** The calls of the callback in a trace. *)
Definition callbacks (out : list event) : list event :=
  List.filter is_callback out.

(** The output of each kind of iteration, [d] being the diagnosis of the
    full diagnostic run where there is one. *)
Definition initial_up (timestamp : string) : list event :=
  [Stdout ("[" +:+ timestamp +:+ "] [OK] Initial check: Internet is UP")].

Definition initial_down (timestamp : string) (d : Diagnosis) : list event :=
  [ Stdout ("[" +:+ timestamp +:+ "] [FAIL] Initial check: Internet is DOWN");
    FullDiagnostic ] ++
  print_section (newline +:+ "Issues detected:") (issues d) ++
  print_section (newline +:+ "Recommended actions:") (advice d) ++
  [Stdout ""].

Definition lost_alert (timestamp : string) (d : Diagnosis) : list event :=
  [ Stdout (newline +:+ rule);
    Stdout ("[" +:+ timestamp +:+ "] [ALERT] Internet connection LOST [FAIL]");
    FullDiagnostic ] ++
  print_section (newline +:+ "Reason:") (issues d) ++
  print_section (newline +:+ "Advice:") (advice d) ++
  [Stdout (rule +:+ newline)].

Definition restored_alert (timestamp : string) : list event :=
  [ Stdout (newline +:+ rule);
    Stdout ("[" +:+ timestamp +:+ "] [ALERT] Internet connection RESTORED [OK]");
    Stdout (rule +:+ newline) ].

(** The call of the callback on a change of status, if one was given. *)
Definition callback_call (callback : bool) (t : Tick) : list event :=
  if callback then [Callback (is_connected t) (now t)] else [].

(** The calls of the callback over a run that starts with the previous status
    [prev]: one for each iteration whose observation differs from the status
    stored before it. *)
Fixpoint expected_callbacks (prev : option bool) (ts : list Tick) : list event :=
  match ts with
  | [] => []
  | t :: ts' =>
      (if status_eqb (Some (is_connected t)) prev then []
       else [Callback (is_connected t) (now t)]) ++
      expected_callbacks (Some (is_connected t)) ts'
  end.

(** The stored diagnostics after a full diagnostic with the probes [c]. *)
Definition after_diagnostic (self : NetworkMonitor) (c : Probes) : NetworkMonitor :=
  with_diagnostics self (fst (run_full_diagnostic (diagnostics self) c)).

(** Five iterations that observe up, up, down, down, up. *)
Definition sample_probes : Probes :=
  {| get_local_ip := Some host_address;
     get_external_ip := None;
     get_gateway := Some router_address;
     get_network_interfaces := [];
     ping_host := fun _ => {| success := false; avg := None; loss := None |};
     check_dns := fun _ => false |}.

Definition five_ticks : list Tick :=
  [ {| now := "2024-01-01 00:00:00"; is_connected := true; probes := sample_probes |};
    {| now := "2024-01-01 00:00:10"; is_connected := true; probes := sample_probes |};
    {| now := "2024-01-01 00:00:20"; is_connected := false; probes := sample_probes |};
    {| now := "2024-01-01 00:00:30"; is_connected := false; probes := sample_probes |};
    {| now := "2024-01-01 00:00:40"; is_connected := true; probes := sample_probes |} ].

(** The number of full diagnostic runs in a trace. *)
Definition is_full_diagnostic (e : event) : bool :=
  match e with
  | FullDiagnostic => true
  | _ => false
  end.

Definition full_diagnostics (out : list event) : nat :=
  length (List.filter is_full_diagnostic out).

End Monitor.


(** ** [diagnostics.py]: the one-line status *)

Module QuickStatus.
Import Py Diagnostics.

(** [bool(d)] for a dictionary: false exactly for the empty one. *)
Definition dict_truthy {V : Type} (d : gmap string V) : bool :=
  negb (Nat.eqb (size d) 0).

(** [get_quick_status] *)
Definition get_quick_status (self : NetworkDiagnostics) : result string :=
  if negb (dict_truthy (results self)) then
    Ok "Unknown - Run diagnostic first"
  else
    diagnosis ← get_diagnosis self None;
    if String.eqb (status diagnosis) "healthy" then
      Ok "Internet is working normally [OK]"
    else if String.eqb (status diagnosis) "no_connection" then
      Ok "No internet connection [FAIL]"
    else if String.eqb (status diagnosis) "dns_issue" then
      Ok "Connected but DNS not working [WARNING]"
    else if String.eqb (status diagnosis) "unstable_connection" then
      Ok "Unstable connection (high packet loss) [WARNING]"
    else if String.eqb (status diagnosis) "slow_connection" then
      Ok "Slow connection (high latency) [WARNING]"
    else
      Ok "Unknown status".

End QuickStatus.

(** ** Shapes of strings, for the statements about rendered numbers and
    parsed addresses *)

Module Shapes.
Import PyStr.

(** Every character of [s] is a decimal digit. *)
Fixpoint all_decimal (s : string) : bool :=
  match s with
  | "" => true
  | String c s' => is_decimal c && all_decimal s'
  end.

(** A non-empty run of decimal digits. *)
Definition is_number (s : string) : bool :=
  all_decimal s && negb (String.eqb s "").

(** Four numbers separated by three dots, and nothing else. *)
Definition is_dotted_quad (s : string) : bool :=
  match split "." s with
  | [a; b; c; d] => is_number a && is_number b && is_number c && is_number d
  | _ => false
  end.

End Shapes.

(** ** Vocabulary for the statements about the parsers *)

Module ParserFacts.
Import Py PyStr Checker Shapes.

(** The four values of ['type']. *)
Definition interface_types : list string :=
  ["Ethernet"; "Wi-Fi"; "VPN"; "Unknown"].

(** An interface dictionary with a known type, a name without white space
    around it, and an address, if any, that is a dotted quad. *)
Definition entry_ok (i : InterfaceInfo) : Prop :=
  In (iface_type i) interface_types /\
  strip (iface_name i) = iface_name i /\
  forall a, iface_ip i = Some a -> is_dotted_quad a = true.

Definition parser_ok (st : parser) : Prop :=
  Forall entry_ok (interfaces st) /\
  forall i, current_interface st = Some i -> entry_ok i.

(** The lines that open an adapter in [_parse_ipconfig] and an interface in
    [_parse_ip_addr]. *)
Definition is_ipconfig_header (line : string) : bool :=
  let line := strip line in
  contains "adapter" (lower line) && contains ":" line.

Definition is_ip_addr_header (line : string) : bool :=
  let line := strip line in
  starts_with_digit line && contains ":" line.

(** [output.split('\n')] *)
Definition lines (output : string) : list string :=
  split (ascii_of_N 10) output.

End ParserFacts.

(** ** [network_checker.py]: the probes that read the output of a command *)

Module Collector.
Import Py PyStr Checker Diagnostics Shapes.
#[local] Open Scope Z_scope.

(** What [subprocess.run(..., capture_output=True, text=True)] returns; a
    call that raises instead (command missing, time-out) is [None] where a
    run is expected. *)
Record CompletedProcess := {
  returncode : Z;
  stdout : string;
  stderr : string
}.

(** [get_network_interfaces]: any exception leaves the empty list. *)
Definition get_network_interfaces (is_windows : bool)
    (run : option CompletedProcess) : list InterfaceInfo :=
  match run with
  | None => []
  | Some result =>
      if is_windows then _parse_ipconfig (stdout result)
      else _parse_ip_addr (stdout result)
  end.

(** [s.split()]: the maximal runs of characters that are not white space. *)
Fixpoint split_ws (s : string) : list string :=
  match s with
  | "" => []
  | String c s' =>
      let ws := split_ws s' in
      if is_space c then ws
      else
        match s', ws with
        | String c' _, w :: ws' =>
            if is_space c' then String c "" :: ws else String c w :: ws'
        | _, _ => String c "" :: ws
        end
  end.

(** [for line in lines: ... return x]: the first line for which the body
    returns. *)
Fixpoint first_return {A : Type} (body : string -> option A) (ls : list string)
  : option A :=
  match ls with
  | [] => None
  | line :: ls' =>
      match body line with
      | Some x => Some x
      | None => first_return body ls'
      end
  end.

(** The loop bodies of [get_gateway]. *)
Definition gateway_windows_line (line : string) : option string :=
  if contains "Default Gateway" line then search_quad line else None.

Definition gateway_unix_line (line : string) : option string :=
  if contains "default" line then
    match split_ws line with
    | _ :: _ :: part2 :: _ => Some part2
    | _ => None
    end
  else None.

(** [get_gateway] *)
Definition get_gateway (is_windows : bool) (run : option CompletedProcess)
  : option string :=
  match run with
  | None => None
  | Some result =>
      first_return
        (if is_windows then gateway_windows_line else gateway_unix_line)
        (split (ascii_of_N 10) (stdout result))
  end.

(** *** [float(s)] on a string of digits and dots *)

(** The value of a run of decimal digits, read after [acc]. *)
Fixpoint digits_value (acc : Z) (s : string) : Z :=
  match s with
  | "" => acc
  | String c s' => digits_value (10 * acc + (Z.of_N (code c) - 48)) s'
  end.

(** The text before the first dot, and the text after it if there is one. *)
Fixpoint cut_dot (s : string) : string * option string :=
  match s with
  | "" => ("", None)
  | String c s' =>
      if Ascii.eqb c "." then ("", Some s')
      else let '(a, b) := cut_dot s' in (String c a, b)
  end.

(** The nearest binary64 to [p / q], ties to even, for [p >= 0] and [q > 0];
    beyond the largest finite value it is infinity. *)
Definition round_binary64 (p q : Z) : spec_float :=
  if p =? 0 then S754_zero false
  else
    let l := Z.log2 p - Z.log2 q in
    let le_pow2 (k : Z) := if 0 <=? k then q * 2 ^ k <=? p else q <=? p * 2 ^ (- k) in
    let fl := if le_pow2 l then l else l - 1 in
    let e := Z.max (fl - 52) (-1074) in
    let m :=
      if 0 <=? e then PyFloat.round_half_even p (q * 2 ^ e)
      else PyFloat.round_half_even (p * 2 ^ (- e)) q in
    let '(m, e) := if m =? 2 ^ 53 then (2 ^ 52, e + 1) else (m, e) in
    match m with
    | Zpos m' => if 971 <? e then S754_infinity false else S754_finite false m' e
    | _ => S754_zero false
    end.

(** [float(s)] for [s] made of digits and dots: digits with at most one dot
    and at least one digit, or else [ValueError] ([None]). *)
Definition float_of_string (s : string) : option spec_float :=
  let '(whole, rest) := cut_dot s in
  let frac := default "" rest in
  if all_decimal whole && all_decimal frac &&
     negb (String.eqb (whole +:+ frac) "")
  then
    Some (round_binary64 (digits_value 0 (whole +:+ frac))
                         (10 ^ Z.of_nat (String.length frac)))
  else None.

(** *** The three patterns of [ping_host] *)

(** The longest run of characters that satisfy [f], and the rest. *)
Fixpoint span (f : ascii -> bool) (s : string) : string * string :=
  match s with
  | "" => ("", "")
  | String c s' =>
      if f c then let '(a, r) := span f s' in (String c a, r) else ("", s)
  end.

(** [s] starts with [p]: what is left of [s]. *)
Fixpoint strip_prefix (p s : string) : option string :=
  match p, s with
  | "", _ => Some s
  | String a p', String b s' => if Ascii.eqb a b then strip_prefix p' s' else None
  | _, "" => None
  end.

(** The same without regard to case, for a lower-case [p]. *)
Fixpoint strip_prefix_ci (p s : string) : option string :=
  match p, s with
  | "", _ => Some s
  | String a p', String b s' =>
      if Ascii.eqb a (lower_char b) then strip_prefix_ci p' s' else None
  | _, "" => None
  end.

(** The leftmost position at which [m] matches. *)
Fixpoint search {A : Type} (m : string -> option A) (s : string) : option A :=
  match m s with
  | Some x => Some x
  | None =>
      match s with
      | "" => None
      | String _ s' => search m s'
      end
  end.

(** [Average = (\d+)ms] at the start of [s]: group 1. *)
Definition match_average (s : string) : option string :=
  r ← strip_prefix "Average = " s;
  match span_digits r with
  | (String c d, r') =>
      match strip_prefix "ms" r' with
      | Some _ => Some (String c d)
      | None => None
      end
  | _ => None
  end.

Definition is_digit_or_dot (c : ascii) : bool :=
  is_decimal c || Ascii.eqb c ".".

(** [rtt \S+ = [\d.]+/([\d.]+)/] at the start of [s]: group 1. *)
Definition match_rtt (s : string) : option string :=
  r ← strip_prefix "rtt " s;
  match span (fun c => negb (is_space c)) r with
  | (String _ _, r1) =>
      r2 ← strip_prefix " = " r1;
      match span is_digit_or_dot r2 with
      | (String _ _, String "/" r3) =>
          match span is_digit_or_dot r3 with
          | (String c g, String "/" _) => Some (String c g)
          | _ => None
          end
      | _ => None
      end
  | _ => None
  end.

(** [(\d+)%\s+(?:packet\s+)?loss] without regard to case, at the start of
    [s]: group 1. *)
Definition match_loss (s : string) : option string :=
  match span_digits s with
  | (String c d, String "%" r) =>
      match span is_space r with
      | (String _ _, r1) =>
          let with_packet :=
            r2 ← strip_prefix_ci "packet" r1;
            match span is_space r2 with
            | (String _ _, r3) => strip_prefix_ci "loss" r3
            | _ => None
            end in
          match with_packet with
          | Some _ => Some (String c d)
          | None =>
              match strip_prefix_ci "loss" r1 with
              | Some _ => Some (String c d)
              | None => None
              end
          end
      | _ => None
      end
  | _ => None
  end.

(** [ping_host]: [run] is the outcome of the [ping] command.  Any exception,
    the [ValueError] of [float] included, gives [(False, None, None)]. *)
Definition ping_host (is_windows : bool) (run : option CompletedProcess)
  : PingResult :=
  let failed := {| success := false; avg := None; loss := None |} in
  match run with
  | None => failed
  | Some result =>
      let output := stdout result +:+ stderr result in
      (* Check if ping was successful *)
      let success := returncode result =? 0 in
      (* Extract average time *)
      let avg_time : option (option spec_float) :=
        if is_windows then
          match search match_average output with
          | Some g => Some <$> float_of_string g
          | None => Some None
          end
        else
          match search match_rtt output with
          | Some g => Some <$> float_of_string g
          | None => Some None
          end in
      match avg_time with
      | None => failed
      | Some avg_time =>
          (* Extract packet loss *)
          let packet_loss : option (option spec_float) :=
            match search match_loss output with
            | Some g => Some <$> float_of_string g
            | None => Some None
            end in
          match packet_loss with
          | None => failed
          | Some packet_loss =>
              {| success := success; avg := avg_time; loss := packet_loss |}
          end
      end
  end.

(** [is_connected]: the success of one ping of 8.8.8.8. *)
Definition is_connected (is_windows : bool) (run : option CompletedProcess)
  : bool :=
  success (ping_host is_windows run).

End Collector.

(** ** Vocabulary for the statements about the probes *)

Module CollectorFacts.
Import PyStr.

(** No character of [s] is white space. *)
Fixpoint no_space (s : string) : bool :=
  match s with
  | "" => true
  | String c s' => negb (is_space c) && no_space s'
  end.

(** A float that is zero, positive or plus infinity: not nan, not negative. *)
Definition non_negative (f : spec_float) : bool :=
  match PyFloat.cmp_Z f 0 with
  | Some Eq | Some Gt => true
  | _ => false
  end.

End CollectorFacts.

(** ** [monitor.py]: counting, and a callback that acts on the monitor *)

Module MonitorFacts.
Import Py PyStr Diagnostics Monitor.

(** The iterations that observe down when the status stored before them is
    not down: the first check if it is down, and every change from up to
    down. *)
Fixpoint down_edges (prev : option bool) (ts : list Tick) : nat :=
  match ts with
  | [] => 0
  | t :: ts' =>
      (if negb (is_connected t) && negb (status_eqb (Some false) prev)
       then 1 else 0) +
      down_edges (Some (is_connected t)) ts'
  end.

Definition is_sleep (e : event) : bool :=
  match e with
  | Sleep _ => true
  | _ => false
  end.

(** [stop] *)
Definition stop (self : NetworkMonitor) : NetworkMonitor :=
  set_running self false.

(** The two lines [monitor] prints before the loop, and the line it prints
    on the interrupt. *)
Definition start_notice (self : NetworkMonitor) : list event :=
  [ Stdout ("Starting network monitor (checking every " +:+
            PyFloat.int_str (interval self) +:+ " seconds)");
    Stdout ("Press Ctrl+C to stop" +:+ newline) ].

Definition stop_notice : event :=
  Stdout (newline +:+ newline +:+ "Monitoring stopped by user").

(** A monitor in the middle of a run, with the status [up] stored by an
    earlier iteration. *)
Definition monitor_after (up : bool) : NetworkMonitor :=
  set_previous_status (set_running (NetworkMonitor_init false 10) true) up.

(** A callback as a function that may act on the monitor it is given access
    to (call [stop], assign an attribute); [None] where none was passed. *)
Definition callback_fn : Type :=
  NetworkMonitor -> bool -> string -> NetworkMonitor.

(** The body of the [while] loop with such a callback. *)
Definition monitor_tick_with (callback : option callback_fn)
    (self : NetworkMonitor) (t : Tick) : result (NetworkMonitor * list event) :=
  let timestamp := now t in
  let connected := is_connected t in
  '(self, out) ←
    (if negb (status_eqb (Some connected) (previous_status self)) then
       '(self, out) ← _handle_status_change self connected timestamp (probes t);
       match callback with
       | Some cb =>
           Ok (cb self connected timestamp, out ++ [Callback connected timestamp])
       | None => Ok (self, out)
       end
     else
       Ok (self, [Stdout (heartbeat timestamp connected)]));
  let self := set_previous_status self connected in
  slept ← time_sleep (interval self);
  Ok (self, out ++ slept).

(** [while self.running: ...], interrupted from the keyboard once the
    answers [ts] are used up.  The flag tells whether the loop was left by
    the interrupt ([true]) or because [running] had become false. *)
Fixpoint monitor_while (callback : option callback_fn) (self : NetworkMonitor)
    (ts : list Tick) : result (NetworkMonitor * list event * bool) :=
  if running self then
    match ts with
    | [] => Ok (self, [], true)
    | t :: ts' =>
        '(self, out) ← monitor_tick_with callback self t;
        '(self, out', interrupted) ← monitor_while callback self ts';
        Ok (self, out ++ out', interrupted)
    end
  else Ok (self, [], false).

(** [monitor] with such a callback: the stop notice is printed only on the
    interrupt. *)
Definition monitor_with (callback : option callback_fn) (self : NetworkMonitor)
    (ts : list Tick) : result (NetworkMonitor * list event) :=
  let self := set_running self true in
  let out :=
    [ Stdout ("Starting network monitor (checking every " +:+
              PyFloat.int_str (interval self) +:+ " seconds)");
      Stdout ("Press Ctrl+C to stop" +:+ newline) ] in
  '(self, out', interrupted) ← monitor_while callback self ts;
  if (interrupted : bool) then
    Ok (set_running self false,
        out ++ out' ++ [Stdout (newline +:+ newline +:+ "Monitoring stopped by user")])
  else Ok (self, out ++ out').

End MonitorFacts.

(** ** A listing in the format of [ip addr show] *)

Module Listing.
Import Py PyStr Checker.

(** A name without white space and without a colon, and not empty. *)
Fixpoint plain (s : string) : bool :=
  match s with
  | "" => true
  | String c s' => negb (is_space c) && negb (Ascii.eqb c ":") && plain s'
  end.

Definition plain_name (s : string) : bool :=
  plain s && negb (String.eqb s "").

(** The two lines the command prints for an interface with one IPv4
    address: the numbered header and the [inet] line. *)
Definition header_line (k : nat) (name : string) : string :=
  PyFloat.digits_of_Z (Z.of_nat k) +:+ ": " +:+ name +:+
  ": <BROADCAST,MULTICAST,UP,LOWER_UP> mtu 1500".

Definition inet_line (a : string) : string :=
  "    inet " +:+ a +:+ "/24 scope global".

(** The listing of the interfaces [l], each a name and an address, numbered
    from [k]. *)
Fixpoint listing (k : nat) (l : list (string * string)) : string :=
  match l with
  | [] => ""
  | (name, a) :: l' =>
      header_line k name +:+ newline +:+ inet_line a +:+ newline +:+
      listing (S k) l'
  end.

(** The dictionary [_parse_ip_addr] is to build for a listed interface. *)
Definition entry (na : string * string) : InterfaceInfo :=
  {| iface_name := fst na;
     iface_type := _determine_interface_type (fst na);
     iface_ip := Some (snd na) |}.

Definition is_loopback (na : string * string) : bool :=
  startswith (snd na) "127.".

(** The dictionary the loop holds for a listed interface: the address of a
    loopback interface is never assigned. *)
Definition held (na : string * string) : InterfaceInfo :=
  {| iface_name := fst na;
     iface_type := _determine_interface_type (fst na);
     iface_ip := if is_loopback na then None else Some (snd na) |}.

(** No character of [s] is [c]. *)
Fixpoint without (c : ascii) (s : string) : bool :=
  match s with
  | "" => true
  | String x s' => negb (Ascii.eqb x c) && without c s'
  end.

(** No space of [s] follows a letter t, [prev] being the character before
    [s]. *)
Fixpoint no_t_space (prev : ascii) (s : string) : bool :=
  match s with
  | "" => true
  | String c s' =>
      (if Ascii.eqb c " " then negb (Ascii.eqb prev "t") else true) &&
      no_t_space c s'
  end.

End Listing.

(** ** [formatter.py] *)

Module Formatter.
Import Py PyStr Diagnostics.

(** A method call on a value without the method raises [AttributeError];
    the other exceptions are those of the built-in operations. *)
Inductive error :=
| AttributeError
| Builtin (e : exn).

Inductive outcome (A : Type) :=
| Done (a : A)
| Fail (e : error).
Arguments Done {A} a.
Arguments Fail {A} e.

#[export] Instance outcome_ret : MRet outcome := @Done.
#[export] Instance outcome_bind : MBind outcome :=
  fun A B f r =>
    match r with
    | Done a => f a
    | Fail e => Fail e
    end.

Definition lift {A : Type} (r : result A) : outcome A :=
  match r with
  | Ok a => Done a
  | Raise e => Fail (Builtin e)
  end.

(** The digits of [format(x, '.0f')] for [x = m * 2^e > 0]: the exact value
    is rounded to an integer, ties to even. *)
Definition fixed0 (m : positive) (e : Z) : string :=
  let '(p, q) := PyFloat.scale (Zpos m) e in
  PyFloat.digits_of_Z (PyFloat.round_half_even p q).

(** [format(x, '.0f')] *)
Definition float_format_0f (f : spec_float) : string :=
  match f with
  | S754_nan => "nan"
  | S754_infinity s => PyFloat.sign_str s +:+ "inf"
  | S754_zero s => PyFloat.sign_str s +:+ "0"
  | S754_finite s m e => PyFloat.sign_str s +:+ fixed0 m e
  end.

(** [f"{x:.0f}"] *)
Definition format_0f (x : pyscalar) : result string :=
  match x with
  | PFloat f => Ok (float_format_0f f)
  | PBool b => Ok (if b then "1" else "0")
  | PNone => Raise TypeError
  | PStr _ => Raise ValueError
  end.

(** [format_header] *)
Definition format_header (text : string) : string :=
  newline +:+ repeat_str "=" 60 +:+ newline +:+ text +:+ newline +:+
  repeat_str "=" 60.

(** [format_status] *)
Definition format_status (label value : string) (success : bool) : string :=
  let symbol := if success then "[OK]" else "[FAIL]" in
  "[" +:+ label +:+ "] " +:+ value +:+ " " +:+ symbol.

(** [format_info] *)
Definition format_info (label value : string) : string :=
  "[" +:+ label +:+ "] " +:+ value.

(** [results.get(k, {})] *)
Definition get_dict (results : gmap string pyval) (k : string) : pyval :=
  default (VDict ∅) (results !! k).

(** [v.get(k, d)]: only a dictionary has the method. *)
Definition get (v : pyval) (k : string) (d : pyscalar) : outcome pyscalar :=
  match v with
  | VDict entries => Done (default d (entries !! k))
  | VScalar _ | VList _ => Fail AttributeError
  end.

(** [f"avg={avg:.0f}ms" if avg else "success"] *)
Definition avg_str (avg : pyscalar) : outcome string :=
  if scalar_truthy avg then
    s ← lift (format_0f avg); Done ("avg=" +:+ s +:+ "ms")
  else Done "success".

(** [f", loss={loss:.0f}%" if loss and loss > 0 else ""] *)
Definition loss_str (loss : pyscalar) : outcome string :=
  if scalar_truthy loss then
    above ← lift (gt_int loss 0);
    if above : bool then
      s ← lift (format_0f loss); Done (", loss=" +:+ s +:+ "%")
    else Done ""
  else Done "".

(** The line for the ping of 8.8.8.8.  The default [0] of
    [ping_dns.get('loss', 0)] is an [int]; it is only tested for truth, as
    [False] is. *)
Definition ping_dns_line (ping_dns : pyval) : outcome string :=
  ok ← get ping_dns "success" PNone;
  if scalar_truthy ok then
    avg ← get ping_dns "avg" PNone;
    loss ← get ping_dns "loss" (PBool false);
    a ← avg_str avg;
    l ← loss_str loss;
    Done (format_status "PING" ("8.8.8.8: " +:+ a +:+ l) true)
  else Done (format_status "PING" "8.8.8.8: failed" false).

(** The line for the ping of google.com. *)
Definition ping_domain_line (ping_domain : pyval) : outcome string :=
  ok ← get ping_domain "success" PNone;
  if scalar_truthy ok then
    avg ← get ping_domain "avg" PNone;
    a ← avg_str avg;
    Done (format_status "PING" ("google.com: " +:+ a) true)
  else Done (format_status "PING" "google.com: failed" false).

(** [print_connectivity_results]: the strings printed, in order, and the
    exception that ended the call, if any. *)
Definition print_connectivity_results (results : gmap string pyval)
  : list string * option error :=
  let out := [format_header "CONNECTIVITY TEST"] in
  (* Ping Google DNS *)
  match ping_dns_line (get_dict results "ping_google_dns") with
  | Fail e => (out, Some e)
  | Done line =>
      let out := out ++ [line] in
      (* Ping Domain *)
      match ping_domain_line (get_dict results "ping_domain") with
      | Fail e => (out, Some e)
      | Done line =>
          let out := out ++ [line] in
          (* DNS Check *)
          let dns_working :=
            default (VScalar (PBool false)) (results !! "dns_working") in
          let line :=
            if truthy dns_working
            then format_status "DNS" "google.com: working" true
            else format_status "DNS" "google.com: not responding" false in
          (out ++ [line], None)
      end
  end.

(** [if xs: print(title); for x in xs: print(f"  - {x}")] *)
Definition print_list (title : string) (xs : list string) : list string :=
  match xs with
  | [] => []
  | _ => title :: map (fun x => "  - " +:+ x) xs
  end.

(** [print_diagnosis], on a dictionary with the three keys that
    [get_diagnosis] fills. *)
Definition print_diagnosis (diagnosis : Diagnosis) : list string :=
  [format_header "DIAGNOSIS"] ++
  [if String.eqb (status diagnosis) "healthy"
   then format_status "STATUS" "Internet is working normally" true
   else format_status "STATUS" "Issues detected" false] ++
  print_list (newline +:+ "[Issues Detected]") (issues diagnosis) ++
  print_list (newline +:+ "[Recommended Actions]") (advice diagnosis).

End Formatter.

(** * Properties *)

(** ** The diagnosis engine on a well-formed results dictionary *)

Section DiagnosisEngine.
Import Py Diagnostics.

Variable self : NetworkDiagnostics.
Variable m : Measurement.

Lemma getitem_internet_connected :
  getitem (to_results m) "internet_connected"
  = Ok (VScalar (PBool (internet_connected m))).
Proof. reflexivity. Qed.

Lemma getitem_dns_working :
  getitem (to_results m) "dns_working" = Ok (VScalar (PBool (dns_working m))).
Proof. reflexivity. Qed.

Lemma getitem_local_ip :
  getitem (to_results m) "local_ip" = Ok (VScalar (of_opt_addr (local_ip m))).
Proof. reflexivity. Qed.

Lemma getitem_gateway :
  getitem (to_results m) "gateway" = Ok (VScalar (of_opt_addr (gateway m))).
Proof. reflexivity. Qed.

Lemma ping_google_dns_loss :
  ping_item (to_results m) "loss"
  = Ok (of_opt_float (loss (ping_google_dns m))).
Proof. reflexivity. Qed.

Lemma ping_google_dns_avg :
  ping_item (to_results m) "avg"
  = Ok (of_opt_float (avg (ping_google_dns m))).
Proof. reflexivity. Qed.

Lemma bind_Ok {A B : Type} (a : A) (f : A -> result B) : Ok a ≫= f = f a.
Proof. reflexivity. Qed.

(** A float greater than a non-negative integer is not a zero. *)
Lemma gt_Z_truthy (f : spec_float) (n : Z) :
  (0 <= n)%Z -> PyFloat.gt_Z f n = true -> PyFloat.float_bool f = true.
Proof.
  intros Hn. destruct f as [s|s| |s p e]; try reflexivity.
  unfold PyFloat.gt_Z, PyFloat.cmp_Z.
  destruct (0 ?= n)%Z eqn:E; try discriminate.
  apply Z.compare_gt_iff in E. lia.
Qed.

(** [x and x > n] on an optional float is [exceeds]. *)
Lemma truthy_and_gt_exceeds (o : option spec_float) (n : Z) :
  (0 <= n)%Z ->
  truthy_and_gt (Ok (of_opt_float o)) n = Ok (exceeds o n).
Proof.
  intros Hn. destruct o as [f|]; [|reflexivity].
  unfold truthy_and_gt. rewrite bind_Ok. cbn.
  destruct (PyFloat.float_bool f) eqn:T; [reflexivity|].
  destruct (PyFloat.gt_Z f n) eqn:G; [|reflexivity].
  rewrite (gt_Z_truthy f n Hn G) in T. discriminate.
Qed.

(** Rule 1. *)
Lemma diagnosis_no_connection :
  internet_connected m = false ->
  get_diagnosis self (Some (to_results m)) =
  Ok {| status := "no_connection";
        issues :=
          [ "No internet connectivity detected";
            match local_ip m, gateway m with
            | None, _ => "No network connection (no local IP)"
            | Some _, None => "No default gateway detected"
            | Some _, Some _ => "Connected to router but no internet access"
            end ];
        advice :=
          match local_ip m, gateway m with
          | None, _ =>
              [ "Check your network cable or Wi-Fi connection";
                "Restart your network adapter" ]
          | Some _, None =>
              [ "Check router connection"; "Restart your router" ]
          | Some _, Some _ =>
              [ "Check if your router has internet access";
                "Contact your ISP if router is online but no internet" ]
          end |}.
Proof.
  intros Hc. unfold get_diagnosis.
  rewrite getitem_internet_connected, bind_Ok. cbn [truthy scalar_truthy].
  rewrite Hc. cbn [negb].
  rewrite getitem_local_ip, bind_Ok.
  destruct (local_ip m) as [a|]; [|reflexivity].
  cbn [truthy scalar_truthy of_opt_addr addr_str String.eqb negb].
  rewrite getitem_gateway, bind_Ok.
  destruct (gateway m) as [g|]; reflexivity.
Qed.

(** Rule 2. *)
Lemma diagnosis_dns_issue :
  internet_connected m = true ->
  dns_working m = false ->
  get_diagnosis self (Some (to_results m)) =
  Ok {| status := "dns_issue";
        issues := ["DNS not responding properly"];
        advice :=
          [ "Try changing DNS server to 8.8.8.8 or 1.1.1.1";
            "Flush DNS cache";
            if is_windows self then "Run: ipconfig /flushdns"
            else "Restart network service or reboot" ] |}.
Proof.
  intros Hc Hd. unfold get_diagnosis.
  rewrite getitem_internet_connected, bind_Ok. cbn [truthy scalar_truthy].
  rewrite Hc. cbn [negb].
  rewrite getitem_dns_working, bind_Ok. cbn [truthy scalar_truthy].
  rewrite Hd. cbn [negb].
  destruct (is_windows self); reflexivity.
Qed.

(** Rules 3 to 5. *)
Lemma diagnosis_connected :
  internet_connected m = true ->
  dns_working m = true ->
  get_diagnosis self (Some (to_results m)) =
  if exceeds (loss (ping_google_dns m)) 20 then
    Ok {| status := "unstable_connection";
          issues :=
            [ "High packet loss (" +:+
              format_default (of_opt_float (loss (ping_google_dns m))) +:+ "%)" ];
          advice :=
            [ "Network connection is unstable";
              "Check Wi-Fi signal strength if using wireless";
              "Check network cables if using Ethernet";
              "Restart router if problem persists" ] |}
  else if exceeds (avg (ping_google_dns m)) 100 then
    avg_str ← format_1f (of_opt_float (avg (ping_google_dns m)));
    Ok {| status := "slow_connection";
          issues := ["High latency (" +:+ avg_str +:+ "ms)"];
          advice :=
            [ "Network latency is high";
              "Close bandwidth-intensive applications";
              "Check if others are using network heavily" ] |}
  else
    Ok {| status := "healthy";
          issues := [];
          advice := ["Internet is working normally"] |}.
Proof.
  intros Hc Hd. unfold get_diagnosis.
  rewrite getitem_internet_connected, bind_Ok. cbn [truthy scalar_truthy].
  rewrite Hc. cbn [negb].
  rewrite getitem_dns_working, bind_Ok. cbn [truthy scalar_truthy].
  rewrite Hd. cbn [negb].
  rewrite ping_google_dns_loss, truthy_and_gt_exceeds, bind_Ok by lia.
  destruct (exceeds (loss (ping_google_dns m)) 20); [reflexivity|].
  rewrite ping_google_dns_avg, truthy_and_gt_exceeds, bind_Ok by lia.
  destruct (exceeds (avg (ping_google_dns m)) 100); [|reflexivity].
  rewrite bind_Ok. reflexivity.
Qed.

End DiagnosisEngine.

Section DiagnosisClaims.
Import Py Diagnostics.

Lemma le_Z_not_gt (f : spec_float) (n : Z) :
  PyFloat.le_Z f n = true -> PyFloat.gt_Z f n = false.
Proof.
  unfold PyFloat.le_Z, PyFloat.gt_Z.
  destruct (PyFloat.cmp_Z f n) as [[]|]; congruence.
Qed.

Lemma exceeds_Some (o : option spec_float) (n : Z) :
  exceeds o n = true <-> exists f, o = Some f /\ PyFloat.gt_Z f n = true.
Proof.
  destruct o as [f|]; cbn; split.
  - intros H. exists f. auto.
  - intros (g & [= <-] & H). exact H.
  - discriminate.
  - intros (g & [=] & _).
Qed.

(** On a well-formed results dictionary [get_diagnosis] returns, and the
    status is that of the first rule that matches. *)
Lemma get_diagnosis_first_match (self : NetworkDiagnostics) (m : Measurement) :
  exists d, get_diagnosis self (Some (to_results m)) = Ok d /\
            first_match m = Some (status d).
Proof.
  unfold first_match, rules.
  destruct (internet_connected m) eqn:Hc.
  2:{ rewrite diagnosis_no_connection by assumption. eexists. split; reflexivity. }
  destruct (dns_working m) eqn:Hd.
  2:{ rewrite diagnosis_dns_issue by assumption. eexists. split; reflexivity. }
  rewrite diagnosis_connected by assumption. cbn.
  destruct (exceeds (loss (ping_google_dns m)) 20) eqn:Hl.
  { eexists. split; reflexivity. }
  destruct (exceeds (avg (ping_google_dns m)) 100) eqn:Ha.
  2:{ eexists. split; reflexivity. }
  apply exceeds_Some in Ha. destruct Ha as (f & -> & _).
  eexists. split; reflexivity.
Qed.

(** C1. When [internet_connected] is false the status is [no_connection],
    whatever the DNS, loss and latency fields hold; the issues are the
    top-level "No internet connectivity detected" followed by exactly one
    sub-classification: no local IP, else no default gateway, else connected
    to the router without internet access, each with its advice. *)
Theorem C1_no_connection (self : NetworkDiagnostics) (m : Measurement) :
  internet_connected m = false ->
  exists d,
    get_diagnosis self (Some (to_results m)) = Ok d /\
    status d = "no_connection" /\
    match local_ip m, gateway m with
    | None, _ =>
        issues d = [ "No internet connectivity detected";
                     "No network connection (no local IP)" ] /\
        advice d = [ "Check your network cable or Wi-Fi connection";
                     "Restart your network adapter" ]
    | Some _, None =>
        issues d = [ "No internet connectivity detected";
                     "No default gateway detected" ] /\
        advice d = [ "Check router connection"; "Restart your router" ]
    | Some _, Some _ =>
        issues d = [ "No internet connectivity detected";
                     "Connected to router but no internet access" ] /\
        advice d = [ "Check if your router has internet access";
                     "Contact your ISP if router is online but no internet" ]
    end.
Proof.
  intros Hc. rewrite diagnosis_no_connection by assumption.
  eexists. split; [reflexivity|]. split; [reflexivity|].
  destruct (local_ip m), (gateway m); split; reflexivity.
Qed.

Lemma C1_no_connection_witness :
  exists d,
    get_diagnosis (Diagnostics.NetworkDiagnostics_init false)
      (Some (to_results (measurement false true (Some 50%Z) (Some 200%Z)))) = Ok d /\
    status d = "no_connection" /\
    issues d = [ "No internet connectivity detected";
                 "Connected to router but no internet access" ] /\
    advice d = [ "Check if your router has internet access";
                 "Contact your ISP if router is online but no internet" ].
Proof.
  exact (C1_no_connection (Diagnostics.NetworkDiagnostics_init false)
           (measurement false true (Some 50%Z) (Some 200%Z)) eq_refl).
Defined.

(** C2. The cascade stops at the first rule that matches, in the order
    connectivity, DNS, loss, latency, healthy; in particular a connected
    host with working DNS, 50% loss and 200 ms latency is reported as
    [unstable_connection] and not as [slow_connection]. *)
Theorem C2_first_matching_rule (self : NetworkDiagnostics) (m : Measurement) :
  exists d,
    get_diagnosis self (Some (to_results m)) = Ok d /\
    first_match m = Some (status d) /\
    (internet_connected m = true ->
     dns_working m = true ->
     loss (ping_google_dns m) = Some (PyFloat.of_Z 50) ->
     avg (ping_google_dns m) = Some (PyFloat.of_Z 200) ->
     status d = "unstable_connection" /\ status d <> "slow_connection").
Proof.
  destruct (get_diagnosis_first_match self m) as (d & Hd & Hs).
  exists d. split; [exact Hd|]. split; [exact Hs|].
  intros Hc Hdns Hl Ha. unfold first_match, rules in Hs.
  rewrite Hc, Hdns, Hl in Hs. cbn in Hs. injection Hs as <-.
  split; [reflexivity | discriminate].
Qed.

Lemma C2_first_matching_rule_witness :
  exists d,
    get_diagnosis (Diagnostics.NetworkDiagnostics_init false)
      (Some (to_results (measurement true true (Some 50%Z) (Some 200%Z)))) = Ok d /\
    status d = "unstable_connection" /\ status d <> "slow_connection".
Proof.
  destruct (C2_first_matching_rule (Diagnostics.NetworkDiagnostics_init false)
              (measurement true true (Some 50%Z) (Some 200%Z)))
    as (d & Hd & _ & H).
  exists d. split; [exact Hd|].
  apply H; reflexivity.
Defined.

(** The status on a connected host with working DNS. *)
Lemma status_connected (self : NetworkDiagnostics) (m : Measurement) :
  internet_connected m = true ->
  dns_working m = true ->
  exists d,
    get_diagnosis self (Some (to_results m)) = Ok d /\
    status d =
      (if exceeds (loss (ping_google_dns m)) 20 then "unstable_connection"
       else if exceeds (avg (ping_google_dns m)) 100 then "slow_connection"
       else "healthy") /\
    (status d = "healthy" -> issues d = []).
Proof.
  intros Hc Hd. rewrite diagnosis_connected by assumption.
  destruct (exceeds (loss (ping_google_dns m)) 20) eqn:Hl.
  { eexists. split; [reflexivity|]. split; [reflexivity|discriminate]. }
  destruct (exceeds (avg (ping_google_dns m)) 100) eqn:Ha.
  - apply exceeds_Some in Ha. destruct Ha as (f & -> & _).
    eexists. split; [reflexivity|]. split; [reflexivity|discriminate].
  - eexists. split; [reflexivity|]. split; reflexivity.
Qed.

(** C3. The thresholds are strict.  With connectivity and DNS in order the
    status is [unstable_connection] exactly when a loss is present and
    greater than 20, and [slow_connection] exactly when that is not so and a
    latency is present and greater than 100: a loss of exactly 20 is not
    unstable while 21 is, a latency of exactly 100 is not slow while 101 is
    (the loss being absent or at most 20), an absent value never triggers its
    rule, and with both absent the host is [healthy] with no issue. *)
Theorem C3_strict_thresholds (self : NetworkDiagnostics) (m : Measurement) :
  internet_connected m = true ->
  dns_working m = true ->
  exists d,
    get_diagnosis self (Some (to_results m)) = Ok d /\
    (status d = "unstable_connection" <->
       exists f, loss (ping_google_dns m) = Some f /\ PyFloat.gt_Z f 20 = true) /\
    (status d = "slow_connection" <->
       exceeds (loss (ping_google_dns m)) 20 = false /\
       exists f, avg (ping_google_dns m) = Some f /\ PyFloat.gt_Z f 100 = true) /\
    (loss (ping_google_dns m) = Some (PyFloat.of_Z 20) ->
       status d <> "unstable_connection") /\
    (loss (ping_google_dns m) = Some (PyFloat.of_Z 21) ->
       status d = "unstable_connection") /\
    (avg (ping_google_dns m) = Some (PyFloat.of_Z 100) ->
       status d <> "slow_connection") /\
    (avg (ping_google_dns m) = Some (PyFloat.of_Z 101) ->
       (loss (ping_google_dns m) = None \/
        exists f, loss (ping_google_dns m) = Some f /\ PyFloat.le_Z f 20 = true) ->
       status d = "slow_connection") /\
    (loss (ping_google_dns m) = None -> status d <> "unstable_connection") /\
    (avg (ping_google_dns m) = None -> status d <> "slow_connection") /\
    (loss (ping_google_dns m) = None -> avg (ping_google_dns m) = None ->
       status d = "healthy" /\ issues d = []).
Proof.
  intros Hc Hd.
  destruct (status_connected self m Hc Hd) as (d & Hget & Hs & Hh).
  exists d. split; [exact Hget|].
  assert (Hu : status d = "unstable_connection" <->
               exceeds (loss (ping_google_dns m)) 20 = true).
  { rewrite Hs. destruct (exceeds (loss (ping_google_dns m)) 20);
      [|destruct (exceeds (avg (ping_google_dns m)) 100)];
      split; congruence. }
  assert (Hsl : status d = "slow_connection" <->
                exceeds (loss (ping_google_dns m)) 20 = false /\
                exceeds (avg (ping_google_dns m)) 100 = true).
  { rewrite Hs. destruct (exceeds (loss (ping_google_dns m)) 20);
      [|destruct (exceeds (avg (ping_google_dns m)) 100)];
      split; intuition congruence. }
  split_and!.
  - rewrite Hu. apply exceeds_Some.
  - rewrite Hsl, exceeds_Some. reflexivity.
  - intros Hl Hst. apply Hu in Hst. rewrite Hl in Hst. discriminate.
  - intros Hl. apply Hu. rewrite Hl. reflexivity.
  - intros Ha Hst. apply Hsl in Hst. destruct Hst as [_ Hst].
    rewrite Ha in Hst. discriminate.
  - intros Ha Hl. apply Hsl. split; [|rewrite Ha; reflexivity].
    destruct Hl as [-> | (f & -> & Hle)]; [reflexivity|].
    cbn. apply le_Z_not_gt, Hle.
  - intros Hl Hst. apply Hu in Hst. rewrite Hl in Hst. discriminate.
  - intros Ha Hst. apply Hsl in Hst. destruct Hst as [_ Hst].
    rewrite Ha in Hst. discriminate.
  - intros Hl Ha. rewrite Hs, Hl, Ha. split; [reflexivity|].
    apply Hh. rewrite Hs, Hl, Ha. reflexivity.
Qed.

Lemma C3_strict_thresholds_witness :
  (exists d,
     get_diagnosis (Diagnostics.NetworkDiagnostics_init false)
       (Some (to_results (measurement true true (Some 20%Z) None))) = Ok d /\
     status d <> "unstable_connection") /\
  (exists d,
     get_diagnosis (Diagnostics.NetworkDiagnostics_init false)
       (Some (to_results (measurement true true (Some 21%Z) None))) = Ok d /\
     status d = "unstable_connection") /\
  (exists d,
     get_diagnosis (Diagnostics.NetworkDiagnostics_init false)
       (Some (to_results (measurement true true None (Some 100%Z)))) = Ok d /\
     status d <> "slow_connection") /\
  (exists d,
     get_diagnosis (Diagnostics.NetworkDiagnostics_init false)
       (Some (to_results (measurement true true (Some 20%Z) (Some 101%Z)))) = Ok d /\
     status d = "slow_connection") /\
  (exists d,
     get_diagnosis (Diagnostics.NetworkDiagnostics_init false)
       (Some (to_results (measurement true true None None))) = Ok d /\
     status d = "healthy" /\ issues d = []).
Proof.
  split_and!.
  - destruct (C3_strict_thresholds (Diagnostics.NetworkDiagnostics_init false)
                (measurement true true (Some 20%Z) None) eq_refl eq_refl)
      as (d & Hd & _ & _ & H & _).
    exists d. split; [exact Hd | apply H; reflexivity].
  - destruct (C3_strict_thresholds (Diagnostics.NetworkDiagnostics_init false)
                (measurement true true (Some 21%Z) None) eq_refl eq_refl)
      as (d & Hd & _ & _ & _ & H & _).
    exists d. split; [exact Hd | apply H; reflexivity].
  - destruct (C3_strict_thresholds (Diagnostics.NetworkDiagnostics_init false)
                (measurement true true None (Some 100%Z)) eq_refl eq_refl)
      as (d & Hd & _ & _ & _ & _ & H & _).
    exists d. split; [exact Hd | apply H; reflexivity].
  - destruct (C3_strict_thresholds (Diagnostics.NetworkDiagnostics_init false)
                (measurement true true (Some 20%Z) (Some 101%Z)) eq_refl eq_refl)
      as (d & Hd & _ & _ & _ & _ & _ & H & _).
    exists d. split; [exact Hd|]. apply H; [reflexivity|].
    right. eexists. split; reflexivity.
  - destruct (C3_strict_thresholds (Diagnostics.NetworkDiagnostics_init false)
                (measurement true true None None) eq_refl eq_refl)
      as (d & Hd & _ & _ & _ & _ & _ & _ & _ & _ & H).
    exists d. split; [exact Hd | apply H; reflexivity].
Defined.

(** C4. When the host is connected and [dns_working] is false the status is
    [dns_issue], the issue is "DNS not responding properly", and the advice
    is the alternate-server suggestion, the flush suggestion and one
    remediation chosen by the Windows flag of the checker. *)
Theorem C4_dns_issue (self : NetworkDiagnostics) (m : Measurement) :
  internet_connected m = true ->
  dns_working m = false ->
  get_diagnosis self (Some (to_results m)) =
  Ok {| status := "dns_issue";
        issues := ["DNS not responding properly"];
        advice :=
          [ "Try changing DNS server to 8.8.8.8 or 1.1.1.1";
            "Flush DNS cache";
            if is_windows self then "Run: ipconfig /flushdns"
            else "Restart network service or reboot" ] |}.
Proof. apply diagnosis_dns_issue. Qed.

Lemma C4_dns_issue_witness :
  get_diagnosis (Diagnostics.NetworkDiagnostics_init true)
    (Some (to_results (measurement true false (Some 50%Z) (Some 200%Z)))) =
  Ok {| status := "dns_issue";
        issues := ["DNS not responding properly"];
        advice :=
          [ "Try changing DNS server to 8.8.8.8 or 1.1.1.1";
            "Flush DNS cache";
            "Run: ipconfig /flushdns" ] |} /\
  get_diagnosis (Diagnostics.NetworkDiagnostics_init false)
    (Some (to_results (measurement true false None None))) =
  Ok {| status := "dns_issue";
        issues := ["DNS not responding properly"];
        advice :=
          [ "Try changing DNS server to 8.8.8.8 or 1.1.1.1";
            "Flush DNS cache";
            "Restart network service or reboot" ] |}.
Proof.
  split.
  - exact (C4_dns_issue (Diagnostics.NetworkDiagnostics_init true)
             (measurement true false (Some 50%Z) (Some 200%Z)) eq_refl eq_refl).
  - exact (C4_dns_issue (Diagnostics.NetworkDiagnostics_init false)
             (measurement true false None None) eq_refl eq_refl).
Defined.

(** C5. [get_diagnosis] is total on well-formed results: it raises nothing
    and returns one diagnosis, whose status is one of the five kinds and
    never the initial "unknown". *)
Theorem C5_total (self : NetworkDiagnostics) (m : Measurement) :
  exists d,
    get_diagnosis self (Some (to_results m)) = Ok d /\
    In (status d)
       [ "healthy"; "no_connection"; "dns_issue";
         "unstable_connection"; "slow_connection" ] /\
    status d <> "unknown".
Proof.
  destruct (get_diagnosis_first_match self m) as (d & Hd & Hs).
  exists d. split; [exact Hd|].
  unfold first_match, rules in Hs.
  destruct (negb (internet_connected m)), (negb (dns_working m)),
    (exceeds (loss (ping_google_dns m)) 20), (exceeds (avg (ping_google_dns m)) 100);
    cbn in Hs; injection Hs as <-; cbn; split; try discriminate; tauto.
Qed.

(** The digits [0] to [9] print as one character. *)
Lemma digits_of_Z_digit (z : Z) :
  (0 <= z < 10)%Z ->
  exists c, PyFloat.digits_of_Z z = String c "" /\ PyStr.is_decimal c = true.
Proof.
  intros Hz.
  assert (z = 0 \/ z = 1 \/ z = 2 \/ z = 3 \/ z = 4 \/
          z = 5 \/ z = 6 \/ z = 7 \/ z = 8 \/ z = 9)%Z as Hcases by lia.
  repeat (destruct Hcases as [-> | Hcases]; [eexists; split; reflexivity|]).
  subst z. eexists. split; reflexivity.
Qed.

(** [format(x, '.1f')] of a finite non-zero float: a sign, the digits of the
    whole part, a point and exactly one decimal digit. *)
Lemma format_1f_one_decimal (s : bool) (p : positive) (e : Z) :
  exists whole c,
    PyFloat.float_format_1f (S754_finite s p e)
    = PyFloat.sign_str s +:+ whole +:+ "." +:+ String c "" /\
    PyStr.is_decimal c = true.
Proof.
  unfold PyFloat.float_format_1f, PyFloat.fixed1.
  destruct (PyFloat.scale (Z.pos p) e) as [n q].
  set (t := PyFloat.round_half_even (10 * n) q).
  destruct (digits_of_Z_digit (t mod 10)) as (c & Hc & Hd).
  { apply Z.mod_pos_bound. lia. }
  exists (PyFloat.digits_of_Z (t / 10)), c. rewrite Hc. split; [reflexivity | exact Hd].
Qed.

(** The issue of the packet-loss rule embeds [str(loss)]. *)
Lemma unstable_issue (self : NetworkDiagnostics) (m : Measurement) (f : spec_float) :
  internet_connected m = true ->
  dns_working m = true ->
  loss (ping_google_dns m) = Some f ->
  PyFloat.gt_Z f 20 = true ->
  exists d,
    get_diagnosis self (Some (to_results m)) = Ok d /\
    issues d = ["High packet loss (" +:+ PyFloat.float_str f +:+ "%)"].
Proof.
  intros Hc Hd Hl Hf. rewrite diagnosis_connected by assumption.
  rewrite Hl. cbn [exceeds]. rewrite Hf.
  eexists. split; reflexivity.
Qed.

(** The issue of the latency rule embeds [format(avg, '.1f')]. *)
Lemma slow_issue (self : NetworkDiagnostics) (m : Measurement) (f : spec_float) :
  internet_connected m = true ->
  dns_working m = true ->
  exceeds (loss (ping_google_dns m)) 20 = false ->
  avg (ping_google_dns m) = Some f ->
  PyFloat.gt_Z f 100 = true ->
  exists d,
    get_diagnosis self (Some (to_results m)) = Ok d /\
    issues d = ["High latency (" +:+ PyFloat.float_format_1f f +:+ "ms)"].
Proof.
  intros Hc Hd Hl Ha Hf. rewrite diagnosis_connected by assumption.
  rewrite Hl, Ha. cbn [exceeds]. rewrite Hf.
  eexists. split; reflexivity.
Qed.

(** C7. The code at a packet loss of 25.0: the issue reads
    "High packet loss (25.0%)", the default conversion of the float, and not
    the zero-decimal "High packet loss (25%)"; at a latency of 150.0 the
    issue reads "High latency (150.0ms)", one decimal place. *)
Theorem C7_loss_rendered_by_str (self : NetworkDiagnostics) :
  get_diagnosis self (Some (to_results (measurement true true (Some 25%Z) None))) =
  Ok {| status := "unstable_connection";
        issues := ["High packet loss (25.0%)"];
        advice :=
          [ "Network connection is unstable";
            "Check Wi-Fi signal strength if using wireless";
            "Check network cables if using Ethernet";
            "Restart router if problem persists" ] |} /\
  "High packet loss (25.0%)" <> "High packet loss (25%)" /\
  get_diagnosis self (Some (to_results (measurement true true None (Some 150%Z)))) =
  Ok {| status := "slow_connection";
        issues := ["High latency (150.0ms)"];
        advice :=
          [ "Network latency is high";
            "Close bandwidth-intensive applications";
            "Check if others are using network heavily" ] |}.
Proof.
  split_and!.
  - rewrite diagnosis_connected by reflexivity. vm_compute. reflexivity.
  - discriminate.
  - rewrite diagnosis_connected by reflexivity. vm_compute. reflexivity.
Qed.

(** After a full diagnostic the stored results are well formed. *)
Lemma run_full_diagnostic_results (self : NetworkDiagnostics) (c : Probes) :
  run_full_diagnostic self c
  = ({| is_windows := is_windows self; results := to_results (collect c) |},
     to_results (collect c)).
Proof.
  assert (H : snd (run_full_diagnostic self c) = to_results (collect c)).
  { apply map_eq. intros k. reflexivity. }
  unfold run_full_diagnostic in *. cbn [snd] in H. rewrite H. reflexivity.
Qed.

Lemma reachable_inv (self : NetworkDiagnostics) :
  reachable self ->
  (exists w, self = Diagnostics.NetworkDiagnostics_init w) \/
  (exists c, results self = to_results (collect c)).
Proof.
  intros [w | self' c _].
  - left. exists w. reflexivity.
  - right. exists c. rewrite run_full_diagnostic_results. reflexivity.
Qed.

(** C9. [get_diagnosis] without a results argument, on an instance on which
    [run_full_diagnostic] was never invoked, raises [KeyError] for the key
    'internet_connected'; with stored or given well-formed results it raises
    nothing, so this is the one case that fails. *)
Theorem C9_key_error_before_first_run
    (self : NetworkDiagnostics) (arg : option (gmap string pyval)) :
  reachable self ->
  (arg = None \/ exists m, arg = Some (to_results m)) ->
  ((exists w, self = Diagnostics.NetworkDiagnostics_init w) /\ arg = None ->
     get_diagnosis self arg = Raise (KeyError "internet_connected")) /\
  ((exists e, get_diagnosis self arg = Raise e) <->
     (exists w, self = Diagnostics.NetworkDiagnostics_init w) /\ arg = None).
Proof.
  intros Hr Harg.
  assert (Hinit : (exists w, self = Diagnostics.NetworkDiagnostics_init w) /\ arg = None ->
                  get_diagnosis self arg = Raise (KeyError "internet_connected")).
  { intros [[w ->] ->]. reflexivity. }
  split; [exact Hinit|]. split.
  - intros [e He]. destruct Harg as [-> | [m ->]].
    + split; [|reflexivity].
      destruct (reachable_inv self Hr) as [Hw | [c Hc]]; [exact Hw|].
      exfalso. unfold get_diagnosis in He. rewrite Hc in He.
      destruct (get_diagnosis_first_match self (collect c)) as (d & Hd & _).
      unfold get_diagnosis in Hd. rewrite Hd in He. discriminate.
    + destruct (get_diagnosis_first_match self m) as (d & Hd & _).
      rewrite Hd in He. discriminate.
  - intros H. eexists. apply Hinit, H.
Qed.

Lemma C9_key_error_before_first_run_witness :
  get_diagnosis (Diagnostics.NetworkDiagnostics_init false) None = Raise (KeyError "internet_connected").
Proof.
  apply (proj1 (C9_key_error_before_first_run (Diagnostics.NetworkDiagnostics_init false) None
                  (reachable_init false) (or_introl eq_refl))).
  split; [exists false; reflexivity | reflexivity].
Defined.

End DiagnosisClaims.

(** ** The interface parsers *)

Section Parsers.
Import Py PyStr Checker.

(** An entry survives the final comprehension only with an address. *)
Lemma has_ip_address (i : InterfaceInfo) :
  has_ip i = true -> exists a, iface_ip i = Some a /\ a <> "".
Proof.
  unfold has_ip. destruct (iface_ip i) as [a|]; [|discriminate].
  intros H. exists a. split; [reflexivity|].
  intros ->. discriminate.
Qed.

Lemma flush_no_loopback (st : parser) :
  parser_no_loopback st -> Forall no_loopback (flush st).
Proof.
  intros [Hl Hc]. unfold flush.
  destruct (current_interface st) as [i|]; [|exact Hl].
  apply Forall_app. split; [exact Hl|].
  constructor; [apply Hc; reflexivity | constructor].
Qed.

Lemma ip_addr_line_no_loopback (st : parser) (line : string) :
  parser_no_loopback st -> parser_no_loopback (ip_addr_line st line).
Proof.
  intros Hst. unfold ip_addr_line.
  set (l := strip line).
  match goal with
  | |- parser_no_loopback (match current_interface ?s with _ => _ end) =>
      assert (Hheader : parser_no_loopback s); [|generalize dependent s]
  end.
  { destruct (starts_with_digit l && contains ":" l); [|exact Hst].
    destruct (split ":" l) as [|p0 [|p1 ps]].
    - split; [apply flush_no_loopback, Hst | apply Hst].
    - split; [apply flush_no_loopback, Hst | apply Hst].
    - split; [apply flush_no_loopback, Hst|].
      intros i [= <-] a. discriminate. }
  intros s Hs.
  destruct (current_interface s) as [cur|] eqn:Hcur; [|exact Hs].
  destruct (contains "inet " l); [|exact Hs].
  destruct (search_inet_quad l) as [a|]; [|exact Hs].
  destruct (startswith a "127.") eqn:Hlo; [exact Hs|].
  split; [apply Hs|].
  intros i [= <-] b [= <-]. exact Hlo.
Qed.

Lemma fold_ip_addr_no_loopback (lines : list string) (st : parser) :
  parser_no_loopback st ->
  parser_no_loopback (fold_left ip_addr_line lines st).
Proof.
  revert st. induction lines as [|line lines IH]; intros st Hst; [exact Hst|].
  apply IH, ip_addr_line_no_loopback, Hst.
Qed.

(** Every entry [_parse_ip_addr] returns has an address, and none of them
    starts with "127.". *)
Lemma parse_ip_addr_no_loopback (output : string) :
  Forall (fun i => exists a, iface_ip i = Some a /\ a <> "" /\
                             startswith a "127." = false)
         (_parse_ip_addr output).
Proof.
  unfold _parse_ip_addr. apply List.Forall_forall. intros i Hi.
  apply List.filter_In in Hi. destruct Hi as [Hin Hip].
  destruct (has_ip_address i Hip) as (a & Ha & Hne).
  exists a. split; [exact Ha|]. split; [exact Hne|].
  assert (Hall : Forall no_loopback
            (flush (fold_left ip_addr_line (split (ascii_of_N 10) output)
                      {| Checker.interfaces := []; current_interface := None |}))).
  { apply flush_no_loopback, fold_ip_addr_no_loopback.
    split; [constructor | discriminate]. }
  rewrite List.Forall_forall in Hall. apply (Hall i Hin a Ha).
Qed.

(** Every entry [_parse_ipconfig] returns has an address. *)
Lemma parse_ipconfig_has_address (output : string) :
  Forall (fun i => exists a, iface_ip i = Some a /\ a <> "")
         (_parse_ipconfig output).
Proof.
  unfold _parse_ipconfig. apply List.Forall_forall. intros i Hi.
  apply List.filter_In in Hi. destruct Hi as [_ Hip].
  apply has_ip_address, Hip.
Qed.

(** A line with a colon splits into at least two parts, so the test
    [len(parts) >= 2] of [_parse_ip_addr] never fails. *)
Lemma split_colon_two_parts (line : string) :
  contains ":" line = true ->
  exists p0 p1 ps, split ":" line = p0 :: p1 :: ps.
Proof.
  induction line as [|c line IH]; [discriminate|].
  cbn [split contains]. intros H.
  destruct (Ascii.eqb c ":") eqn:Hc.
  - destruct line as [|c' line']; cbn [split].
    + eauto.
    + destruct (Ascii.eqb c' ":"); [eauto|].
      destruct (split ":" line') as [|q qs]; eauto.
  - assert (Hp : String.prefix ":" (String c line) = false).
    { apply Ascii.eqb_neq in Hc. unfold String.prefix.
      destruct (ascii_dec ":" c) as [E|E]; [congruence | reflexivity]. }
    rewrite Hp in H. cbn [orb] in H.
    destruct (IH H) as (p0 & p1 & ps & ->). eauto.
Qed.

(** C8. Both parsers return only entries that have an address, and no entry
    of [_parse_ip_addr] has an address that starts with "127."; but
    [_parse_ipconfig] has no such test, and on an [ipconfig] listing whose
    adapter carries 127.0.0.1 it returns that adapter. *)
Theorem C8_ipconfig_keeps_loopback :
  (forall output,
     Forall (fun i => exists a, iface_ip i = Some a /\ a <> "")
            (_parse_ipconfig output)) /\
  (forall output,
     Forall (fun i => exists a, iface_ip i = Some a /\ a <> "" /\
                                startswith a "127." = false)
            (_parse_ip_addr output)) /\
  _parse_ipconfig loopback_ipconfig
  = [ {| iface_name := "Ethernet adapter Ethernet0";
         iface_type := "Ethernet";
         iface_ip := Some "127.0.0.1" |} ] /\
  startswith "127.0.0.1" "127." = true.
Proof.
  split_and!.
  - apply parse_ipconfig_has_address.
  - apply parse_ip_addr_no_loopback.
  - vm_compute. reflexivity.
  - reflexivity.
Qed.

End Parsers.

(** ** The monitor loop *)

Section MonitorLoop.
Import Py PyStr Diagnostics Monitor.

(** The stored results play no part when results are passed. *)
Lemma get_diagnosis_given (self self' : NetworkDiagnostics) (r : gmap string pyval) :
  is_windows self = is_windows self' ->
  get_diagnosis self (Some r) = get_diagnosis self' (Some r).
Proof. intros H. unfold get_diagnosis. rewrite H. reflexivity. Qed.

(** The diagnosis of the full diagnostic an iteration runs. *)
Lemma tick_diagnosis (self : NetworkMonitor) (c : Probes) :
  exists d,
    get_diagnosis (diagnostics self) (Some (to_results (collect c))) = Ok d.
Proof.
  destruct (get_diagnosis_first_match (diagnostics self) (collect c)) as (d & Hd & _).
  exists d. exact Hd.
Qed.

Lemma handle_restored (self : NetworkMonitor) (timestamp : string) (c : Probes) :
  previous_status self = Some false ->
  _handle_status_change self true timestamp c = Ok (self, restored_alert timestamp).
Proof. intros H. unfold _handle_status_change. rewrite H. reflexivity. Qed.

Lemma handle_initial_up (self : NetworkMonitor) (timestamp : string) (c : Probes) :
  previous_status self = None ->
  _handle_status_change self true timestamp c = Ok (self, initial_up timestamp).
Proof. intros H. unfold _handle_status_change. rewrite H. reflexivity. Qed.

Lemma handle_lost (self : NetworkMonitor) (timestamp : string) (c : Probes)
    (d : Diagnosis) :
  previous_status self = Some true ->
  get_diagnosis (diagnostics self) (Some (to_results (collect c))) = Ok d ->
  _handle_status_change self false timestamp c
  = Ok (after_diagnostic self c, lost_alert timestamp d).
Proof.
  intros H Hd. unfold _handle_status_change, after_diagnostic. rewrite H.
  rewrite run_full_diagnostic_results. cbn -[get_diagnosis to_results collect].
  rewrite (get_diagnosis_given _ (diagnostics self)) by reflexivity.
  rewrite Hd, bind_Ok. cbn [fst]. rewrite <- !app_assoc. reflexivity.
Qed.

Lemma handle_initial_down (self : NetworkMonitor) (timestamp : string) (c : Probes)
    (d : Diagnosis) :
  previous_status self = None ->
  get_diagnosis (diagnostics self) (Some (to_results (collect c))) = Ok d ->
  _handle_status_change self false timestamp c
  = Ok (after_diagnostic self c, initial_down timestamp d).
Proof.
  intros H Hd. unfold _handle_status_change, after_diagnostic. rewrite H.
  rewrite run_full_diagnostic_results. cbn -[get_diagnosis to_results collect].
  rewrite (get_diagnosis_given _ (diagnostics self)) by reflexivity.
  rewrite Hd, bind_Ok. cbn [fst]. rewrite <- !app_assoc. reflexivity.
Qed.

(** *** The sleep at the end of an iteration *)

Lemma time_sleep_granted (i : Z) :
  (0 <= i <= sleep_granted)%Z -> time_sleep i = Ok [Sleep i].
Proof.
  intros H. unfold time_sleep.
  assert (E1 : (i <? - sleep_limit)%Z = false)
    by (apply Z.ltb_ge; unfold sleep_limit, sleep_granted in *; lia).
  assert (E2 : (sleep_limit <? i)%Z = false)
    by (apply Z.ltb_ge; unfold sleep_limit, sleep_granted in *; lia).
  assert (E3 : (i <? 0)%Z = false) by (apply Z.ltb_ge; lia).
  rewrite E1, E2, E3. reflexivity.
Qed.

Lemma time_sleep_negative (i : Z) :
  (- sleep_limit <= i < 0)%Z -> time_sleep i = Raise ValueError.
Proof.
  intros H. unfold time_sleep.
  assert (E1 : (i <? - sleep_limit)%Z = false) by (apply Z.ltb_ge; lia).
  assert (E2 : (sleep_limit <? i)%Z = false)
    by (apply Z.ltb_ge; unfold sleep_limit in *; lia).
  assert (E3 : (i <? 0)%Z = true) by (apply Z.ltb_lt; lia).
  rewrite E1, E2, E3. reflexivity.
Qed.

Lemma time_sleep_overflow (i : Z) :
  (i < - sleep_limit \/ sleep_limit < i)%Z -> time_sleep i = Raise OverflowError.
Proof.
  intros H. unfold time_sleep.
  destruct (Z.ltb_spec i (- sleep_limit)); [reflexivity|].
  destruct (Z.ltb_spec sleep_limit i); [reflexivity|lia].
Qed.

(** The status is stored, then the loop sleeps. *)
Lemma tick_sleep (s1 : NetworkMonitor) (c : bool) (out : list event) :
  (0 <= interval s1 <= sleep_granted)%Z ->
  (slept ← time_sleep (interval (set_previous_status s1 c));
   Ok (set_previous_status s1 c, out ++ slept))
  = Ok (set_previous_status s1 c, out ++ [Sleep (interval s1)]).
Proof.
  intros H. change (interval (set_previous_status s1 c)) with (interval s1).
  rewrite time_sleep_granted by exact H. reflexivity.
Qed.

(** *** One iteration, case by case *)

Section Tick.
Variable callback : bool.
Variable self : NetworkMonitor.
Variable t : Tick.
Hypothesis Hi : (0 <= interval self <= sleep_granted)%Z.

Lemma tick_heartbeat :
  previous_status self = Some (is_connected t) ->
  monitor_tick callback self t
  = Ok (set_previous_status self (is_connected t),
        [Stdout (heartbeat (now t) (is_connected t)); Sleep (interval self)]).
Proof.
  intros H. unfold monitor_tick. rewrite H.
  destruct (is_connected t); cbn [status_eqb Bool.eqb negb];
    rewrite bind_Ok; cbn beta iota; apply tick_sleep, Hi.
Qed.

Lemma tick_initial_up :
  previous_status self = None ->
  is_connected t = true ->
  monitor_tick callback self t
  = Ok (set_previous_status self true,
        initial_up (now t) ++ callback_call callback t ++ [Sleep (interval self)]).
Proof.
  intros H Hc. unfold monitor_tick, callback_call. rewrite Hc.
  rewrite handle_initial_up by exact H. rewrite H.
  cbn [status_eqb negb]. rewrite !bind_Ok. cbn beta iota.
  rewrite tick_sleep by exact Hi. rewrite <- app_assoc. reflexivity.
Qed.

Lemma tick_restored :
  previous_status self = Some false ->
  is_connected t = true ->
  monitor_tick callback self t
  = Ok (set_previous_status self true,
        restored_alert (now t) ++ callback_call callback t ++
        [Sleep (interval self)]).
Proof.
  intros H Hc. unfold monitor_tick, callback_call. rewrite Hc.
  rewrite handle_restored by exact H. rewrite H.
  cbn [status_eqb Bool.eqb negb]. rewrite !bind_Ok. cbn beta iota.
  rewrite tick_sleep by exact Hi. rewrite <- app_assoc. reflexivity.
Qed.

Lemma tick_lost (d : Diagnosis) :
  previous_status self = Some true ->
  is_connected t = false ->
  get_diagnosis (diagnostics self) (Some (to_results (collect (probes t)))) = Ok d ->
  monitor_tick callback self t
  = Ok (set_previous_status (after_diagnostic self (probes t)) false,
        lost_alert (now t) d ++ callback_call callback t ++
        [Sleep (interval self)]).
Proof.
  intros H Hc Hd. unfold monitor_tick, callback_call. rewrite Hc.
  rewrite (handle_lost _ _ _ d) by assumption. rewrite H.
  cbn [status_eqb Bool.eqb negb]. rewrite !bind_Ok. cbn beta iota.
  rewrite tick_sleep by exact Hi. rewrite <- app_assoc. reflexivity.
Qed.

Lemma tick_initial_down (d : Diagnosis) :
  previous_status self = None ->
  is_connected t = false ->
  get_diagnosis (diagnostics self) (Some (to_results (collect (probes t)))) = Ok d ->
  monitor_tick callback self t
  = Ok (set_previous_status (after_diagnostic self (probes t)) false,
        initial_down (now t) d ++ callback_call callback t ++
        [Sleep (interval self)]).
Proof.
  intros H Hc Hd. unfold monitor_tick, callback_call. rewrite Hc.
  rewrite (handle_initial_down _ _ _ d) by assumption. rewrite H.
  cbn [status_eqb negb]. rewrite !bind_Ok. cbn beta iota.
  rewrite tick_sleep by exact Hi. rewrite <- app_assoc. reflexivity.
Qed.

End Tick.

(** *** Callbacks and full diagnostics in the output of an iteration *)

Lemma callbacks_app (xs ys : list event) :
  callbacks (xs ++ ys) = callbacks xs ++ callbacks ys.
Proof. apply List.filter_app. Qed.

Lemma full_diagnostics_app (xs ys : list event) :
  full_diagnostics (xs ++ ys) = (full_diagnostics xs + full_diagnostics ys)%nat.
Proof.
  unfold full_diagnostics. rewrite List.filter_app. apply List.length_app.
Qed.

Lemma print_section_prints (title : string) (xs : list string) :
  callbacks (print_section title xs) = [] /\
  full_diagnostics (print_section title xs) = 0%nat.
Proof.
  assert (H : forall ys, callbacks (print_items ys) = [] /\
                         full_diagnostics (print_items ys) = 0%nat).
  { induction ys as [|y ys [IH1 IH2]]; split; try reflexivity; assumption. }
  destruct xs as [|x xs]; [split; reflexivity|].
  exact (H (x :: xs)).
Qed.

Lemma lost_alert_events (timestamp : string) (d : Diagnosis) :
  callbacks (lost_alert timestamp d) = [] /\
  full_diagnostics (lost_alert timestamp d) = 1%nat.
Proof.
  unfold lost_alert.
  destruct (print_section_prints (newline +:+ "Reason:") (issues d)) as [C1 F1].
  destruct (print_section_prints (newline +:+ "Advice:") (advice d)) as [C2 F2].
  rewrite !callbacks_app, !full_diagnostics_app, C1, C2, F1, F2.
  split; reflexivity.
Qed.

Lemma initial_down_events (timestamp : string) (d : Diagnosis) :
  callbacks (initial_down timestamp d) = [] /\
  full_diagnostics (initial_down timestamp d) = 1%nat.
Proof.
  unfold initial_down.
  destruct (print_section_prints (newline +:+ "Issues detected:") (issues d))
    as [C1 F1].
  destruct (print_section_prints (newline +:+ "Recommended actions:") (advice d))
    as [C2 F2].
  rewrite !callbacks_app, !full_diagnostics_app, C1, C2, F1, F2.
  split; reflexivity.
Qed.

Lemma callback_call_events (callback : bool) (t : Tick) :
  callbacks (callback_call callback t) = callback_call callback t /\
  full_diagnostics (callback_call callback t) = 0%nat.
Proof. destruct callback; split; reflexivity. Qed.

(** An iteration with an interval that is slept returns; it stores the
    status it observed, keeps the interval and the platform flag, calls the
    callback exactly when the observation differs from the stored status, and
    runs a full diagnostic exactly when it observes down after up or down on
    the first check. *)
Lemma tick_total (callback : bool) (self : NetworkMonitor) (t : Tick) :
  (0 <= interval self <= sleep_granted)%Z ->
  exists self' out,
    monitor_tick callback self t = Ok (self', out) /\
    previous_status self' = Some (is_connected t) /\
    interval self' = interval self /\
    callbacks out =
      (if status_eqb (Some (is_connected t)) (previous_status self) then []
       else callback_call callback t) /\
    full_diagnostics out =
      (if negb (is_connected t) &&
          negb (status_eqb (Some false) (previous_status self))
       then 1%nat else 0%nat).
Proof.
  intros Hi.
  destruct (tick_diagnosis self (probes t)) as [d Hd].
  destruct (previous_status self) as [[|]|] eqn:Hp;
    destruct (is_connected t) eqn:Hc.
  - rewrite tick_heartbeat by (assumption || congruence). rewrite Hc.
    do 2 eexists. split_and!; reflexivity.
  - rewrite tick_lost with (d := d) by assumption.
    do 2 eexists. split; [reflexivity|].
    destruct (lost_alert_events (now t) d) as [C F].
    destruct (callback_call_events callback t) as [C' F'].
    rewrite !callbacks_app, !full_diagnostics_app, C, F, C', F'.
    cbn. rewrite ?app_nil_r. split_and!; reflexivity.
  - rewrite tick_restored by assumption.
    destruct (callback_call_events callback t) as [C' F'].
    do 2 eexists. split; [reflexivity|].
    rewrite !callbacks_app, !full_diagnostics_app, C', F'.
    cbn. rewrite ?app_nil_r. split_and!; reflexivity.
  - rewrite tick_heartbeat by (assumption || congruence). rewrite Hc.
    do 2 eexists. split_and!; reflexivity.
  - rewrite tick_initial_up by assumption.
    destruct (callback_call_events callback t) as [C' F'].
    do 2 eexists. split; [reflexivity|].
    rewrite !callbacks_app, !full_diagnostics_app, C', F'.
    cbn. rewrite ?app_nil_r. split_and!; reflexivity.
  - rewrite tick_initial_down with (d := d) by assumption.
    do 2 eexists. split; [reflexivity|].
    destruct (initial_down_events (now t) d) as [C F].
    destruct (callback_call_events callback t) as [C' F'].
    rewrite !callbacks_app, !full_diagnostics_app, C, F, C', F'.
    cbn. rewrite ?app_nil_r. split_and!; reflexivity.
Qed.

Lemma status_eqb_eq (x y : option bool) : status_eqb x y = true <-> x = y.
Proof. destruct x as [[|]|], y as [[|]|]; cbn; split; congruence. Qed.

Lemma last_cons_default {A : Type} (l : list A) (a d : A) :
  List.last (a :: l) d = List.last l a.
Proof.
  revert a d. induction l as [|b l IH]; intros a d; [reflexivity|].
  change (List.last (a :: b :: l) d) with (List.last (b :: l) d).
  rewrite !IH. reflexivity.
Qed.

(** A run of the loop returns; it ends with the last observation stored, and
    the callback, if given, was called as [expected_callbacks] says. *)
Lemma loop_total (callback : bool) (ts : list Tick) (self : NetworkMonitor) :
  (0 <= interval self <= sleep_granted)%Z ->
  exists self' out,
    monitor_loop callback self ts = Ok (self', out) /\
    previous_status self'
    = List.last (map (fun t => Some (is_connected t)) ts) (previous_status self) /\
    callbacks out
    = (if callback then expected_callbacks (previous_status self) ts else []).
Proof.
  revert self. induction ts as [|t ts IH]; intros self Hi.
  - exists self, []. split_and!; [reflexivity.. | destruct callback; reflexivity].
  - destruct (tick_total callback self t Hi) as (s1 & o1 & H1 & Hp & Hi1 & Hc & _).
    rewrite <- Hi1 in Hi.
    destruct (IH s1 Hi) as (s2 & o2 & H2 & Hp2 & Hc2).
    exists s2, (o1 ++ o2). cbn [monitor_loop]. rewrite H1, bind_Ok.
    cbn beta iota. rewrite H2, bind_Ok. split; [reflexivity|]. split.
    + rewrite Hp2, Hp. cbn [map]. rewrite last_cons_default. reflexivity.
    + rewrite callbacks_app, Hc, Hc2, Hp. cbn [expected_callbacks].
      destruct callback; [reflexivity|].
      destruct (status_eqb _ _); reflexivity.
Qed.

(** C6.  Over five iterations that observe up, up, down, down,
    up the loop of a monitor with an interval from 0 to [sleep_granted]
    seconds emits the initial-up line, a heartbeat, the LOST alert with
    one full diagnostic, a heartbeat for the second down, and the RESTORED
    alert, which runs no diagnostic: one full diagnostic run in all.  An
    iteration whose observation equals the stored status emits only the
    heartbeat, so alerts fire on a change of status and not on its level. *)
Theorem C6_five_ticks (callback w : bool) (i : Z) (t1 t2 t3 t4 t5 : Tick) :
  (0 <= i <= sleep_granted)%Z ->
  map is_connected [t1; t2; t3; t4; t5] = [true; true; false; false; true] ->
  (exists self' d,
     get_diagnosis (Diagnostics.NetworkDiagnostics_init w)
       (Some (to_results (collect (probes t3)))) = Ok d /\
     monitor_loop callback (Monitor.NetworkMonitor_init w i) [t1; t2; t3; t4; t5]
     = Ok (self',
           (initial_up (now t1) ++ callback_call callback t1 ++ [Sleep i]) ++
           [Stdout (heartbeat (now t2) true); Sleep i] ++
           (lost_alert (now t3) d ++ callback_call callback t3 ++ [Sleep i]) ++
           [Stdout (heartbeat (now t4) false); Sleep i] ++
           (restored_alert (now t5) ++ callback_call callback t5 ++ [Sleep i])) /\
     full_diagnostics
       (trace (monitor_loop callback (Monitor.NetworkMonitor_init w i) [t1; t2; t3; t4; t5]))
     = 1%nat /\
     full_diagnostics (lost_alert (now t3) d) = 1%nat /\
     full_diagnostics (restored_alert (now t5)) = 0%nat) /\
  (forall self t,
     (0 <= interval self <= sleep_granted)%Z ->
     previous_status self = Some (is_connected t) ->
     monitor_tick callback self t
     = Ok (set_previous_status self (is_connected t),
           [Stdout (heartbeat (now t) (is_connected t)); Sleep (interval self)])).
Proof.
  intros Hi H. injection H as H1 H2 H3 H4 H5.
  split; [|intros self t; apply tick_heartbeat].
  destruct (tick_diagnosis (Monitor.NetworkMonitor_init w i) (probes t3)) as [d Hd].
  cbn [Monitor.NetworkMonitor_init diagnostics] in Hd.
  assert (Hrun : exists self',
    monitor_loop callback (Monitor.NetworkMonitor_init w i) [t1; t2; t3; t4; t5]
    = Ok (self',
          (initial_up (now t1) ++ callback_call callback t1 ++ [Sleep i]) ++
          [Stdout (heartbeat (now t2) true); Sleep i] ++
          (lost_alert (now t3) d ++ callback_call callback t3 ++ [Sleep i]) ++
          [Stdout (heartbeat (now t4) false); Sleep i] ++
          (restored_alert (now t5) ++ callback_call callback t5 ++ [Sleep i]))).
  { cbn [monitor_loop].
    rewrite tick_initial_up by (reflexivity || assumption). rewrite bind_Ok.
    cbn beta iota.
    rewrite tick_heartbeat by (assumption || (rewrite H2; reflexivity)). rewrite bind_Ok, H2.
    cbn beta iota.
    rewrite tick_lost with (d := d) by (reflexivity || assumption). rewrite bind_Ok.
    cbn beta iota.
    rewrite tick_heartbeat by (assumption || (rewrite H4; reflexivity)). rewrite bind_Ok, H4.
    cbn beta iota.
    rewrite tick_restored by (reflexivity || assumption). rewrite !bind_Ok.
    cbn beta iota. rewrite app_nil_r. eexists. reflexivity. }
  destruct Hrun as [self' Hrun].
  exists self', d. split; [exact Hd|].
  split; [exact Hrun|].
  rewrite Hrun. cbn [trace].
  destruct (lost_alert_events (now t3) d) as [_ F].
  rewrite !full_diagnostics_app, F.
  rewrite !(proj2 (callback_call_events callback _)).
  split_and!; reflexivity.
Qed.

Lemma C6_five_ticks_witness :
  full_diagnostics (trace (monitor_loop true (Monitor.NetworkMonitor_init false 10) five_ticks))
  = 1%nat.
Proof.
  assert (Hi : (0 <= 10 <= sleep_granted)%Z) by (unfold sleep_granted; lia).
  destruct (C6_five_ticks true false 10
              (nth 0 five_ticks (Build_Tick "" true sample_probes))
              (nth 1 five_ticks (Build_Tick "" true sample_probes))
              (nth 2 five_ticks (Build_Tick "" true sample_probes))
              (nth 3 five_ticks (Build_Tick "" true sample_probes))
              (nth 4 five_ticks (Build_Tick "" true sample_probes))
              Hi eq_refl)
    as [(self' & d & _ & _ & H & _) _].
  exact H.
Defined.

(** The five sample iterations observe up, up, down, down, up and do not
    trigger two full diagnostic runs. *)
Lemma C6_two_runs_counterexample :
  map is_connected five_ticks = [true; true; false; false; true] /\
  full_diagnostics (trace (monitor_loop false (Monitor.NetworkMonitor_init false 10) five_ticks))
  <> 2%nat.
Proof.
  split; [reflexivity|]. vm_compute. discriminate.
Qed.

(** C10. The monitor starts with no previous status.  With an interval
    from 0 to [sleep_granted] seconds every iteration returns and leaves in
    [previous_status] the connectivity it observed; the callback is called
    exactly in the iterations whose observation differs from the status
    stored before, which includes the first one, and never in a heartbeat
    iteration.  Over a whole run the last observation is stored and the
    calls are those of [expected_callbacks]. *)
Theorem C10_previous_status_and_callback (callback : bool) (self : NetworkMonitor) :
  (0 <= interval self <= sleep_granted)%Z ->
  (forall w i, previous_status (Monitor.NetworkMonitor_init w i) = None) /\
  (forall t,
     exists self' out,
       monitor_tick callback self t = Ok (self', out) /\
       previous_status self' = Some (is_connected t) /\
       (forall e, In e out /\ is_callback e = true <->
                  callback = true /\
                  previous_status self <> Some (is_connected t) /\
                  e = Callback (is_connected t) (now t)) /\
       (previous_status self = Some (is_connected t) ->
          out = [Stdout (heartbeat (now t) (is_connected t));
                 Sleep (interval self)])) /\
  (forall ts,
     exists self' out,
       monitor_loop callback self ts = Ok (self', out) /\
       previous_status self'
       = List.last (map (fun t => Some (is_connected t)) ts) (previous_status self) /\
       callbacks out
       = (if callback then expected_callbacks (previous_status self) ts else [])).
Proof.
  intros Hi. split_and!.
  - reflexivity.
  - intros t.
    destruct (tick_total callback self t Hi) as (self' & out & Hrun & Hp & _ & Hc & _).
    exists self', out. split_and!; [exact Hrun | exact Hp | |].
    + intros e. rewrite <- List.filter_In. fold (callbacks out). rewrite Hc.
      destruct (status_eqb (Some (is_connected t)) (previous_status self)) eqn:E.
      * apply status_eqb_eq in E. split; [intros []|].
        intros (_ & Hne & _). congruence.
      * assert (Hne : previous_status self <> Some (is_connected t)).
        { intros Heq. rewrite Heq in E.
          destruct (is_connected t); discriminate. }
        unfold callback_call. destruct callback; cbn.
        -- split; [intros [<- | []]; auto | intros (_ & _ & ->); auto].
        -- split; [intros [] | intros (Hf & _); discriminate].
    + intros Heq. rewrite tick_heartbeat in Hrun by assumption.
      injection Hrun as _ <-. reflexivity.
  - intros ts. apply loop_total, Hi.
Qed.

Lemma C10_previous_status_and_callback_witness :
  exists self' out,
    monitor_loop true (Monitor.NetworkMonitor_init false 10) five_ticks
    = Ok (self', out) /\
    previous_status self' = Some true /\
    callbacks out =
      [ Callback true "2024-01-01 00:00:00";
        Callback false "2024-01-01 00:00:20";
        Callback true "2024-01-01 00:00:40" ].
Proof.
  assert (Hi : (0 <= interval (Monitor.NetworkMonitor_init false 10) <= sleep_granted)%Z)
    by (unfold sleep_granted; cbn; lia).
  destruct (C10_previous_status_and_callback true
              (Monitor.NetworkMonitor_init false 10) Hi) as (_ & _ & H).
  exact (H five_ticks).
Defined.

End MonitorLoop.

(** * Further properties *)

(** ** The diagnosis engine beyond well-formed results *)

Section DiagnosisMore.
Import Py Diagnostics QuickStatus.

Lemma to_results_truthy (m : Measurement) : dict_truthy (to_results m) = true.
Proof. reflexivity. Qed.

(** The stored results of an instance are empty or well formed. *)
Lemma reachable_results (self : NetworkDiagnostics) :
  reachable self ->
  results self = ∅ \/ exists c, results self = to_results (collect c).
Proof.
  intros H. destruct (reachable_inv self H) as [[w ->] | Hc]; [left | right].
  - reflexivity.
  - exact Hc.
Qed.

Lemma get_diagnosis_stored (self : NetworkDiagnostics) (m : Measurement) :
  results self = to_results m ->
  get_diagnosis self None = get_diagnosis self (Some (to_results m)).
Proof. intros H. unfold get_diagnosis. rewrite H. reflexivity. Qed.

(** X1. [get_quick_status] never raises on an instance, whether or not a
    diagnostic was run: before the first run it answers "Unknown - Run
    diagnostic first" (where [get_diagnosis] raises [KeyError]); after a run
    with the probes [c] it answers the line of the first rule that matches
    what was collected, and never the fallback "Unknown status". *)
Theorem X1_quick_status (self : NetworkDiagnostics) :
  reachable self ->
  (results self = ∅ ->
     get_quick_status self = Ok "Unknown - Run diagnostic first") /\
  (forall c,
     results self = to_results (collect c) ->
     get_quick_status self =
     Ok (if negb (success (ping_host c "8.8.8.8")) then
           "No internet connection [FAIL]"
         else if negb (check_dns c "google.com") then
           "Connected but DNS not working [WARNING]"
         else if exceeds (loss (ping_host c "8.8.8.8")) 20 then
           "Unstable connection (high packet loss) [WARNING]"
         else if exceeds (avg (ping_host c "8.8.8.8")) 100 then
           "Slow connection (high latency) [WARNING]"
         else "Internet is working normally [OK]")) /\
  exists line,
    get_quick_status self = Ok line /\ line <> "Unknown status".
Proof.
  intros Hr.
  assert (H0 : results self = ∅ ->
               get_quick_status self = Ok "Unknown - Run diagnostic first").
  { intros H. unfold get_quick_status. rewrite H. reflexivity. }
  assert (H1 : forall c,
     results self = to_results (collect c) ->
     get_quick_status self =
     Ok (if negb (success (ping_host c "8.8.8.8")) then
           "No internet connection [FAIL]"
         else if negb (check_dns c "google.com") then
           "Connected but DNS not working [WARNING]"
         else if exceeds (loss (ping_host c "8.8.8.8")) 20 then
           "Unstable connection (high packet loss) [WARNING]"
         else if exceeds (avg (ping_host c "8.8.8.8")) 100 then
           "Slow connection (high latency) [WARNING]"
         else "Internet is working normally [OK]")).
  { intros c H. unfold get_quick_status.
    rewrite (get_diagnosis_stored self (collect c) H), H, to_results_truthy.
    cbn [negb].
    destruct (success (ping_host c "8.8.8.8")) eqn:Hs.
    2:{ rewrite diagnosis_no_connection by exact Hs. reflexivity. }
    destruct (check_dns c "google.com") eqn:Hd.
    2:{ rewrite diagnosis_dns_issue by assumption. reflexivity. }
    rewrite diagnosis_connected by assumption.
    cbn [collect ping_google_dns negb].
    destruct (exceeds (loss (ping_host c "8.8.8.8")) 20); [reflexivity|].
    destruct (exceeds (avg (ping_host c "8.8.8.8")) 100) eqn:Ha; [|reflexivity].
    apply exceeds_Some in Ha. destruct Ha as (f & -> & _). reflexivity. }
  split; [exact H0|]. split; [exact H1|].
  destruct (reachable_results self Hr) as [He | [c Hc]].
  - rewrite (H0 He). eexists. split; [reflexivity | discriminate].
  - rewrite (H1 c Hc). eexists. split; [reflexivity|].
    destruct (negb _); [discriminate|].
    destruct (negb _); [discriminate|].
    destruct (exceeds _ _); [discriminate|].
    destruct (exceeds _ _); discriminate.
Qed.

Lemma X1_quick_status_witness :
  get_quick_status (NetworkDiagnostics_init false)
  = Ok "Unknown - Run diagnostic first".
Proof.
  apply (proj1 (X1_quick_status (NetworkDiagnostics_init false)
                  (reachable_init false))).
  reflexivity.
Defined.

End DiagnosisMore.

Section DiagnosisFrame.
Import Py Diagnostics.

(** X2. The diagnosis depends on six things only: the platform flag, the
    connectivity and DNS flags, whether a local address and a gateway are
    present, and the loss and latency of the ping of 8.8.8.8.  The external
    address, the interfaces, the ping of the domain, the [success] field of
    the ping dictionary, the text of the addresses and the stored results
    play no part. *)
Theorem X2_diagnosis_frame (self self' : NetworkDiagnostics) (m m' : Measurement) :
  is_windows self = is_windows self' ->
  internet_connected m = internet_connected m' ->
  dns_working m = dns_working m' ->
  (local_ip m = None <-> local_ip m' = None) ->
  (gateway m = None <-> gateway m' = None) ->
  loss (ping_google_dns m) = loss (ping_google_dns m') ->
  avg (ping_google_dns m) = avg (ping_google_dns m') ->
  get_diagnosis self (Some (to_results m))
  = get_diagnosis self' (Some (to_results m')).
Proof.
  intros Hw Hc Hd Hl Hg Hloss Havg.
  destruct (internet_connected m) eqn:Ec.
  2:{ rewrite !diagnosis_no_connection by congruence.
      destruct Hl as [Hl1 Hl2], Hg as [Hg1 Hg2].
      destruct (local_ip m) as [a|], (local_ip m') as [a'|];
        try discriminate (Hl1 eq_refl); try discriminate (Hl2 eq_refl);
        [|reflexivity].
      destruct (gateway m) as [g|], (gateway m') as [g'|];
        try discriminate (Hg1 eq_refl); try discriminate (Hg2 eq_refl);
        reflexivity. }
  destruct (dns_working m) eqn:Ed.
  2:{ rewrite !diagnosis_dns_issue by congruence. rewrite Hw. reflexivity. }
  rewrite !diagnosis_connected by congruence.
  rewrite Hloss, Havg. reflexivity.
Qed.

Lemma X2_diagnosis_frame_witness :
  get_diagnosis (NetworkDiagnostics_init true)
    (Some (to_results (measurement true true (Some 50%Z) None)))
  = get_diagnosis (NetworkDiagnostics_init true)
      (Some (to_results
               {| local_ip := Some router_address;
                  external_ip := Some "203.0.113.7";
                  gateway := Some host_address;
                  interfaces :=
                    [ {| iface_name := "eth0"; iface_type := "Ethernet";
                         iface_ip := Some "192.168.1.5" |} ];
                  ping_google_dns :=
                    {| success := false; avg := None;
                       loss := Some (PyFloat.of_Z 50) |};
                  ping_domain :=
                    {| success := false; avg := Some (PyFloat.of_Z 900);
                       loss := Some (PyFloat.of_Z 100) |};
                  dns_working := true;
                  internet_connected := true |})).
Proof.
  apply X2_diagnosis_frame;
    try reflexivity; split; discriminate.
Defined.

(** X3. A full diagnostic stores what it returns, so [get_diagnosis] without
    an argument then gives the diagnosis of the returned results; and that
    diagnosis is [no_connection] exactly when the ping of 8.8.8.8 failed,
    whatever the DNS check and the ping of the domain answered. *)
Theorem X3_run_then_diagnose (self : NetworkDiagnostics) (c : Probes) :
  let '(self', results) := run_full_diagnostic self c in
  get_diagnosis self' None = get_diagnosis self (Some results) /\
  exists d,
    get_diagnosis self' None = Ok d /\
    (status d = "no_connection" <-> success (ping_host c "8.8.8.8") = false) /\
    (status d = "dns_issue" <->
       success (ping_host c "8.8.8.8") = true /\ check_dns c "google.com" = false).
Proof.
  rewrite run_full_diagnostic_results.
  assert (E : get_diagnosis
                {| is_windows := is_windows self;
                   results := to_results (collect c) |} None
              = get_diagnosis self (Some (to_results (collect c)))).
  { reflexivity. }
  split; [exact E|]. rewrite E.
  destruct (get_diagnosis_first_match self (collect c)) as (d & Hd & Hs).
  exists d. split; [exact Hd|].
  unfold first_match, rules in Hs. cbn [collect internet_connected dns_working] in Hs.
  destruct (success (ping_host c "8.8.8.8")), (check_dns c "google.com");
    cbn in Hs.
  - destruct (exceeds _ 20); [|destruct (exceeds _ 100)];
      cbn in Hs; injection Hs as <-; split; split;
      try discriminate; intros [? ?]; discriminate.
  - injection Hs as <-. split; split; try discriminate; auto.
  - injection Hs as <-. split; split; try discriminate; auto.
    intros [? ?]; discriminate.
  - injection Hs as <-. split; split; try discriminate; auto.
    intros [? ?]; discriminate.
Qed.

(** X4. Keys are read lazily, in the order of the cascade.  A dictionary
    without 'internet_connected' raises [KeyError] for it.  With a falsy
    'internet_connected' only 'local_ip' and, if that is truthy, 'gateway'
    are read: a missing 'dns_working' or 'ping_google_dns' goes unnoticed.
    With a truthy 'internet_connected' a missing 'dns_working' raises
    [KeyError], and with both truthy a missing 'ping_google_dns' does. *)
Theorem X4_missing_keys (self : NetworkDiagnostics)
    (r : gmap string pyval) (v : pyval) :
  (r !! "internet_connected" = None ->
     get_diagnosis self (Some r) = Raise (KeyError "internet_connected")) /\
  (r !! "internet_connected" = Some v -> truthy v = false ->
     r !! "local_ip" = None ->
     get_diagnosis self (Some r) = Raise (KeyError "local_ip")) /\
  (r !! "internet_connected" = Some v -> truthy v = false ->
     forall a, r !! "local_ip" = Some a -> truthy a = true ->
     r !! "gateway" = None ->
     get_diagnosis self (Some r) = Raise (KeyError "gateway")) /\
  (r !! "internet_connected" = Some v -> truthy v = false ->
     forall a, r !! "local_ip" = Some a -> truthy a = false ->
     get_diagnosis self (Some r) =
     get_diagnosis self
       (Some {[ "internet_connected" := v; "local_ip" := a ]})) /\
  (r !! "internet_connected" = Some v -> truthy v = true ->
     r !! "dns_working" = None ->
     get_diagnosis self (Some r) = Raise (KeyError "dns_working")) /\
  (r !! "internet_connected" = Some v -> truthy v = true ->
     forall w, r !! "dns_working" = Some w -> truthy w = true ->
     r !! "ping_google_dns" = None ->
     get_diagnosis self (Some r) = Raise (KeyError "ping_google_dns")).
Proof.
  split_and!.
  - intros H. unfold get_diagnosis, getitem. rewrite H. reflexivity.
  - intros H Hv Hl. unfold get_diagnosis, getitem. rewrite H, bind_Ok, Hv.
    cbn [negb]. rewrite Hl. reflexivity.
  - intros H Hv a Hl Ha Hg. unfold get_diagnosis, getitem.
    rewrite H, bind_Ok, Hv. cbn [negb]. rewrite Hl, bind_Ok, Ha. cbn [negb].
    rewrite Hg. reflexivity.
  - intros H Hv a Hl Ha.
    assert (E1 : ({[ "internet_connected" := v; "local_ip" := a ]}
                    : gmap string pyval) !! "internet_connected" = Some v)
      by reflexivity.
    assert (E2 : ({[ "internet_connected" := v; "local_ip" := a ]}
                    : gmap string pyval) !! "local_ip" = Some a)
      by reflexivity.
    unfold get_diagnosis, getitem.
    rewrite H, E1, !bind_Ok, Hv. cbn [negb].
    rewrite Hl, E2, !bind_Ok, Ha. reflexivity.
  - intros H Hv Hd. unfold get_diagnosis, getitem. rewrite H, bind_Ok, Hv.
    cbn [negb]. rewrite Hd. reflexivity.
  - intros H Hv w Hd Hw Hp. unfold get_diagnosis, getitem.
    rewrite H, bind_Ok, Hv. cbn [negb]. rewrite Hd, bind_Ok, Hw. cbn [negb].
    unfold truthy_and_gt, ping_item, getitem. rewrite Hp. reflexivity.
Qed.

Lemma X4_missing_keys_witness :
  get_diagnosis (NetworkDiagnostics_init false)
    (Some {[ "internet_connected" := VScalar (PBool true);
             "local_ip" := VScalar (PStr "192.168.1.5") ]})
  = Raise (KeyError "dns_working") /\
  get_diagnosis (NetworkDiagnostics_init false)
    (Some {[ "internet_connected" := VScalar (PBool false);
             "gateway" := VScalar PNone ]})
  = Raise (KeyError "local_ip").
Proof.
  split.
  - apply (X4_missing_keys (NetworkDiagnostics_init false)
             {[ "internet_connected" := VScalar (PBool true);
                "local_ip" := VScalar (PStr "192.168.1.5") ]}
             (VScalar (PBool true))); reflexivity.
  - apply (X4_missing_keys (NetworkDiagnostics_init false)
             {[ "internet_connected" := VScalar (PBool false);
                "gateway" := VScalar PNone ]}
             (VScalar (PBool false))); reflexivity.
Defined.

End DiagnosisFrame.

(** ** Numbers in the issue strings *)

Section IssueNumbers.
Import Py Diagnostics Shapes.

Lemma append_assoc (a b c : string) : (a +:+ b) +:+ c = a +:+ (b +:+ c).
Proof.
  induction a as [|x a IH]; [reflexivity|].
  change (String x ((a +:+ b) +:+ c) = String x (a +:+ (b +:+ c))).
  rewrite IH. reflexivity.
Qed.

Lemma string_of_uint_decimal (d : Decimal.uint) :
  all_decimal (NilEmpty.string_of_uint d) = true.
Proof. induction d; cbn; try reflexivity; exact IHd. Qed.

(** The decimal digits of an integer: a non-empty run of digits. *)
Lemma digits_of_Z_number (z : Z) : is_number (PyFloat.digits_of_Z z) = true.
Proof.
  unfold PyFloat.digits_of_Z, NilZero.string_of_uint, is_number.
  destruct (N.to_uint (Z.to_N z)) eqn:E; try reflexivity;
    rewrite string_of_uint_decimal; reflexivity.
Qed.

Lemma scale_positive (p : positive) (e : Z) :
  (0 < fst (PyFloat.scale (Z.pos p) e))%Z /\ (0 < snd (PyFloat.scale (Z.pos p) e))%Z.
Proof.
  unfold PyFloat.scale. destruct (0 <=? e)%Z eqn:E; cbn [fst snd].
  - apply Z.leb_le in E. split; [|lia].
    apply Z.mul_pos_pos; [lia|]. apply Z.pow_pos_nonneg; lia.
  - apply Z.leb_gt in E. split; [lia|]. apply Z.pow_pos_nonneg; lia.
Qed.

(** A float greater than a non-negative integer is positive. *)
Lemma gt_Z_sign (s : bool) (p : positive) (e n : Z) :
  (0 <= n)%Z -> PyFloat.gt_Z (S754_finite s p e) n = true -> s = false.
Proof.
  intros Hn. destruct s; [|reflexivity].
  unfold PyFloat.gt_Z, PyFloat.cmp_Z, PyFloat.qcmp.
  destruct (scale_positive p e) as [Hp Hq].
  destruct (PyFloat.scale (Z.pos p) e) as [a q]. cbn [fst snd] in *.
  destruct (- a * 1 ?= n * q)%Z eqn:E; try discriminate.
  apply Z.compare_gt_iff in E. nia.
Qed.

(** The whole percentages above the threshold are greater than 20 as floats
    and print with one decimal zero. *)
Lemma percent_str (n : nat) :
  (20 < n <= 100)%nat ->
  PyFloat.gt_Z (PyFloat.of_Z (Z.of_nat n)) 20 = true /\
  PyFloat.float_str (PyFloat.of_Z (Z.of_nat n))
  = PyFloat.digits_of_Z (Z.of_nat n) +:+ ".0".
Proof.
  intros Hn.
  assert (Hall :
    List.forallb
      (fun k =>
         PyFloat.gt_Z (PyFloat.of_Z (Z.of_nat k)) 20 &&
         String.eqb (PyFloat.float_str (PyFloat.of_Z (Z.of_nat k)))
                    (PyFloat.digits_of_Z (Z.of_nat k) +:+ ".0"))
      (List.seq 21 80) = true) by (vm_compute; reflexivity).
  rewrite List.forallb_forall in Hall.
  specialize (Hall n). rewrite List.in_seq in Hall.
  assert (Hin : (21 <= n < 21 + 80)%nat) by lia.
  apply Hall in Hin. apply andb_true_iff in Hin. destruct Hin as [H1 H2].
  split; [exact H1|]. apply String.eqb_eq, H2.
Qed.

(** X5. For every whole percentage n from 21 to 100, as a ping utility
    reports it, the packet-loss rule fires and its issue reads
    "High packet loss (n.0%)": the number always carries the decimal ".0". *)
Theorem X5_packet_loss_issue (self : NetworkDiagnostics) (m : Measurement) (n : nat) :
  internet_connected m = true ->
  dns_working m = true ->
  loss (ping_google_dns m) = Some (PyFloat.of_Z (Z.of_nat n)) ->
  (20 < n <= 100)%nat ->
  get_diagnosis self (Some (to_results m)) =
  Ok {| status := "unstable_connection";
        issues :=
          ["High packet loss (" +:+ PyFloat.digits_of_Z (Z.of_nat n) +:+ ".0%)"];
        advice :=
          [ "Network connection is unstable";
            "Check Wi-Fi signal strength if using wireless";
            "Check network cables if using Ethernet";
            "Restart router if problem persists" ] |}.
Proof.
  intros Hc Hd Hl Hn. destruct (percent_str n Hn) as [Hgt Hstr].
  rewrite diagnosis_connected by assumption.
  rewrite Hl. cbn [exceeds of_opt_float format_default]. rewrite Hgt, Hstr.
  rewrite append_assoc. reflexivity.
Qed.

Lemma X5_packet_loss_issue_witness :
  get_diagnosis (NetworkDiagnostics_init false)
    (Some (to_results (measurement true true (Some 100%Z) (Some 300%Z)))) =
  Ok {| status := "unstable_connection";
        issues := ["High packet loss (100.0%)"];
        advice :=
          [ "Network connection is unstable";
            "Check Wi-Fi signal strength if using wireless";
            "Check network cables if using Ethernet";
            "Restart router if problem persists" ] |}.
Proof.
  apply (X5_packet_loss_issue (NetworkDiagnostics_init false)
           (measurement true true (Some 100%Z) (Some 300%Z)) 100);
    [reflexivity | reflexivity | reflexivity | lia].
Defined.

(** X6. Whenever the latency rule fires on a finite latency, its issue reads
    "High latency (w.dms)" with [w] a non-empty run of digits and [d] one
    digit: no sign, exactly one decimal place. *)
Theorem X6_latency_issue (self : NetworkDiagnostics) (m : Measurement)
    (s : bool) (p : positive) (e : Z) :
  internet_connected m = true ->
  dns_working m = true ->
  exceeds (loss (ping_google_dns m)) 20 = false ->
  avg (ping_google_dns m) = Some (S754_finite s p e) ->
  PyFloat.gt_Z (S754_finite s p e) 100 = true ->
  exists d whole c,
    get_diagnosis self (Some (to_results m)) = Ok d /\
    status d = "slow_connection" /\
    issues d = ["High latency (" +:+ whole +:+ "." +:+ String c "" +:+ "ms)"] /\
    is_number whole = true /\ PyStr.is_decimal c = true.
Proof.
  intros Hc Hd Hl Ha Hgt.
  assert (Hs : s = false) by (apply (gt_Z_sign s p e 100); [lia | exact Hgt]).
  subst s.
  rewrite diagnosis_connected by assumption.
  rewrite Hl, Ha. cbn [exceeds]. rewrite Hgt.
  cbn [of_opt_float format_1f]. rewrite bind_Ok.
  unfold PyFloat.float_format_1f, PyFloat.fixed1.
  destruct (PyFloat.scale (Z.pos p) e) as [a q].
  set (t := PyFloat.round_half_even (10 * a) q).
  destruct (digits_of_Z_digit (t mod 10)) as (c & Ec & Dc).
  { apply Z.mod_pos_bound. lia. }
  eexists. exists (PyFloat.digits_of_Z (t / 10)), c.
  split; [reflexivity|]. split; [reflexivity|]. split.
  - cbn [issues PyFloat.sign_str]. rewrite Ec, !append_assoc. reflexivity.
  - split; [apply digits_of_Z_number | exact Dc].
Qed.

Lemma X6_latency_issue_witness :
  exists d whole c,
    get_diagnosis (NetworkDiagnostics_init false)
      (Some (to_results (measurement true true (Some 20%Z) (Some 150%Z)))) = Ok d /\
    status d = "slow_connection" /\
    issues d = ["High latency (" +:+ whole +:+ "." +:+ String c "" +:+ "ms)"] /\
    is_number whole = true /\ PyStr.is_decimal c = true.
Proof.
  apply (X6_latency_issue (NetworkDiagnostics_init false)
           (measurement true true (Some 20%Z) (Some 150%Z))
           false (Z.to_pos (150 * 2 ^ 45)) (-45));
    reflexivity.
Defined.

End IssueNumbers.

(** ** More on the interface parsers *)

Section ParserShapes.
Import Py PyStr Checker Shapes ParserFacts.

Lemma span_digits_spec (s : string) :
  all_decimal (fst (span_digits s)) = true /\
  s = fst (span_digits s) +:+ snd (span_digits s).
Proof.
  induction s as [|c s [IH1 IH2]]; [split; reflexivity|].
  cbn [span_digits]. destruct (is_decimal c) eqn:Hc.
  - destruct (span_digits s) as [d r]. cbn [fst snd] in *.
    split; [cbn; rewrite Hc; exact IH1|].
    change (String c d +:+ r) with (String c (d +:+ r)). rewrite <- IH2.
    reflexivity.
  - split; reflexivity.
Qed.

Lemma digits_dot_spec (s t r : string) :
  digits_dot s = Some (t, r) ->
  exists d, t = d +:+ "." /\ is_number d = true.
Proof.
  unfold digits_dot. destruct (span_digits_spec s) as [Hd _].
  destruct (span_digits s) as [d r']. cbn [fst] in Hd.
  destruct d as [|c d]; [discriminate|].
  destruct r' as [|x r'']; [discriminate|].
  destruct (Ascii.eqb x ".") eqn:Hx.
  - apply Ascii.eqb_eq in Hx. subst x. intros [= <- <-].
    exists (String c d). split; [reflexivity|].
    unfold is_number. rewrite Hd. reflexivity.
  - intros H. exfalso.
    assert (x <> "."%char) by (apply Ascii.eqb_neq, Hx).
    destruct x as [[] [] [] [] [] [] [] []]; try discriminate H.
    congruence.
Qed.

Lemma decimal_not_dot (c : ascii) : is_decimal c = true -> Ascii.eqb c "." = false.
Proof.
  intros H. destruct (Ascii.eqb c ".") eqn:E; [|reflexivity].
  apply Ascii.eqb_eq in E. subst c. discriminate.
Qed.

(** Splitting at the dots: a run of digits is one part. *)
Lemma split_dot_number (d : string) :
  all_decimal d = true -> split "." d = [d].
Proof.
  induction d as [|c d IH]; [reflexivity|].
  cbn [all_decimal split]. intros H. apply andb_true_iff in H.
  destruct H as [Hc Hd]. rewrite (decimal_not_dot c Hc), (IH Hd). reflexivity.
Qed.

Lemma split_dot_cons (d rest : string) :
  all_decimal d = true ->
  split "." (d +:+ "." +:+ rest) = d :: split "." rest.
Proof.
  induction d as [|c d IH]; [reflexivity|].
  cbn [all_decimal]. intros H. apply andb_true_iff in H.
  destruct H as [Hc Hd].
  change (String c d +:+ "." +:+ rest) with (String c (d +:+ "." +:+ rest)).
  cbn [split]. rewrite (decimal_not_dot c Hc), (IH Hd). reflexivity.
Qed.

(** What the pattern [\d+\.\d+\.\d+\.\d+] matches is a dotted quad. *)
Lemma match_quad_shape (s ip : string) :
  match_quad s = Some ip -> is_dotted_quad ip = true.
Proof.
  unfold match_quad.
  destruct (digits_dot s) as [[a r1]|] eqn:E1; [|discriminate].
  cbn [mbind option_bind]. 
  destruct (digits_dot r1) as [[b r2]|] eqn:E2; [|discriminate].
  cbn [mbind option_bind].
  destruct (digits_dot r2) as [[c r3]|] eqn:E3; [|discriminate].
  cbn [mbind option_bind].
  destruct (span_digits_spec r3) as [Hd _].
  destruct (span_digits r3) as [d r4]. cbn [fst] in Hd.
  destruct d as [|x d]; [discriminate|]. intros [= <-].
  destruct (digits_dot_spec _ _ _ E1) as (a' & -> & Ha).
  destruct (digits_dot_spec _ _ _ E2) as (b' & -> & Hb).
  destruct (digits_dot_spec _ _ _ E3) as (c' & -> & Hc).
  unfold is_number in *.
  apply andb_true_iff in Ha, Hb, Hc. destruct Ha as [Ha Ha'], Hb as [Hb Hb'], Hc as [Hc Hc'].
  unfold is_dotted_quad. rewrite !append_assoc.
  rewrite !split_dot_cons by assumption.
  rewrite split_dot_number by exact Hd.
  unfold is_number. rewrite Ha, Ha', Hb, Hb', Hc, Hc', Hd. reflexivity.
Qed.

Lemma search_quad_shape (s ip : string) :
  search_quad s = Some ip -> is_dotted_quad ip = true.
Proof.
  induction s as [|c s IH]; cbn [search_quad].
  - destruct (match_quad "") eqn:E; [|discriminate].
    intros [= <-]. apply (match_quad_shape _ _ E).
  - destruct (match_quad (String c s)) eqn:E.
    + intros [= <-]. apply (match_quad_shape _ _ E).
    + exact IH.
Qed.

Lemma search_inet_quad_shape (s ip : string) :
  search_inet_quad s = Some ip -> is_dotted_quad ip = true.
Proof.
  assert (H : forall t, match_inet_quad t = Some ip -> is_dotted_quad ip = true).
  { intros t. unfold match_inet_quad.
    destruct (String.prefix "inet " t); [|discriminate].
    apply match_quad_shape. }
  induction s as [|c s IH]; cbn [search_inet_quad].
  - destruct (match_inet_quad "") eqn:E; [|discriminate].
    intros [= <-]. apply (H _ E).
  - destruct (match_inet_quad (String c s)) eqn:E.
    + intros [= <-]. apply (H _ E).
    + exact IH.
Qed.

End ParserShapes.

Section ParserInvariants.
Import Py PyStr Checker Shapes ParserFacts.

Lemma rstrip_cons (c : ascii) (s : string) :
  rstrip (String c s) =
  match rstrip s with
  | "" => if is_space c then "" else String c ""
  | r => String c r
  end.
Proof. reflexivity. Qed.

Lemma rstrip_idempotent (s : string) : rstrip (rstrip s) = rstrip s.
Proof.
  induction s as [|c s IH]; [reflexivity|].
  rewrite rstrip_cons. destruct (rstrip s) as [|x r] eqn:E.
  - destruct (is_space c) eqn:Hc; [reflexivity|].
    rewrite rstrip_cons. cbn [rstrip]. rewrite Hc. reflexivity.
  - rewrite rstrip_cons, IH. reflexivity.
Qed.

Lemma lstrip_head (s : string) :
  match lstrip s with
  | "" => True
  | String c _ => is_space c = false
  end.
Proof.
  induction s as [|c s IH]; [exact I|].
  cbn [lstrip]. destruct (is_space c) eqn:Hc; [exact IH | exact Hc].
Qed.

Lemma rstrip_head (c : ascii) (s : string) :
  is_space c = false -> exists r, rstrip (String c s) = String c r.
Proof.
  intros Hc. cbn [rstrip]. destruct (rstrip s) as [|x r].
  - rewrite Hc. eauto.
  - eauto.
Qed.

(** [strip] removes all there is to remove. *)
Lemma strip_idempotent (s : string) : strip (strip s) = strip s.
Proof.
  unfold strip. pose proof (lstrip_head s) as H.
  destruct (lstrip s) as [|c t]; [reflexivity|].
  destruct (rstrip_head c t H) as [r Hr]. rewrite Hr.
  cbn [lstrip]. rewrite H, <- Hr. apply rstrip_idempotent.
Qed.

Lemma determine_interface_type_in (name : string) :
  In (_determine_interface_type name) interface_types.
Proof.
  unfold _determine_interface_type, interface_types.
  repeat (match goal with |- context [if ?b then _ else _] => destruct b end);
    cbn; tauto.
Qed.

Lemma flush_ok (st : parser) : parser_ok st -> Forall entry_ok (flush st).
Proof.
  intros [Hl Hc]. unfold flush.
  destruct (current_interface st) as [i|]; [|exact Hl].
  apply Forall_app. split; [exact Hl|].
  constructor; [apply Hc; reflexivity | constructor].
Qed.

Lemma set_ip_ok (a : string) (i : InterfaceInfo) :
  entry_ok i -> is_dotted_quad a = true -> entry_ok (set_ip a i).
Proof.
  intros (Ht & Hn & _) Ha. split_and!; [exact Ht | exact Hn |].
  intros b [= <-]. exact Ha.
Qed.

Lemma ip_addr_line_ok (st : parser) (line : string) :
  parser_ok st -> parser_ok (ip_addr_line st line).
Proof.
  intros Hst. unfold ip_addr_line.
  set (l := strip line).
  match goal with
  | |- parser_ok (match current_interface ?s with _ => _ end) =>
      assert (Hheader : parser_ok s); [|generalize dependent s]
  end.
  { destruct (starts_with_digit l && contains ":" l); [|exact Hst].
    destruct (split ":" l) as [|p0 [|p1 ps]].
    - split; [apply flush_ok, Hst | apply Hst].
    - split; [apply flush_ok, Hst | apply Hst].
    - split; [apply flush_ok, Hst|].
      intros i [= <-]. split_and!.
      + apply determine_interface_type_in.
      + apply strip_idempotent.
      + discriminate. }
  intros s Hs.
  destruct (current_interface s) as [cur|] eqn:Hcur; [|exact Hs].
  destruct (contains "inet " l); [|exact Hs].
  destruct (search_inet_quad l) as [a|] eqn:Ha; [|exact Hs].
  destruct (negb (startswith a "127.")); [|exact Hs].
  split; [apply Hs|].
  intros i [= <-]. apply set_ip_ok.
  - apply Hs, Hcur.
  - apply (search_inet_quad_shape _ _ Ha).
Qed.

Lemma ipconfig_line_ok (st : parser) (line : string) :
  parser_ok st -> parser_ok (ipconfig_line st line).
Proof.
  intros Hst. unfold ipconfig_line.
  set (l := strip line).
  match goal with
  | |- parser_ok (match current_interface ?s with _ => _ end) =>
      assert (Hheader : parser_ok s); [|generalize dependent s]
  end.
  { destruct (contains "adapter" (lower l) && contains ":" l); [|exact Hst].
    split; [apply flush_ok, Hst|].
    intros i [= <-].
    destruct (contains "Ethernet" l);
      [|destruct (contains "Wi-Fi" l || contains "Wireless" l);
        [|destruct (contains "VPN" l)]];
      (split_and!; [cbn; tauto | apply strip_idempotent | discriminate]). }
  intros s Hs.
  destruct (current_interface s) as [cur|] eqn:Hcur; [|exact Hs].
  destruct (contains "IPv4 Address" l); [|exact Hs].
  destruct (search_quad l) as [a|] eqn:Ha; [|exact Hs].
  split; [apply Hs|].
  intros i [= <-]. apply set_ip_ok.
  - apply Hs, Hcur.
  - apply (search_quad_shape _ _ Ha).
Qed.

Lemma fold_ok (step : parser -> string -> parser) (ls : list string) (st : parser) :
  (forall st line, parser_ok st -> parser_ok (step st line)) ->
  parser_ok st -> parser_ok (fold_left step ls st).
Proof.
  intros Hstep. revert st.
  induction ls as [|line ls IH]; intros st Hst; [exact Hst|].
  apply IH, Hstep, Hst.
Qed.

Lemma parser_ok_start :
  parser_ok {| interfaces := []; current_interface := None |}.
Proof. split; [constructor | discriminate]. Qed.

Lemma parsers_entry_ok (output : string) :
  Forall entry_ok (_parse_ipconfig output) /\
  Forall entry_ok (_parse_ip_addr output).
Proof.
  assert (Hf : forall l : list InterfaceInfo,
             Forall entry_ok l -> Forall entry_ok (List.filter has_ip l)).
  { intros l Hl. rewrite List.Forall_forall in *. intros i Hi.
    apply List.filter_In in Hi. apply Hl, Hi. }
  split; apply Hf, flush_ok, fold_ok; try apply parser_ok_start.
  - apply ipconfig_line_ok.
  - apply ip_addr_line_ok.
Qed.

Lemma parsed_address_dotted_quad (output : string) (i : InterfaceInfo) :
  In i (_parse_ipconfig output) \/ In i (_parse_ip_addr output) ->
  exists a, iface_ip i = Some a /\ is_dotted_quad a = true.
Proof.
  intros Hin.
  destruct (parsers_entry_ok output) as [H1 H2].
  rewrite List.Forall_forall in H1, H2.
  assert (Hok : entry_ok i /\ has_ip i = true).
  { destruct Hin as [Hin | Hin]; (split; [auto|]);
      unfold _parse_ipconfig, _parse_ip_addr in Hin;
      apply List.filter_In in Hin; apply Hin. }
  destruct Hok as [(_ & _ & Hq) Hip].
  destruct (has_ip_address i Hip) as (a & Ha & _).
  exists a. split; [exact Ha | apply Hq, Ha].
Qed.

(** X7. Every address either parser returns is a dotted quad: four
    non-empty runs of decimal digits separated by dots, with nothing of the
    rest of the line (a prefix length, "(Preferred)") attached. *)
Theorem X7_addresses_are_dotted_quads (output : string) (i : InterfaceInfo) :
  In i (_parse_ipconfig output) \/ In i (_parse_ip_addr output) ->
  exists a, iface_ip i = Some a /\ is_dotted_quad a = true.
Proof. apply parsed_address_dotted_quad. Qed.

Lemma X7_addresses_are_dotted_quads_witness :
  exists a,
    iface_ip {| iface_name := "Ethernet adapter Ethernet0";
                iface_type := "Ethernet";
                iface_ip := Some "127.0.0.1" |} = Some a /\
    is_dotted_quad a = true.
Proof.
  apply (X7_addresses_are_dotted_quads loopback_ipconfig).
  left. vm_compute. left. reflexivity.
Defined.

(** X8. Every entry either parser returns has one of the four types
    Ethernet, Wi-Fi, VPN and Unknown, and a name with no white space at
    either end. *)
Theorem X8_entry_types_and_names (output : string) (i : InterfaceInfo) :
  In i (_parse_ipconfig output) \/ In i (_parse_ip_addr output) ->
  In (iface_type i) ["Ethernet"; "Wi-Fi"; "VPN"; "Unknown"] /\
  strip (iface_name i) = iface_name i.
Proof.
  intros Hin.
  destruct (parsers_entry_ok output) as [H1 H2].
  rewrite List.Forall_forall in H1, H2.
  assert (Hok : entry_ok i) by (destruct Hin; auto).
  destruct Hok as (Ht & Hn & _). split; assumption.
Qed.

Lemma X8_entry_types_and_names_witness :
  In (iface_type {| iface_name := "Ethernet adapter Ethernet0";
                    iface_type := "Ethernet";
                    iface_ip := Some "127.0.0.1" |})
     ["Ethernet"; "Wi-Fi"; "VPN"; "Unknown"] /\
  strip "Ethernet adapter Ethernet0" = "Ethernet adapter Ethernet0".
Proof.
  apply (X8_entry_types_and_names loopback_ipconfig
           {| iface_name := "Ethernet adapter Ethernet0";
              iface_type := "Ethernet";
              iface_ip := Some "127.0.0.1" |}).
  left. vm_compute. left. reflexivity.
Defined.

End ParserInvariants.

Section ParserCounts.
Import Py PyStr Checker Shapes ParserFacts.

Lemma flush_length (st : parser) :
  length (flush st)
  = (length (interfaces st) +
     match current_interface st with Some _ => 1 | None => 0 end)%nat.
Proof.
  unfold flush. destruct (current_interface st).
  - rewrite List.length_app. reflexivity.
  - lia.
Qed.

(** A line that is no header leaves the number of dictionaries as it is; a
    header adds at most one. *)
Lemma ip_addr_line_count (st : parser) (line : string) :
  (length (flush (ip_addr_line st line))
   <= length (flush st) + if is_ip_addr_header line then 1 else 0)%nat.
Proof.
  unfold ip_addr_line, is_ip_addr_header.
  set (l := strip line).
  match goal with
  | |- (length (flush (match current_interface ?s with _ => _ end)) <= _)%nat =>
      assert (Hheader :
        (length (flush s)
         <= length (flush st) +
            if starts_with_digit l && contains ":" l then 1 else 0)%nat);
      [|generalize dependent s]
  end.
  { destruct (starts_with_digit l && contains ":" l) eqn:Hh; [|lia].
    apply andb_true_iff in Hh. destruct Hh as [_ Hcolon].
    destruct (split_colon_two_parts l Hcolon) as (p0 & p1 & ps & ->).
    rewrite (flush_length {| interfaces := flush st; current_interface := _ |}).
    cbn [interfaces current_interface]. lia. }
  intros s Hs.
  destruct (current_interface s) as [cur|] eqn:Hcur; [|exact Hs].
  destruct (contains "inet " l); [|exact Hs].
  destruct (search_inet_quad l) as [a|]; [|exact Hs].
  destruct (negb (startswith a "127.")); [|exact Hs].
  rewrite flush_length in *. cbn [interfaces current_interface].
  rewrite Hcur in Hs. exact Hs.
Qed.

Lemma ipconfig_line_count (st : parser) (line : string) :
  (length (flush (ipconfig_line st line))
   <= length (flush st) + if is_ipconfig_header line then 1 else 0)%nat.
Proof.
  unfold ipconfig_line, is_ipconfig_header.
  set (l := strip line).
  match goal with
  | |- (length (flush (match current_interface ?s with _ => _ end)) <= _)%nat =>
      assert (Hheader :
        (length (flush s)
         <= length (flush st) +
            if contains "adapter" (lower l) && contains ":" l then 1 else 0)%nat);
      [|generalize dependent s]
  end.
  { destruct (contains "adapter" (lower l) && contains ":" l); [|lia].
    rewrite (flush_length {| interfaces := flush st; current_interface := _ |}).
    cbn [interfaces current_interface]. lia. }
  intros s Hs.
  destruct (current_interface s) as [cur|] eqn:Hcur; [|exact Hs].
  destruct (contains "IPv4 Address" l); [|exact Hs].
  destruct (search_quad l) as [a|]; [|exact Hs].
  rewrite flush_length in *. cbn [interfaces current_interface].
  rewrite Hcur in Hs. exact Hs.
Qed.

Lemma fold_count (step : parser -> string -> parser) (header : string -> bool)
    (ls : list string) (st : parser) :
  (forall st line,
     (length (flush (step st line))
      <= length (flush st) + if header line then 1 else 0)%nat) ->
  (length (flush (fold_left step ls st))
   <= length (flush st) + length (List.filter header ls))%nat.
Proof.
  intros Hstep. revert st.
  induction ls as [|line ls IH]; intros st; [cbn; lia|].
  cbn [fold_left List.filter]. specialize (IH (step st line)).
  specialize (Hstep st line).
  destruct (header line); cbn [length]; lia.
Qed.

Lemma filter_length_le {A : Type} (f : A -> bool) (l : list A) :
  (length (List.filter f l) <= length l)%nat.
Proof.
  induction l as [|x l IH]; [reflexivity|].
  cbn. destruct (f x); cbn; lia.
Qed.

(** X9. Neither parser returns more entries than the text has header lines
    (adapter lines for [_parse_ipconfig], numbered lines with a colon for
    [_parse_ip_addr]); in particular a text without a header line, such as
    the empty output of a failed command, gives the empty list, however
    many address lines it holds. *)
Theorem X9_entries_bounded_by_headers (output : string) :
  (length (_parse_ipconfig output)
   <= length (List.filter is_ipconfig_header (lines output)))%nat /\
  (length (_parse_ip_addr output)
   <= length (List.filter is_ip_addr_header (lines output)))%nat /\
  (List.filter is_ipconfig_header (lines output) = [] ->
     _parse_ipconfig output = []) /\
  (List.filter is_ip_addr_header (lines output) = [] ->
     _parse_ip_addr output = []) /\
  _parse_ipconfig "" = [] /\ _parse_ip_addr "" = [].
Proof.
  assert (H1 : (length (_parse_ipconfig output)
                <= length (List.filter is_ipconfig_header (lines output)))%nat).
  { unfold _parse_ipconfig.
    etransitivity; [apply filter_length_le|].
    etransitivity; [apply (fold_count _ is_ipconfig_header), ipconfig_line_count|].
    reflexivity. }
  assert (H2 : (length (_parse_ip_addr output)
                <= length (List.filter is_ip_addr_header (lines output)))%nat).
  { unfold _parse_ip_addr.
    etransitivity; [apply filter_length_le|].
    etransitivity; [apply (fold_count _ is_ip_addr_header), ip_addr_line_count|].
    reflexivity. }
  split_and!; [exact H1 | exact H2 | | | reflexivity | reflexivity].
  - intros E. rewrite E in H1. destruct (_parse_ipconfig output); [reflexivity|].
    cbn in H1. lia.
  - intros E. rewrite E in H2. destruct (_parse_ip_addr output); [reflexivity|].
    cbn in H2. lia.
Qed.

End ParserCounts.

(** ** The probes that read the output of a command *)

Section Gateway.
Import Py PyStr Checker Shapes Collector CollectorFacts.

(** The parts [s.split()] returns are non-empty and hold no white space. *)
Lemma split_ws_parts (s : string) :
  Forall (fun w => w <> "" /\ no_space w = true) (split_ws s).
Proof.
  induction s as [|c s IH]; [constructor|].
  cbn [split_ws]. destruct (is_space c) eqn:Hc; [exact IH|].
  assert (Hone : String c "" <> "" /\ no_space (String c "") = true).
  { split; [discriminate|]. cbn. rewrite Hc. reflexivity. }
  destruct s as [|c' s'].
  - constructor; [exact Hone | exact IH].
  - destruct (split_ws (String c' s')) as [|w ws] eqn:E.
    + constructor; [exact Hone | constructor].
    + destruct (is_space c').
      * constructor; [exact Hone | exact IH].
      * inversion IH as [|? ? [Hw1 Hw2] Hws]; subst.
        constructor; [|exact Hws].
        split; [discriminate|]. cbn. rewrite Hc. exact Hw2.
Qed.

Lemma first_return_from {A : Type} (body : string -> option A)
    (ls : list string) (x : A) :
  first_return body ls = Some x -> exists line, In line ls /\ body line = Some x.
Proof.
  induction ls as [|line ls IH]; [discriminate|].
  cbn [first_return]. destruct (body line) as [y|] eqn:E.
  - intros [= <-]. exists line. split; [left; reflexivity | exact E].
  - intros H. destruct (IH H) as (l & Hin & Hl).
    exists l. split; [right; exact Hin | exact Hl].
Qed.

Lemma dotted_quad_nonempty (a : string) : is_dotted_quad a = true -> a <> "".
Proof. intros H ->. discriminate. Qed.

(** X10. [get_gateway] never returns the empty string: a failed command
    gives [None]; on Windows the result is a dotted quad, elsewhere a
    non-empty field without white space. *)
Theorem X10_gateway_never_empty (is_windows : bool)
    (run : option CompletedProcess) (g : string) :
  get_gateway is_windows run = Some g ->
  g <> "" /\
  (exists result, run = Some result) /\
  (is_windows = true -> is_dotted_quad g = true) /\
  (is_windows = false -> no_space g = true).
Proof.
  unfold get_gateway. destruct run as [result|]; [|discriminate].
  intros H. apply first_return_from in H. destruct H as (line & _ & Hline).
  destruct is_windows.
  - unfold gateway_windows_line in Hline.
    destruct (contains "Default Gateway" line); [|discriminate].
    apply search_quad_shape in Hline.
    split_and!; [apply dotted_quad_nonempty, Hline | eauto | auto | discriminate].
  - unfold gateway_unix_line in Hline.
    destruct (contains "default" line); [|discriminate].
    pose proof (split_ws_parts line) as Hall.
    destruct (split_ws line) as [|p0 [|p1 [|p2 ps]]]; try discriminate.
    injection Hline as <-.
    inversion Hall as [|? ? _ H1]; subst.
    inversion H1 as [|? ? _ H2]; subst.
    inversion H2 as [|? ? [Hne Hns] _]; subst.
    split_and!; [exact Hne | eauto | discriminate | auto].
Qed.

Lemma X10_gateway_never_empty_witness :
  "192.168.1.1" <> "" /\
  (exists result,
     Some {| returncode := 0;
             stdout := "default via 192.168.1.1 dev eth0 proto dhcp" +:+ newline;
             stderr := "" |} = Some result) /\
  (false = true -> is_dotted_quad "192.168.1.1" = true) /\
  (false = false -> no_space "192.168.1.1" = true).
Proof.
  apply (X10_gateway_never_empty false
           (Some {| returncode := 0;
                    stdout := "default via 192.168.1.1 dev eth0 proto dhcp" +:+ newline;
                    stderr := "" |})).
  reflexivity.
Defined.

(** [split()] on a field followed by a space. *)
Lemma split_ws_field (g rest : string) :
  g <> "" -> no_space g = true ->
  split_ws (g +:+ String " " rest) = g :: split_ws rest.
Proof.
  induction g as [|c g IH]; [congruence|].
  intros _ Hns. cbn [no_space] in Hns. apply andb_true_iff in Hns.
  destruct Hns as [Hc Hg]. apply negb_true_iff in Hc.
  change (String c g +:+ String " " rest) with (String c (g +:+ String " " rest)).
  cbn [split_ws]. rewrite Hc.
  destruct g as [|c' g'].
  - change ("" +:+ String " " rest) with (String " " rest).
    cbn [split_ws]. change (is_space " ") with true. cbn iota.
    destruct (split_ws rest); reflexivity.
  - rewrite IH by (discriminate || exact Hg).
    change (String c' g' +:+ String " " rest)
      with (String c' (g' +:+ String " " rest)).
    cbn [no_space] in Hg. apply andb_true_iff in Hg. destruct Hg as [Hc' _].
    apply negb_true_iff in Hc'. rewrite Hc'. reflexivity.
Qed.

(** X11. Where the command succeeded on a host that is not Windows and the
    first line of the routing table reads "default via G ...", with [G] a
    field without white space, [get_gateway] returns [G]. *)
Theorem X11_gateway_of_default_route (result : CompletedProcess)
    (g rest : string) (more : list string) :
  split (ascii_of_N 10) (stdout result)
  = ("default via " +:+ g +:+ String " " rest) :: more ->
  g <> "" -> no_space g = true ->
  get_gateway false (Some result) = Some g.
Proof.
  intros Hlines Hne Hns. unfold get_gateway. rewrite Hlines.
  cbn [first_return]. unfold gateway_unix_line.
  assert (Hc : contains "default" ("default via " +:+ g +:+ String " " rest) = true)
    by reflexivity.
  rewrite Hc.
  assert (Hs : split_ws ("default via " +:+ g +:+ String " " rest)
               = "default" :: "via" :: g :: split_ws rest).
  { change ("default via " +:+ g +:+ String " " rest)
      with ("default" +:+ String " " ("via" +:+ String " " (g +:+ String " " rest))).
    rewrite !split_ws_field by (discriminate || reflexivity || assumption).
    reflexivity. }
  rewrite Hs. reflexivity.
Qed.

Lemma X11_gateway_of_default_route_witness :
  get_gateway false
    (Some {| returncode := 0;
             stdout := "default via 10.0.0.1 dev wlan0 proto dhcp metric 600"
                       +:+ newline +:+
                       "10.0.0.0/24 dev wlan0 proto kernel scope link" +:+ newline;
             stderr := "" |})
  = Some "10.0.0.1".
Proof.
  apply (X11_gateway_of_default_route _ "10.0.0.1"
           "dev wlan0 proto dhcp metric 600"
           ["10.0.0.0/24 dev wlan0 proto kernel scope link"; ""]);
    [reflexivity | discriminate | reflexivity].
Defined.

(** X12. Whatever the listing command prints, and also when it fails,
    [get_network_interfaces] reports only interfaces whose address is a
    dotted quad, and on a host that is not Windows none whose address starts
    with "127."; a failed command gives the empty list. *)
Theorem X12_network_interfaces (is_windows : bool) (run : option CompletedProcess) :
  Forall (fun i => exists a,
            iface_ip i = Some a /\ is_dotted_quad a = true /\
            (is_windows = false -> startswith a "127." = false))
         (get_network_interfaces is_windows run) /\
  get_network_interfaces is_windows None = [].
Proof.
  split; [|reflexivity].
  unfold get_network_interfaces. destruct run as [result|]; [|constructor].
  apply List.Forall_forall. intros i Hi.
  destruct is_windows.
  - destruct (parsed_address_dotted_quad (stdout result) i (or_introl Hi))
      as (a & Ha & Hq).
    exists a. split_and!; [exact Ha | exact Hq | discriminate].
  - destruct (parsed_address_dotted_quad (stdout result) i (or_intror Hi))
      as (a & Ha & Hq).
    pose proof (parse_ip_addr_no_loopback (stdout result)) as Hl.
    rewrite List.Forall_forall in Hl.
    destruct (Hl i Hi) as (b & Hb & _ & Hlo).
    exists a. split_and!; [exact Ha | exact Hq |].
    intros _. congruence.
Qed.

End Gateway.

Section Ping.
Import Py PyStr Checker Shapes Diagnostics Collector CollectorFacts.
#[local] Open Scope Z_scope.

Lemma append_nil_r (s : string) : s +:+ "" = s.
Proof.
  induction s as [|c s IH]; [reflexivity|].
  change (String c s +:+ "") with (String c (s +:+ "")). rewrite IH. reflexivity.
Qed.

Lemma search_from {A : Type} (m : string -> option A) (s : string) (x : A) :
  search m s = Some x -> exists s', m s' = Some x.
Proof.
  induction s as [|c s IH]; cbn [search].
  - destruct (m "") eqn:E; [|discriminate]. intros [= <-]. eauto.
  - destruct (m (String c s)) eqn:E; [intros [= <-]; eauto | exact IH].
Qed.

(** Group 1 of the loss pattern and of the Windows average pattern is a
    non-empty run of digits. *)
Lemma match_loss_number (s g : string) :
  match_loss s = Some g -> is_number g = true.
Proof.
  unfold match_loss. destruct (span_digits_spec s) as [Hd _].
  destruct (span_digits s) as [d r]. cbn [fst] in Hd.
  destruct d as [|c d]; [discriminate|].
  intros H.
  assert (g = String c d).
  { destruct r as [|x r]; [discriminate|].
    destruct x as [[] [] [] [] [] [] [] []]; try discriminate H.
    destruct (span is_space r) as [[|? ?] r1]; [discriminate|].
    destruct (_ ≫= _); [congruence|].
    destruct (strip_prefix_ci "loss" r1); congruence. }
  subst g. unfold is_number. rewrite Hd. reflexivity.
Qed.

Lemma match_average_number (s g : string) :
  match_average s = Some g -> is_number g = true.
Proof.
  unfold match_average.
  destruct (strip_prefix "Average = " s) as [r|]; [|discriminate].
  cbn [mbind option_bind].
  destruct (span_digits_spec r) as [Hd _].
  destruct (span_digits r) as [d r']. cbn [fst] in Hd.
  destruct d as [|c d]; [discriminate|].
  destruct (strip_prefix "ms" r'); [|discriminate].
  intros [= <-]. unfold is_number. rewrite Hd. reflexivity.
Qed.

Lemma cut_dot_number (g : string) :
  all_decimal g = true -> cut_dot g = (g, None).
Proof.
  induction g as [|c g IH]; [reflexivity|].
  cbn [all_decimal cut_dot]. intros H. apply andb_true_iff in H.
  destruct H as [Hc Hg]. rewrite (decimal_not_dot c Hc), (IH Hg). reflexivity.
Qed.

(** [float] of a run of digits does not raise. *)
Lemma float_of_number (g : string) :
  is_number g = true ->
  float_of_string g = Some (round_binary64 (digits_value 0 g) 1).
Proof.
  unfold is_number. intros H. apply andb_true_iff in H. destruct H as [Hd Hne].
  unfold float_of_string. rewrite (cut_dot_number g Hd).
  cbn [default]. rewrite append_nil_r, Hd, Hne. reflexivity.
Qed.

(** What [float] returns on digits and dots is zero, positive or infinite. *)
Lemma round_binary64_non_negative (p q : Z) :
  non_negative (round_binary64 p q) = true.
Proof.
  unfold round_binary64. destruct (p =? 0); [reflexivity|].
  match goal with
  | |- context [let '(m, e) := ?x in _] => destruct x as [m e]
  end.
  destruct m as [|m'|m']; try reflexivity.
  destruct (971 <? e); [reflexivity|].
  unfold non_negative, PyFloat.cmp_Z, PyFloat.qcmp.
  destruct (scale_positive m' e) as [Ha Hq].
  destruct (PyFloat.scale (Z.pos m') e) as [a b]. cbn [fst snd] in *.
  assert (E : (a * 1 ?= 0 * b) = Gt) by (apply Z.compare_gt_iff; lia).
  rewrite E. reflexivity.
Qed.

Lemma float_of_string_non_negative (g : string) (f : spec_float) :
  float_of_string g = Some f -> non_negative f = true.
Proof.
  unfold float_of_string. destruct (cut_dot g) as [whole rest].
  destruct (_ && _); [|discriminate].
  intros [= <-]. apply round_binary64_non_negative.
Qed.

Lemma round_half_even_1 (a : Z) : PyFloat.round_half_even a 1 = a.
Proof.
  unfold PyFloat.round_half_even. rewrite Z.mod_1_r, Z.div_1_r. reflexivity.
Qed.

(** An integer below [2^53] is read exactly. *)
Lemma round_binary64_exact (n : Z) :
  0 <= n < 2 ^ 53 -> round_binary64 n 1 = PyFloat.of_Z n.
Proof.
  intros [Hn0 Hn]. destruct n as [|x|x]; [reflexivity| |lia].
  unfold round_binary64, PyFloat.of_Z.
  set (p := Z.pos x) in *.
  assert (Hl0 : 0 <= Z.log2 p) by apply Z.log2_nonneg.
  assert (Hl : Z.log2 p < 53) by (apply Z.log2_lt_pow2; lia).
  assert (Hspec : 2 ^ Z.log2 p <= p < 2 ^ Z.succ (Z.log2 p))
    by (apply Z.log2_spec; lia).
  change (p =? 0) with false. cbn iota.
  change (Z.log2 1) with 0. rewrite Z.sub_0_r.
  assert (E1 : (0 <=? Z.log2 p) = true) by (apply Z.leb_le; lia).
  rewrite E1.
  assert (E2 : (1 * 2 ^ Z.log2 p <=? p) = true) by (apply Z.leb_le; lia).
  rewrite E2.
  rewrite Z.max_l by lia.
  set (sh := 53 - Z.log2 p - 1).
  assert (Hsh : 0 <= sh) by (unfold sh; lia).
  assert (Hm : (if 0 <=? Z.log2 p - 52
                then PyFloat.round_half_even p (1 * 2 ^ (Z.log2 p - 52))
                else PyFloat.round_half_even (p * 2 ^ (- (Z.log2 p - 52))) 1)
               = p * 2 ^ sh).
  { destruct (0 <=? Z.log2 p - 52) eqn:E.
    - apply Z.leb_le in E. assert (Z.log2 p = 52) as -> by lia.
      assert (sh = 0) as -> by (unfold sh; lia || (subst sh; lia)).
      change (52 - 52) with 0. change (1 * 2 ^ 0) with 1.
      rewrite round_half_even_1. lia.
    - rewrite round_half_even_1. f_equal. f_equal. unfold sh. lia. }
  rewrite Hm.
  assert (Hpow : 0 < 2 ^ sh) by (apply Z.pow_pos_nonneg; lia).
  assert (Hlt : p * 2 ^ sh < 2 ^ 53).
  { replace (2 ^ 53) with (2 ^ Z.succ (Z.log2 p) * 2 ^ sh).
    - apply Z.mul_lt_mono_pos_r; lia.
    - rewrite <- Z.pow_add_r by lia. f_equal. unfold sh. lia. }
  assert (E3 : (p * 2 ^ sh =? 2 ^ 53) = false) by (apply Z.eqb_neq; lia).
  rewrite E3.
  assert (Hpos : 0 < p * 2 ^ sh) by (apply Z.mul_pos_pos; lia).
  destruct (p * 2 ^ sh) as [|y|y] eqn:Ey; [lia| |lia].
  assert (E4 : (971 <? Z.log2 p - 52) = false) by (apply Z.ltb_ge; lia).
  rewrite E4. f_equal. unfold sh. lia.
Qed.

(** Comparing the float of an integer below [2^53] with an integer compares
    the integers. *)
Lemma cmp_Z_of_Z (n k : Z) :
  0 <= n < 2 ^ 53 -> PyFloat.cmp_Z (PyFloat.of_Z n) k = Some (n ?= k).
Proof.
  intros [Hn0 Hn]. destruct n as [|x|x]; [reflexivity| |lia].
  unfold PyFloat.of_Z. set (p := Z.pos x) in *.
  assert (Hl0 : 0 <= Z.log2 p) by apply Z.log2_nonneg.
  assert (Hl : Z.log2 p < 53) by (apply Z.log2_lt_pow2; lia).
  set (sh := 53 - Z.log2 p - 1).
  assert (Hsh : 0 <= sh) by (unfold sh; lia).
  assert (Hpow : 0 < 2 ^ sh) by (apply Z.pow_pos_nonneg; lia).
  assert (Hpos : 0 < p * 2 ^ sh) by (apply Z.mul_pos_pos; lia).
  unfold PyFloat.cmp_Z, PyFloat.scale, PyFloat.qcmp.
  rewrite Z2Pos.id by exact Hpos.
  destruct (0 <=? - sh) eqn:E.
  - apply Z.leb_le in E. assert (sh = 0) as Hz by lia. rewrite Hz.
    change (- 0) with 0. change (2 ^ 0) with 1. rewrite !Z.mul_1_r. reflexivity.
  - rewrite Z.opp_involutive, Z.mul_1_r. f_equal.
    destruct (Z.compare_spec p k) as [Heq | Hlt | Hgt].
    + subst k. apply Z.compare_refl.
    + apply Z.compare_lt_iff. nia.
    + apply Z.compare_gt_iff. nia.
Qed.

Lemma digits_value_bound (s : string) (acc : Z) :
  all_decimal s = true -> 0 <= acc ->
  0 <= digits_value acc s < (acc + 1) * 10 ^ Z.of_nat (String.length s).
Proof.
  revert acc. induction s as [|c s IH]; intros acc Hd Hacc.
  - cbn. lia.
  - cbn [all_decimal] in Hd. apply andb_true_iff in Hd. destruct Hd as [Hc Hs].
    cbn [digits_value String.length].
    unfold is_decimal in Hc. apply andb_true_iff in Hc. destruct Hc as [H1 H2].
    apply N.leb_le in H1, H2.
    assert (0 <= Z.of_N (code c) - 48 <= 9) by lia.
    specialize (IH (10 * acc + (Z.of_N (code c) - 48)) Hs ltac:(lia)).
    rewrite Nat2Z.inj_succ, Z.pow_succ_r by lia.
    assert (0 < 10 ^ Z.of_nat (String.length s)) by (apply Z.pow_pos_nonneg; lia).
    nia.
Qed.

End Ping.

Section PingHost.
Import Py PyStr Checker Shapes Diagnostics Collector CollectorFacts.
#[local] Open Scope Z_scope.

(** Reading the packet loss never raises. *)
Lemma loss_parse (output : string) :
  exists l : option spec_float,
    match search match_loss output with
    | Some g => Some <$> float_of_string g
    | None => Some None
    end = Some l /\
    forall g, search match_loss output = Some g ->
              l = Some (round_binary64 (digits_value 0 g) 1) /\
              is_number g = true.
Proof.
  destruct (search match_loss output) as [g|] eqn:E.
  - destruct (search_from _ _ _ E) as [s' Hs'].
    pose proof (match_loss_number _ _ Hs') as Hg.
    rewrite (float_of_number g Hg). eexists. split; [reflexivity|].
    intros g' [= <-]. split; [reflexivity | exact Hg].
  - exists None. split; [reflexivity | discriminate].
Qed.

Lemma average_parse (output : string) :
  exists a : option spec_float,
    match search match_average output with
    | Some g => Some <$> float_of_string g
    | None => Some None
    end = Some a.
Proof.
  destruct (search match_average output) as [g|] eqn:E.
  - destruct (search_from _ _ _ E) as [s' Hs'].
    rewrite (float_of_number g (match_average_number _ _ Hs')). eauto.
  - eauto.
Qed.

(** [ping_host] on Windows, and elsewhere when the average can be read. *)
Lemma ping_host_windows (result : CompletedProcess) :
  exists a l,
    ping_host true (Some result)
    = {| success := returncode result =? 0; avg := a; loss := l |}.
Proof.
  unfold ping_host.
  destruct (average_parse (stdout result +:+ stderr result)) as [a Ha].
  destruct (loss_parse (stdout result +:+ stderr result)) as (l & Hl & _).
  rewrite Ha, Hl. eauto.
Qed.

Lemma ping_host_unix (result : CompletedProcess) :
  match search match_rtt (stdout result +:+ stderr result) with
  | Some g =>
      match float_of_string g with
      | Some f =>
          exists l,
            ping_host false (Some result)
            = {| success := returncode result =? 0; avg := Some f; loss := l |}
      | None =>
          ping_host false (Some result)
          = {| success := false; avg := None; loss := None |}
      end
  | None =>
      exists l,
        ping_host false (Some result)
        = {| success := returncode result =? 0; avg := None; loss := l |}
  end.
Proof.
  unfold ping_host.
  destruct (loss_parse (stdout result +:+ stderr result)) as (l & Hl & _).
  destruct (search match_rtt (stdout result +:+ stderr result)) as [g|].
  - destruct (float_of_string g) as [f|]; [|reflexivity].
    cbn [fmap option_fmap option_map]. rewrite Hl. eauto.
  - rewrite Hl. eauto.
Qed.

(** X13. [ping_host] reports success only for a command that ran and exited
    with code 0.  On Windows that is all there is to it: success is the
    exit code, whatever the output says.  Elsewhere a ping that exited with
    code 0 is still reported as failed, with no latency and no loss, exactly
    when the average in the "rtt" line is not a number ([float] raises and
    the exception is swallowed). *)
Theorem X13_ping_success (is_windows : bool) (run : option CompletedProcess) :
  (success (ping_host is_windows run) = true ->
     exists result, run = Some result /\ returncode result = 0) /\
  (forall result,
     success (ping_host true (Some result)) = (returncode result =? 0)) /\
  (forall result,
     returncode result = 0 ->
     (success (ping_host false (Some result)) = false <->
        exists g, search match_rtt (stdout result +:+ stderr result) = Some g /\
                  float_of_string g = None)) /\
  (forall result g,
     search match_rtt (stdout result +:+ stderr result) = Some g ->
     float_of_string g = None ->
     ping_host false (Some result)
     = {| success := false; avg := None; loss := None |}).
Proof.
  split_and!.
  - destruct run as [result|]; [|discriminate].
    intros H. exists result. split; [reflexivity|].
    destruct is_windows.
    + destruct (ping_host_windows result) as (a & l & E).
      rewrite E in H. apply Z.eqb_eq, H.
    + pose proof (ping_host_unix result) as E.
      destruct (search match_rtt _) as [g|].
      * destruct (float_of_string g).
        -- destruct E as [l E]. rewrite E in H. apply Z.eqb_eq, H.
        -- rewrite E in H. discriminate.
      * destruct E as [l E]. rewrite E in H. apply Z.eqb_eq, H.
  - intros result. destruct (ping_host_windows result) as (a & l & E).
    rewrite E. reflexivity.
  - intros result Hrc. pose proof (ping_host_unix result) as E.
    destruct (search match_rtt _) as [g|].
    + destruct (float_of_string g) as [f|] eqn:Ef.
      * destruct E as [l E]. rewrite E. cbn [success]. rewrite Hrc. split.
        -- discriminate.
        -- intros (g' & [= <-] & Hg'). congruence.
      * rewrite E. split; [eauto | reflexivity].
    + destruct E as [l E]. rewrite E. cbn [success]. rewrite Hrc. split.
      * discriminate.
      * intros (g' & Hg' & _). discriminate.
  - intros result g Hg Hf. pose proof (ping_host_unix result) as E.
    rewrite Hg, Hf in E. exact E.
Qed.

Lemma X13_ping_success_witness :
  ping_host false
    (Some {| returncode := 0;
             stdout := "rtt min/avg/max/mdev = 1.0/1.2.3/4.0/0.1 ms";
             stderr := "" |})
  = {| success := false; avg := None; loss := None |}.
Proof.
  apply (proj2 (proj2 (proj2 (X13_ping_success false None))) _ "1.2.3");
    reflexivity.
Defined.

Lemma ping_values (is_windows : bool) (result : CompletedProcess) :
  (forall f, avg (ping_host is_windows (Some result)) = Some f ->
             non_negative f = true) /\
  (forall f, loss (ping_host is_windows (Some result)) = Some f ->
             non_negative f = true) /\
  (forall f g,
     loss (ping_host is_windows (Some result)) = Some f ->
     search match_loss (stdout result +:+ stderr result) = Some g ->
     (String.length g <= 15)%nat ->
     f = PyFloat.of_Z (digits_value 0 g) /\
     PyFloat.gt_Z f 20 = (20 <? digits_value 0 g)).
Proof.
  assert (Hshape : exists a l,
    (ping_host is_windows (Some result)
     = {| success := false; avg := None; loss := None |} \/
     ping_host is_windows (Some result)
     = {| success := returncode result =? 0; avg := a; loss := l |}) /\
    (forall f, a = Some f -> non_negative f = true) /\
    (forall f, l = Some f -> non_negative f = true) /\
    (forall g, search match_loss (stdout result +:+ stderr result) = Some g ->
               l = Some (round_binary64 (digits_value 0 g) 1) /\
               is_number g = true)).
  { unfold ping_host.
    destruct (loss_parse (stdout result +:+ stderr result)) as (l & Hl & Hg).
    assert (Hlnn : forall f, l = Some f -> non_negative f = true).
    { intros f ->.
      destruct (search match_loss (stdout result +:+ stderr result)) as [g|];
        [|discriminate].
      destruct (float_of_string g) as [f'|] eqn:Ef; [|discriminate].
      injection Hl as <-. apply (float_of_string_non_negative _ _ Ef). }
    destruct is_windows.
    - destruct (search match_average (stdout result +:+ stderr result)) as [g|].
      + destruct (float_of_string g) as [f|] eqn:Ef.
        * exists (Some f), l. cbn [fmap option_fmap option_map]. rewrite Hl.
          split_and!; [right; reflexivity | | exact Hlnn | exact Hg].
          intros f' [= <-]. apply (float_of_string_non_negative _ _ Ef).
        * exists None, l. split_and!; [left; reflexivity | discriminate | exact Hlnn | exact Hg].
      + exists None, l. rewrite Hl.
        split_and!; [right; reflexivity | discriminate | exact Hlnn | exact Hg].
    - destruct (search match_rtt (stdout result +:+ stderr result)) as [g|].
      + destruct (float_of_string g) as [f|] eqn:Ef.
        * exists (Some f), l. cbn [fmap option_fmap option_map]. rewrite Hl.
          split_and!; [right; reflexivity | | exact Hlnn | exact Hg].
          intros f' [= <-]. apply (float_of_string_non_negative _ _ Ef).
        * exists None, l. split_and!; [left; reflexivity | discriminate | exact Hlnn | exact Hg].
      + exists None, l. rewrite Hl.
        split_and!; [right; reflexivity | discriminate | exact Hlnn | exact Hg]. }
  destruct Hshape as (a & l & Hp & Ha & Hl & Hg).
  split_and!.
  - intros f Hf. destruct Hp as [E | E]; rewrite E in Hf; [discriminate|].
    apply Ha, Hf.
  - intros f Hf. destruct Hp as [E | E]; rewrite E in Hf; [discriminate|].
    apply Hl, Hf.
  - intros f g Hf Hs Hlen.
    destruct Hp as [E | E]; rewrite E in Hf; [discriminate|].
    cbn [loss] in Hf. destruct (Hg g Hs) as [Hlg Hnum].
    rewrite Hlg in Hf. injection Hf as <-.
    unfold is_number in Hnum. apply andb_true_iff in Hnum.
    destruct Hnum as [Hd _].
    pose proof (digits_value_bound g 0 Hd ltac:(lia)) as Hb.
    assert (Hpow : 10 ^ Z.of_nat (String.length g) <= 10 ^ 15)
      by (apply Z.pow_le_mono_r; lia).
    assert (Hn : 0 <= digits_value 0 g < 2 ^ 53).
    { split; [lia|]. apply Z.lt_le_trans with (10 ^ 15); [lia|].
      vm_compute. discriminate. }
    rewrite (round_binary64_exact _ Hn). split; [reflexivity|].
    unfold PyFloat.gt_Z. rewrite (cmp_Z_of_Z _ 20 Hn).
    destruct (Z.compare_spec (digits_value 0 g) 20) as [E' | E' | E'];
      symmetry; [apply Z.ltb_ge | apply Z.ltb_ge | apply Z.ltb_lt]; lia.
Qed.


(** X14. The latency and the loss [ping_host] returns are never nan and
    never negative.  A loss figure of at most 15 digits is returned as
    exactly that integer, so it is above the threshold of the diagnosis
    exactly when the integer is above 20. *)
Theorem X14_ping_values (is_windows : bool) (result : CompletedProcess) :
  (forall f, avg (ping_host is_windows (Some result)) = Some f ->
             non_negative f = true) /\
  (forall f, loss (ping_host is_windows (Some result)) = Some f ->
             non_negative f = true) /\
  (forall f g,
     loss (ping_host is_windows (Some result)) = Some f ->
     search match_loss (stdout result +:+ stderr result) = Some g ->
     (String.length g <= 15)%nat ->
     f = PyFloat.of_Z (digits_value 0 g) /\
     PyFloat.gt_Z f 20 = (20 <? digits_value 0 g)).
Proof. apply ping_values. Qed.

Lemma X14_ping_values_witness :
  PyFloat.of_Z 25 = PyFloat.of_Z (digits_value 0 "25") /\
  PyFloat.gt_Z (PyFloat.of_Z 25) 20 = (20 <? digits_value 0 "25").
Proof.
  apply (proj2 (proj2 (X14_ping_values true
           {| returncode := 1;
              stdout := "    Packets: Sent = 4, Received = 3, Lost = 1 (25% loss),";
              stderr := "" |}))); [reflexivity | reflexivity | cbn; lia].
Defined.

(** X15. From the output of the ping to the diagnosis: when the ping of
    8.8.8.8 succeeded, DNS resolution works and the output reports a loss of
    at most 15 digits, the diagnosis after a full diagnostic is
    [unstable_connection] exactly when that figure is above 20. *)
Theorem X15_loss_figure_to_diagnosis (self : NetworkDiagnostics) (c : Probes)
    (is_windows : bool) (result : CompletedProcess) (g : string) :
  Diagnostics.ping_host c "8.8.8.8" = Collector.ping_host is_windows (Some result) ->
  success (Collector.ping_host is_windows (Some result)) = true ->
  check_dns c "google.com" = true ->
  search match_loss (stdout result +:+ stderr result) = Some g ->
  (String.length g <= 15)%nat ->
  exists d,
    get_diagnosis (fst (run_full_diagnostic self c)) None = Ok d /\
    (status d = "unstable_connection" <-> 20 < digits_value 0 g).
Proof.
  intros Hping Hsucc Hdns Hg Hlen.
  rewrite run_full_diagnostic_results. cbn [fst].
  assert (E : get_diagnosis
                {| Diagnostics.is_windows := Diagnostics.is_windows self;
                   results := to_results (collect c) |} None
              = get_diagnosis self (Some (to_results (collect c))))
    by reflexivity.
  rewrite E.
  assert (Hc : internet_connected (collect c) = true).
  { cbn [collect internet_connected]. rewrite Hping. exact Hsucc. }
  destruct (status_connected self (collect c) Hc Hdns) as (d & Hd & Hs & _).
  exists d. split; [exact Hd|].
  cbn [collect ping_google_dns] in Hs. rewrite Hping in Hs.
  destruct (loss (Collector.ping_host is_windows (Some result))) as [f|] eqn:Hl.
  - destruct (proj2 (proj2 (ping_values is_windows result)) f g Hl Hg Hlen)
      as [_ Hgt].
    cbn [exceeds] in Hs. rewrite Hgt in Hs. rewrite Hs.
    destruct (20 <? digits_value 0 g) eqn:E20.
    + apply Z.ltb_lt in E20. split; [intros _; exact E20 | reflexivity].
    + apply Z.ltb_ge in E20. split; [|lia].
      destruct (exceeds _ 100); discriminate.
  - exfalso.
    assert (Hshape := loss_parse (stdout result +:+ stderr result)).
    destruct Hshape as (l & Hl' & Hlg). destruct (Hlg g Hg) as [-> _].
    unfold Collector.ping_host in Hl, Hsucc. rewrite Hl' in Hl, Hsucc.
    destruct is_windows.
    + destruct (match search match_average _ with Some _ => _ | None => _ end);
        cbn in Hl, Hsucc; discriminate.
    + destruct (match search match_rtt _ with Some _ => _ | None => _ end);
        cbn in Hl, Hsucc; discriminate.
Qed.

End PingHost.

(** ** More on the monitor loop *)

Section MonitorCounts.
Import Py PyStr Diagnostics Monitor MonitorFacts.

(** [_handle_status_change] returns, and leaves [running], the stored status
    and the interval as they are. *)
Lemma handle_total (self : NetworkMonitor) (connected : bool)
    (timestamp : string) (c : Probes) :
  exists self' out,
    _handle_status_change self connected timestamp c = Ok (self', out) /\
    running self' = running self /\
    previous_status self' = previous_status self /\
    interval self' = interval self.
Proof.
  destruct (tick_diagnosis self c) as [d Hd].
  destruct (previous_status self) as [[|]|] eqn:Hp; destruct connected.
  - unfold _handle_status_change. rewrite Hp. do 2 eexists.
    split_and!; [reflexivity | reflexivity | congruence | reflexivity].
  - rewrite (handle_lost _ _ _ d) by assumption. do 2 eexists.
    split_and!; [reflexivity | reflexivity | cbn; congruence | reflexivity].
  - rewrite handle_restored by assumption. do 2 eexists.
    split_and!; [reflexivity | reflexivity | congruence | reflexivity].
  - unfold _handle_status_change. rewrite Hp. do 2 eexists.
    split_and!; [reflexivity | reflexivity | congruence | reflexivity].
  - rewrite handle_initial_up by assumption. do 2 eexists.
    split_and!; [reflexivity | reflexivity | congruence | reflexivity].
  - rewrite (handle_initial_down _ _ _ d) by assumption. do 2 eexists.
    split_and!; [reflexivity | reflexivity | cbn; congruence | reflexivity].
Qed.

(** An iteration is what comes before the sleep, which returns with the
    interval unchanged, followed by the sleep. *)
Lemma tick_before_sleep (callback : bool) (self : NetworkMonitor) (t : Tick) :
  exists s1 out,
    interval s1 = interval self /\
    running s1 = running self /\
    monitor_tick callback self t
    = (slept ← time_sleep (interval self);
       Ok (set_previous_status s1 (is_connected t), out ++ slept)).
Proof.
  unfold monitor_tick.
  destruct (negb (status_eqb (Some (is_connected t)) (previous_status self))).
  - destruct (handle_total self (is_connected t) (now t) (probes t))
      as (s1 & o & H & Hr & _ & Hi).
    rewrite H, ?bind_Ok. cbn beta iota. rewrite ?bind_Ok. cbn beta iota.
    exists s1, (o ++ if callback then [Callback (is_connected t) (now t)] else []).
    split; [exact Hi|]. split; [exact Hr|].
    change (interval (set_previous_status s1 (is_connected t))) with (interval s1).
    rewrite Hi. reflexivity.
  - rewrite bind_Ok. cbn beta iota.
    exists self, [Stdout (heartbeat (now t) (is_connected t))].
    split; [reflexivity|]. split; reflexivity.
Qed.

(** An iteration that returns leaves [running] and the interval as they
    are. *)
Lemma tick_keeps (callback : bool) (self : NetworkMonitor) (t : Tick)
    (self' : NetworkMonitor) (out : list event) :
  monitor_tick callback self t = Ok (self', out) ->
  running self' = running self /\ interval self' = interval self.
Proof.
  destruct (tick_before_sleep callback self t) as (s1 & o & Hi & Hr & ->).
  destruct (time_sleep (interval self)) as [slept|e]; [|discriminate].
  rewrite bind_Ok. intros [= <- _]. split; assumption.
Qed.

(** An iteration raises what its sleep raises. *)
Lemma tick_raises (callback : bool) (self : NetworkMonitor) (t : Tick) (e : exn) :
  time_sleep (interval self) = Raise e ->
  monitor_tick callback self t = Raise e.
Proof.
  intros H. destruct (tick_before_sleep callback self t) as (s1 & o & _ & _ & ->).
  rewrite H. reflexivity.
Qed.

Lemma monitor_raises (callback : bool) (self : NetworkMonitor) (ts : list Tick)
    (e : exn) :
  ts <> [] ->
  time_sleep (interval self) = Raise e ->
  monitor callback self ts = Raise e.
Proof.
  intros Hts H. destruct ts as [|t ts]; [congruence|].
  unfold monitor. cbn [monitor_loop].
  rewrite (tick_raises callback (set_running self true) t e) by exact H.
  reflexivity.
Qed.

Lemma tick_sleeps (callback : bool) (self : NetworkMonitor) (t : Tick) :
  (0 <= interval self <= sleep_granted)%Z ->
  exists self' out,
    monitor_tick callback self t = Ok (self', out) /\
    List.filter is_sleep out = [Sleep (interval self)].
Proof.
  intros Hi.
  assert (Hps : forall title xs, List.filter is_sleep (print_section title xs) = []).
  { intros title xs.
    assert (H : forall ys, List.filter is_sleep (print_items ys) = []).
    { induction ys as [|y ys IH]; [reflexivity | exact IH]. }
    destruct xs as [|x xs]; [reflexivity | exact (H (x :: xs))]. }
  assert (Hcb : List.filter is_sleep (callback_call callback t) = [])
    by (destruct callback; reflexivity).
  destruct (tick_diagnosis self (probes t)) as [d Hd].
  destruct (previous_status self) as [[|]|] eqn:Hp;
    destruct (is_connected t) eqn:Hc.
  - rewrite tick_heartbeat by (assumption || congruence).
    do 2 eexists. split; reflexivity.
  - rewrite tick_lost with (d := d) by assumption. do 2 eexists.
    split; [reflexivity|]. unfold lost_alert.
    rewrite !List.filter_app, !Hps, Hcb. reflexivity.
  - rewrite tick_restored by assumption. do 2 eexists.
    split; [reflexivity|]. rewrite !List.filter_app, Hcb. reflexivity.
  - rewrite tick_heartbeat by (assumption || congruence).
    do 2 eexists. split; reflexivity.
  - rewrite tick_initial_up by assumption. do 2 eexists.
    split; [reflexivity|]. rewrite !List.filter_app, Hcb. reflexivity.
  - rewrite tick_initial_down with (d := d) by assumption. do 2 eexists.
    split; [reflexivity|]. unfold initial_down.
    rewrite !List.filter_app, !Hps, Hcb. reflexivity.
Qed.

Lemma down_edges_bound (ts : list Tick) (prev : option bool) :
  (2 * down_edges prev ts
   <= length ts + if status_eqb (Some false) prev then 0 else 1)%nat.
Proof.
  revert prev. induction ts as [|t ts IH]; intros prev.
  - cbn. lia.
  - cbn [down_edges length]. specialize (IH (Some (is_connected t))).
    destruct (is_connected t), prev as [[|]|]; cbn in *; lia.
Qed.

(** The loop over a run: it returns, keeps [running] and the interval, and
    runs the full diagnostics of the down edges. *)
Lemma loop_counts (callback : bool) (ts : list Tick) (self : NetworkMonitor) :
  (0 <= interval self <= sleep_granted)%Z ->
  exists self' out,
    monitor_loop callback self ts = Ok (self', out) /\
    running self' = running self /\
    interval self' = interval self /\
    previous_status self'
    = List.last (map (fun t => Some (is_connected t)) ts) (previous_status self) /\
    full_diagnostics out = down_edges (previous_status self) ts.
Proof.
  revert self. induction ts as [|t ts IH]; intros self Hi.
  - exists self, []. split_and!; reflexivity.
  - destruct (tick_total callback self t Hi) as (s1 & o1 & H1 & Hp & Hi1 & _ & Hf).
    destruct (tick_keeps _ _ _ _ _ H1) as [Hr1 _].
    assert (Hi' : (0 <= interval s1 <= sleep_granted)%Z) by (rewrite Hi1; exact Hi).
    destruct (IH s1 Hi') as (s2 & o2 & H2 & Hr2 & Hi2 & Hp2 & Hf2).
    exists s2, (o1 ++ o2). cbn [monitor_loop]. rewrite H1, bind_Ok.
    cbn beta iota. rewrite H2, bind_Ok. split_and!.
    + reflexivity.
    + congruence.
    + congruence.
    + rewrite Hp2, Hp. cbn [map]. rewrite last_cons_default. reflexivity.
    + rewrite full_diagnostics_app, Hf, Hf2, Hp. reflexivity.
Qed.

Lemma last_status_some (ts : list Tick) (b : bool) :
  exists b', List.last (map (fun t => Some (is_connected t)) ts) (Some b) = Some b'.
Proof.
  revert b. induction ts as [|t ts IH]; intros b; [exists b; reflexivity|].
  cbn [map]. rewrite last_cons_default. apply IH.
Qed.

(** The loop over two runs in a row. *)
Lemma loop_app (callback : bool) (ts1 ts2 : list Tick) (self : NetworkMonitor) :
  monitor_loop callback self (ts1 ++ ts2)
  = ('(self1, out1) ← monitor_loop callback self ts1;
     '(self2, out2) ← monitor_loop callback self1 ts2;
     Ok (self2, out1 ++ out2)).
Proof.
  revert self. induction ts1 as [|t ts1 IH]; intros self.
  - cbn [app monitor_loop]. rewrite bind_Ok. cbn beta iota.
    destruct (monitor_loop callback self ts2) as [[s2 o2]|e]; reflexivity.
  - change ((t :: ts1) ++ ts2) with (t :: (ts1 ++ ts2)). cbn [monitor_loop].
    destruct (monitor_tick callback self t) as [[s o]|e]; [|reflexivity].
    rewrite !bind_Ok. cbn beta iota. rewrite IH.
    destruct (monitor_loop callback s ts1) as [[s1 o1]|e]; [|reflexivity].
    rewrite !bind_Ok. cbn beta iota.
    destruct (monitor_loop callback s1 ts2) as [[s2 o2]|e]; [|reflexivity].
    rewrite !bind_Ok. cbn beta iota. rewrite app_assoc. reflexivity.
Qed.

(** X16. With an interval from 0 to [sleep_granted] seconds, over any run
    of the loop the number of full diagnostic runs is the number of
    iterations that observe down while the stored status is not down: the
    first check if it is down, and each change from up to down.  Heartbeats
    and restorations run none, so no two consecutive iterations run one, and
    [n] iterations run at most [(n + 1) / 2]. *)
Theorem X16_full_diagnostics_count (callback : bool) (ts : list Tick)
    (self : NetworkMonitor) :
  (0 <= interval self <= sleep_granted)%Z ->
  exists self' out,
    monitor_loop callback self ts = Ok (self', out) /\
    full_diagnostics out = down_edges (previous_status self) ts /\
    (2 * full_diagnostics out <= length ts + 1)%nat.
Proof.
  intros Hi.
  destruct (loop_counts callback ts self Hi) as (self' & out & Hrun & _ & _ & _ & Hcount).
  exists self', out. split; [exact Hrun|]. split; [exact Hcount|].
  rewrite Hcount. pose proof (down_edges_bound ts (previous_status self)) as Hb.
  destruct (status_eqb (Some false) (previous_status self)); lia.
Qed.

Lemma X16_full_diagnostics_count_witness :
  exists self' out,
    monitor_loop true (NetworkMonitor_init false 10) five_ticks = Ok (self', out) /\
    full_diagnostics out = 1%nat /\
    (2 * full_diagnostics out <= 5 + 1)%nat.
Proof.
  assert (Hi : (0 <= interval (NetworkMonitor_init false 10) <= sleep_granted)%Z)
    by (unfold sleep_granted; cbn; lia).
  exact (X16_full_diagnostics_count true five_ticks (NetworkMonitor_init false 10) Hi).
Defined.

(** X17. The sleep decides whether the monitor runs at all.  With an
    interval from 0 to [sleep_granted] seconds, and a callback that leaves
    the monitor alone or none, the loop returns and every iteration ends
    with exactly one sleep of the configured interval: [n] iterations give
    [n] sleeps.  With a negative interval [monitor] raises [ValueError] out
    of its first iteration, and with one beyond [sleep_limit] seconds in
    either direction [OverflowError]: it is not caught, and there is no
    second check. *)
Theorem X17_sleeps (callback : bool) (ts : list Tick) (self : NetworkMonitor) :
  ((0 <= interval self <= sleep_granted)%Z ->
   exists self' out,
     monitor_loop callback self ts = Ok (self', out) /\
     List.filter is_sleep out = List.repeat (Sleep (interval self)) (length ts)) /\
  (ts <> [] -> (- sleep_limit <= interval self < 0)%Z ->
   monitor callback self ts = Raise ValueError) /\
  (ts <> [] -> (interval self < - sleep_limit \/ sleep_limit < interval self)%Z ->
   monitor callback self ts = Raise OverflowError).
Proof.
  split_and!.
  - revert self. induction ts as [|t ts IH]; intros self Hi.
    + exists self, []. split; reflexivity.
    + destruct (tick_sleeps callback self t Hi) as (s1 & o1 & H1 & Hs).
      destruct (tick_keeps _ _ _ _ _ H1) as [_ Hi1].
      assert (Hi' : (0 <= interval s1 <= sleep_granted)%Z) by (rewrite Hi1; exact Hi).
      destruct (IH s1 Hi') as (s2 & o2 & H2 & Hs2).
      exists s2, (o1 ++ o2). cbn [monitor_loop]. rewrite H1, bind_Ok.
      cbn beta iota. rewrite H2, bind_Ok. split; [reflexivity|].
      rewrite List.filter_app, Hs, Hs2, Hi1. reflexivity.
  - intros Hts Hi. apply monitor_raises; [exact Hts|].
    apply time_sleep_negative, Hi.
  - intros Hts Hi. apply monitor_raises; [exact Hts|].
    apply time_sleep_overflow, Hi.
Qed.

Lemma X17_sleeps_witness :
  (exists self' out,
     monitor_loop false (NetworkMonitor_init false 10) five_ticks = Ok (self', out) /\
     List.filter is_sleep out = List.repeat (Sleep 10) 5) /\
  monitor false (NetworkMonitor_init false (-1)) five_ticks = Raise ValueError /\
  monitor false (NetworkMonitor_init false 10000000000) five_ticks
  = Raise OverflowError.
Proof.
  split_and!.
  - apply (proj1 (X17_sleeps false five_ticks (NetworkMonitor_init false 10))).
    unfold sleep_granted; cbn; lia.
  - apply (proj1 (proj2 (X17_sleeps false five_ticks (NetworkMonitor_init false (-1))))).
    + discriminate.
    + unfold sleep_limit; cbn; lia.
  - apply (proj2 (proj2 (X17_sleeps false five_ticks
                           (NetworkMonitor_init false 10000000000)))).
    + discriminate.
    + unfold sleep_limit; cbn; lia.
Defined.

(** X18. Calling [monitor] again.  With an interval from 0 to
    [sleep_granted] seconds, a call of [monitor] that is interrupted after
    the iterations [ts1] leaves a monitor that is not running and has the
    last observation stored.  A second call on it, interrupted after [ts2],
    prints the start notice again and then exactly what the first call
    would have printed for [ts2] had it not been interrupted: the two calls
    print the iterations of one call over [ts1 ++ ts2] and end with the same
    monitor.  After at least one iteration the stored status is not [None],
    so the second call makes no initial check. *)
Theorem X18_runs_compose (callback : bool) (ts1 ts2 : list Tick)
    (self : NetworkMonitor) :
  (0 <= interval self <= sleep_granted)%Z ->
  exists self1 out1 self2 out2,
    monitor callback self ts1
    = Ok (self1, start_notice self ++ out1 ++ [stop_notice]) /\
    monitor callback self1 ts2
    = Ok (self2, start_notice self ++ out2 ++ [stop_notice]) /\
    monitor callback self (ts1 ++ ts2)
    = Ok (self2, start_notice self ++ (out1 ++ out2) ++ [stop_notice]) /\
    running self1 = false /\
    previous_status self1
    = List.last (map (fun t => Some (is_connected t)) ts1) (previous_status self) /\
    (ts1 <> [] -> previous_status self1 <> None) /\
    full_diagnostics out2 = down_edges (previous_status self1) ts2.
Proof.
  intros Hi.
  assert (Hi0 : (0 <= interval (set_running self true) <= sleep_granted)%Z)
    by exact Hi.
  destruct (loop_counts callback ts1 (set_running self true) Hi0)
    as (s1 & o1 & H1 & Hr1 & Hi1 & Hp1 & _).
  assert (Hi1' : (0 <= interval s1 <= sleep_granted)%Z) by (rewrite Hi1; exact Hi).
  destruct (loop_counts callback ts2 s1 Hi1') as (s2 & o2 & H2 & _ & _ & _ & Hf2).
  assert (Es1 : set_running (set_running s1 false) true = s1).
  { destruct s1 as [d i p r]. cbn in Hr1. subst r. reflexivity. }
  exists (set_running s1 false), o1, (set_running s2 false), o2.
  split_and!.
  - unfold monitor. rewrite H1, bind_Ok. reflexivity.
  - unfold monitor. rewrite Es1, H2, bind_Ok. cbn beta iota.
    unfold start_notice. cbn [interval set_running] in *. rewrite Hi1.
    reflexivity.
  - unfold monitor. rewrite loop_app, H1, bind_Ok. cbn beta iota.
    rewrite H2, !bind_Ok. reflexivity.
  - reflexivity.
  - exact Hp1.
  - intros Hne. cbn [previous_status set_running]. rewrite Hp1.
    cbn [previous_status set_running].
    destruct ts1 as [|t ts1]; [congruence|].
    cbn [map]. rewrite last_cons_default.
    destruct (last_status_some ts1 (is_connected t)) as [b ->]. discriminate.
  - exact Hf2.
Qed.

Lemma X18_runs_compose_witness :
  exists self1 out1 self2 out2,
    monitor true (NetworkMonitor_init false 10) (firstn 2 five_ticks)
    = Ok (self1, start_notice (NetworkMonitor_init false 10) ++ out1 ++ [stop_notice]) /\
    monitor true self1 (skipn 2 five_ticks)
    = Ok (self2, start_notice (NetworkMonitor_init false 10) ++ out2 ++ [stop_notice]) /\
    monitor true (NetworkMonitor_init false 10) (firstn 2 five_ticks ++ skipn 2 five_ticks)
    = Ok (self2, start_notice (NetworkMonitor_init false 10) ++ (out1 ++ out2) ++ [stop_notice]) /\
    running self1 = false /\
    previous_status self1
    = List.last (map (fun t => Some (is_connected t)) (firstn 2 five_ticks))
        (previous_status (NetworkMonitor_init false 10)) /\
    (firstn 2 five_ticks <> [] -> previous_status self1 <> None) /\
    full_diagnostics out2 = down_edges (previous_status self1) (skipn 2 five_ticks).
Proof.
  apply (X18_runs_compose true (firstn 2 five_ticks) (skipn 2 five_ticks)
           (NetworkMonitor_init false 10)).
  unfold sleep_granted; cbn; lia.
Defined.

End MonitorCounts.

Section MonitorStop.
Import Py PyStr Diagnostics Monitor MonitorFacts.

(** An iteration with a callback that acts on the monitor: the output is
    that of [monitor_tick], and the monitor is the one the callback left,
    with the observation stored over whatever the callback did to
    [previous_status]. *)
Lemma tick_with_callback (cb : callback_fn) (self : NetworkMonitor) (t : Tick) :
  (0 <= interval self <= sleep_granted)%Z ->
  (forall s c ts, interval (cb s c ts) = interval s) ->
  exists s1 out,
    monitor_tick true self t = Ok (set_previous_status s1 (is_connected t), out) /\
    monitor_tick_with (Some cb) self t
    = Ok (set_previous_status
            (if status_eqb (Some (is_connected t)) (previous_status self)
             then s1 else cb s1 (is_connected t) (now t))
            (is_connected t),
          out) /\
    running s1 = running self.
Proof.
  intros Hi Hint. unfold monitor_tick, monitor_tick_with.
  destruct (status_eqb (Some (is_connected t)) (previous_status self)).
  - cbn [negb]. rewrite ?bind_Ok. cbn beta iota.
    exists self, [Stdout (heartbeat (now t) (is_connected t));
                  Sleep (interval self)].
    rewrite tick_sleep by exact Hi.
    split_and!; reflexivity.
  - cbn [negb].
    destruct (handle_total self (is_connected t) (now t) (probes t))
      as (s1 & o & H & Hr & _ & Hi1).
    rewrite H, ?bind_Ok. cbn beta iota. rewrite ?bind_Ok. cbn beta iota.
    exists s1, ((o ++ [Callback (is_connected t) (now t)]) ++ [Sleep (interval s1)]).
    assert (Hi' : (0 <= interval s1 <= sleep_granted)%Z) by (rewrite Hi1; exact Hi).
    split_and!; [apply tick_sleep, Hi' | | exact Hr].
    assert (Hi'' : (0 <= interval (cb s1 (is_connected t) (now t)) <= sleep_granted)%Z)
      by (rewrite Hint; exact Hi').
    rewrite tick_sleep by exact Hi''. rewrite Hint. reflexivity.
Qed.

(** X19. A callback that calls [stop] ends the monitor at the first change
    of status.  With an interval from 0 to [sleep_granted] seconds, the
    iterations before the change are heartbeats, the iteration of the change
    runs to its end, sleep included, with the same output as otherwise, and
    the loop is then left without the notice "Monitoring stopped by user"
    and without a further check, however many would have followed. *)
Theorem X19_stop_from_callback (self : NetworkMonitor)
    (hs : list Tick) (t : Tick) (rest : list Tick) :
  (0 <= interval self <= sleep_granted)%Z ->
  running self = true ->
  Forall (fun h => Some (is_connected h) = previous_status self) hs ->
  Some (is_connected t) <> previous_status self ->
  exists self1 out self2,
    monitor_loop true self (hs ++ [t]) = Ok (self1, out) /\
    monitor_while (Some (fun s _ _ => stop s)) self (hs ++ t :: rest)
    = Ok (self2, out, false) /\
    running self2 = false /\
    previous_status self2 = Some (is_connected t).
Proof.
  intros Hi Hrun Hhs Ht. revert self Hi Hrun Hhs Ht.
  induction hs as [|h hs IH]; intros self Hi Hrun Hhs Ht.
  - destruct (tick_with_callback (fun s _ _ => stop s) self t Hi ltac:(reflexivity))
      as (s1 & o & H1 & H2 & Hr).
    assert (E : status_eqb (Some (is_connected t)) (previous_status self) = false).
    { destruct (status_eqb _ _) eqn:E; [|reflexivity].
      apply status_eqb_eq in E. congruence. }
    rewrite E in H2.
    exists (set_previous_status s1 (is_connected t)), o,
           (set_previous_status (stop s1) (is_connected t)).
    split_and!.
    + cbn [app monitor_loop]. rewrite H1, ?bind_Ok. cbn beta iota.
      rewrite app_nil_r. reflexivity.
    + cbn [app monitor_while]. unfold callback_fn in *.
      rewrite Hrun, H2, ?bind_Ok. cbn beta iota.
      destruct rest; cbn [monitor_while running set_previous_status stop set_running];
        rewrite ?bind_Ok; cbn beta iota; rewrite app_nil_r; reflexivity.
    + reflexivity.
    + reflexivity.
  - inversion Hhs as [|? ? Hh Hhs']; subst.
    assert (E : previous_status self = Some (is_connected h)) by congruence.
    assert (Hform : forall cbk,
              monitor_tick cbk self h
              = Ok (set_previous_status self (is_connected h),
                    [Stdout (heartbeat (now h) (is_connected h));
                     Sleep (interval self)]))
      by (intros cbk; apply tick_heartbeat; [exact Hi | exact E]).
    assert (Hform' :
              monitor_tick_with (Some (fun s _ _ => stop s)) self h
              = Ok (set_previous_status self (is_connected h),
                    [Stdout (heartbeat (now h) (is_connected h));
                     Sleep (interval self)])).
    { unfold monitor_tick_with. rewrite E.
      destruct (is_connected h); cbn [status_eqb Bool.eqb negb];
        rewrite bind_Ok; cbn beta iota; apply tick_sleep, Hi. }
    destruct (IH (set_previous_status self (is_connected h))) as
      (s1 & o & s2 & H1 & H2 & Hr2 & Hp2).
    + exact Hi.
    + exact Hrun.
    + cbn [previous_status set_previous_status]. rewrite <- E.
      exact Hhs'.
    + cbn [previous_status set_previous_status]. rewrite <- E. exact Ht.
    + exists s1, ([Stdout (heartbeat (now h) (is_connected h));
                   Sleep (interval self)] ++ o), s2.
      split_and!; [| | exact Hr2 | exact Hp2].
      * change ((h :: hs) ++ [t]) with (h :: (hs ++ [t])).
        cbn [monitor_loop]. rewrite Hform, bind_Ok. cbn beta iota.
        rewrite H1, bind_Ok. reflexivity.
      * change ((h :: hs) ++ t :: rest) with (h :: (hs ++ t :: rest)).
        cbn [monitor_while]. rewrite Hrun, Hform', bind_Ok. cbn beta iota.
        rewrite H2, bind_Ok. reflexivity.
Qed.

Lemma X19_stop_from_callback_witness :
  exists self1 out self2,
    monitor_loop true (monitor_after true)
      (firstn 2 five_ticks ++ [nth 2 five_ticks (Build_Tick "" true sample_probes)])
    = Ok (self1, out) /\
    monitor_while (Some (fun s _ _ => stop s)) (monitor_after true)
      (firstn 2 five_ticks ++
       nth 2 five_ticks (Build_Tick "" true sample_probes) :: skipn 3 five_ticks)
    = Ok (self2, out, false) /\
    running self2 = false /\
    previous_status self2 = Some false.
Proof.
  apply (X19_stop_from_callback (monitor_after true) (firstn 2 five_ticks)
           (nth 2 five_ticks (Build_Tick "" true sample_probes))
           (skipn 3 five_ticks)).
  - unfold sleep_granted; cbn; lia.
  - reflexivity.
  - repeat constructor.
  - discriminate.
Defined.

(** X20. A callback that leaves the monitor alone changes nothing: with it
    the loop with the [running] test is the plain loop, over all the
    iterations, and [monitor] prints the same, ends with the same monitor
    or raises the same exception.  Whatever a callback does to
    [previous_status] is overwritten by the observation at the end of the
    iteration. *)
Theorem X20_passive_callback (cb : callback_fn) (self : NetworkMonitor)
    (ts : list Tick) :
  (forall s c t, cb s c t = s) ->
  monitor_with (Some cb) self ts = monitor true self ts /\
  monitor_with None self ts = monitor false self ts /\
  forall (any : callback_fn) s t s' out,
    monitor_tick_with (Some any) s t = Ok (s', out) ->
    previous_status s' = Some (is_connected t).
Proof.
  intros Hcb.
  assert (Htick : forall s t,
            monitor_tick_with (Some cb) s t = monitor_tick true s t).
  { intros s t. unfold monitor_tick_with, monitor_tick.
    destruct (negb _); [|reflexivity].
    destruct (_handle_status_change s (is_connected t) (now t) (probes t))
      as [[s1 o]|e]; [|reflexivity].
    rewrite ?bind_Ok. cbn beta iota. rewrite ?bind_Ok. cbn beta iota.
    rewrite Hcb. reflexivity. }
  assert (Htick0 : forall s t,
            monitor_tick_with None s t = monitor_tick false s t).
  { intros s t. unfold monitor_tick_with, monitor_tick.
    destruct (negb _); [|reflexivity].
    destruct (_handle_status_change s (is_connected t) (now t) (probes t))
      as [[s1 o]|e]; [|reflexivity].
    rewrite ?bind_Ok. cbn beta iota. rewrite ?bind_Ok. cbn beta iota.
    rewrite app_nil_r. reflexivity. }
  assert (Hloop : forall (c : option callback_fn) (b : bool),
            (forall s t, monitor_tick_with c s t = monitor_tick b s t) ->
            forall l s, running s = true ->
            monitor_while c s l
            = '(s', out) ← monitor_loop b s l; Ok (s', out, true)).
  { intros c b Hc l. induction l as [|t l IH]; intros s Hr.
    - cbn [monitor_while monitor_loop]. rewrite Hr. reflexivity.
    - cbn [monitor_while monitor_loop]. rewrite Hr, Hc.
      destruct (monitor_tick b s t) as [[s1 o1]|e] eqn:H1; [|reflexivity].
      rewrite ?bind_Ok. cbn beta iota.
      assert (Hr1 : running s1 = true).
      { destruct (tick_keeps _ _ _ _ _ H1) as [Hk _]. congruence. }
      rewrite (IH s1 Hr1).
      destruct (monitor_loop b s1 l) as [[s2 o2]|e]; reflexivity. }
  split_and!.
  - unfold monitor_with, monitor.
    rewrite (Hloop (Some cb) true Htick) by reflexivity.
    destruct (monitor_loop true (set_running self true) ts) as [[s o]|e];
      reflexivity.
  - unfold monitor_with, monitor.
    rewrite (Hloop None false Htick0) by reflexivity.
    destruct (monitor_loop false (set_running self true) ts) as [[s o]|e];
      reflexivity.
  - intros any s t s' out. unfold monitor_tick_with.
    destruct (negb _).
    + destruct (_handle_status_change s (is_connected t) (now t) (probes t))
        as [[s1 o]|e]; [|discriminate].
      rewrite ?bind_Ok. cbn beta iota.
      destruct (time_sleep _) as [slept|e]; [|discriminate].
      rewrite ?bind_Ok. intros [= <- _]. reflexivity.
    + rewrite ?bind_Ok. cbn beta iota.
      destruct (time_sleep _) as [slept|e]; [|discriminate].
      rewrite ?bind_Ok. intros [= <- _]. reflexivity.
Qed.

Lemma X20_passive_callback_witness :
  monitor_with (Some (fun s _ _ => s)) (NetworkMonitor_init false 10) five_ticks
  = monitor true (NetworkMonitor_init false 10) five_ticks.
Proof.
  apply (X20_passive_callback (fun s _ _ => s)). reflexivity.
Defined.

End MonitorStop.

Section PingHostWitness.
Import Py PyStr Checker Shapes Diagnostics Collector CollectorFacts.

Lemma X15_loss_figure_to_diagnosis_witness :
  exists d,
    get_diagnosis
      (fst (run_full_diagnostic (NetworkDiagnostics_init true)
              (Build_Probes (Some host_address) None (Some router_address) []
                 (fun _ =>
                    Collector.ping_host true
                      (Some {| returncode := 0;
                               stdout := "    Packets: Sent = 4, Received = 3, Lost = 1 (25% loss),";
                               stderr := "" |}))
                 (fun _ => true)))) None = Ok d /\
    (status d = "unstable_connection" <-> (20 < digits_value 0 "25")%Z).
Proof.
  apply (X15_loss_figure_to_diagnosis (NetworkDiagnostics_init true) _ true
           {| returncode := 0;
              stdout := "    Packets: Sent = 4, Received = 3, Lost = 1 (25% loss),";
              stderr := "" |} "25");
    [reflexivity | reflexivity | reflexivity | reflexivity | cbn; lia].
Defined.

End PingHostWitness.

Section DiagnosisShape.
Import Py Diagnostics.

(** X21. Every diagnosis of well-formed results carries advice: the advice
    list has two to four entries, or the single "Internet is working
    normally" when healthy; the issues list is empty exactly when the status
    is healthy, and holds two issues for [no_connection] and one otherwise.
    So a reader of [advice[0]] never finds the list empty. *)
Theorem X21_diagnosis_shape (self : NetworkDiagnostics) (m : Measurement) :
  exists d,
    get_diagnosis self (Some (to_results m)) = Ok d /\
    advice d <> [] /\
    (issues d = [] <-> status d = "healthy") /\
    (status d = "healthy" -> advice d = ["Internet is working normally"]) /\
    (status d = "no_connection" -> length (issues d) = 2 /\ length (advice d) = 2) /\
    (status d <> "healthy" -> status d <> "no_connection" ->
       length (issues d) = 1 /\ (3 <= length (advice d) <= 4)).
Proof.
  destruct (internet_connected m) eqn:Hc.
  2:{ rewrite diagnosis_no_connection by assumption. eexists.
      split; [reflexivity|]. cbn [status issues advice].
      destruct (local_ip m), (gateway m);
        (split_and!;
         [discriminate | split; discriminate | discriminate
         | intros _; split; reflexivity | intros _ H; congruence]). }
  destruct (dns_working m) eqn:Hd.
  2:{ rewrite diagnosis_dns_issue by assumption. eexists.
      split; [reflexivity|]. cbn [status issues advice].
      split_and!;
        [discriminate | split; discriminate | discriminate | discriminate
        | intros _ _; cbn; lia]. }
  rewrite diagnosis_connected by assumption.
  destruct (exceeds (loss (ping_google_dns m)) 20) eqn:Hl.
  { eexists. split; [reflexivity|]. cbn [status issues advice].
    split_and!;
      [discriminate | split; discriminate | discriminate | discriminate
      | intros _ _; cbn; lia]. }
  destruct (exceeds (avg (ping_google_dns m)) 100) eqn:Ha.
  - apply exceeds_Some in Ha. destruct Ha as (f & -> & _).
    eexists. split; [reflexivity|]. cbn [status issues advice].
    split_and!;
      [discriminate | split; discriminate | discriminate | discriminate
      | intros _ _; cbn; lia].
  - eexists. split; [reflexivity|]. cbn [status issues advice].
    split_and!;
      [discriminate | split; reflexivity | reflexivity | discriminate
      | intros H; congruence].
Qed.

End DiagnosisShape.

(** ** Reading back a listing of [ip addr show] *)

Section ListingStrings.
Import Py PyStr Checker Shapes Collector CollectorFacts Listing.

Lemma append_cons (c : ascii) (a b : string) :
  String c a +:+ b = String c (a +:+ b).
Proof. reflexivity. Qed.

Lemma split_sep_cons (sep : ascii) (a rest : string) :
  without sep a = true ->
  split sep (a +:+ String sep rest) = a :: split sep rest.
Proof.
  induction a as [|c a IH]; intros H.
  - change ("" +:+ String sep rest) with (String sep rest).
    cbn [split]. rewrite Ascii.eqb_refl. reflexivity.
  - cbn [without] in H. apply andb_true_iff in H. destruct H as [Hc Ha].
    apply negb_true_iff in Hc.
    rewrite append_cons. cbn [split]. rewrite Hc, (IH Ha). reflexivity.
Qed.

Lemma without_app (sep : ascii) (a b : string) :
  without sep (a +:+ b) = without sep a && without sep b.
Proof.
  induction a as [|c a IH]; [reflexivity|].
  rewrite append_cons. cbn [without]. rewrite IH. apply andb_assoc.
Qed.

Lemma rstrip_app (a b : string) :
  rstrip b <> "" -> rstrip (a +:+ b) = a +:+ rstrip b.
Proof.
  intros Hb. induction a as [|c a IH]; [reflexivity|].
  rewrite append_cons, rstrip_cons, IH. clear IH.
  destruct (a +:+ rstrip b) as [|x r] eqn:E.
  - exfalso. destruct a; [|discriminate]. apply Hb. exact E.
  - rewrite append_cons, E. reflexivity.
Qed.

Lemma no_space_rstrip (s : string) : no_space s = true -> rstrip s = s.
Proof.
  induction s as [|c s IH]; [reflexivity|].
  cbn [no_space]. intros H. apply andb_true_iff in H. destruct H as [Hc Hs].
  apply negb_true_iff in Hc. rewrite rstrip_cons, (IH Hs), Hc.
  destruct s; reflexivity.
Qed.

Lemma plain_no_space (s : string) : plain s = true -> no_space s = true.
Proof.
  induction s as [|c s IH]; [reflexivity|].
  cbn [plain no_space]. intros H. apply andb_true_iff in H. destruct H as [H Hs].
  apply andb_true_iff in H. destruct H as [Hc _]. rewrite Hc, (IH Hs). reflexivity.
Qed.

Lemma plain_without_colon (s : string) : plain s = true -> without ":" s = true.
Proof.
  induction s as [|c s IH]; [reflexivity|].
  cbn [plain without]. intros H. apply andb_true_iff in H. destruct H as [H Hs].
  apply andb_true_iff in H. destruct H as [_ Hc]. rewrite Hc, (IH Hs). reflexivity.
Qed.

Lemma no_space_without_newline (s : string) :
  no_space s = true -> without (ascii_of_N 10) s = true.
Proof.
  induction s as [|c s IH]; [reflexivity|].
  cbn [no_space without]. intros H. apply andb_true_iff in H. destruct H as [Hc Hs].
  rewrite (IH Hs), andb_true_r. apply negb_true_iff.
  destruct (Ascii.eqb c (ascii_of_N 10)) eqn:E; [|reflexivity].
  apply Ascii.eqb_eq in E. subst c. discriminate.
Qed.

(** Digits are neither white space nor colons. *)
Lemma all_decimal_plain (s : string) : all_decimal s = true -> plain s = true.
Proof.
  induction s as [|c s IH]; [reflexivity|].
  cbn [all_decimal plain]. intros H. apply andb_true_iff in H.
  destruct H as [Hc Hs]. rewrite (IH Hs), andb_true_r.
  unfold is_decimal in Hc. apply andb_true_iff in Hc. destruct Hc as [H1 H2].
  apply N.leb_le in H1, H2.
  assert (Hs' : is_space c = false).
  { unfold is_space. fold (code c).
    repeat match goal with
           | |- context [(?a <=? ?b)%N] =>
               let E := fresh in destruct (N.leb_spec a b) as [E|E]; try lia
           | |- context [(?a =? ?b)%N] =>
               let E := fresh in destruct (N.eqb_spec a b) as [E|E]; try lia
           end; reflexivity. }
  rewrite Hs'. cbn [negb andb]. apply negb_true_iff.
  destruct (Ascii.eqb c ":") eqn:E; [|reflexivity].
  apply Ascii.eqb_eq in E. subst c. cbn in H2. lia.
Qed.

Lemma no_t_space_no_space (prev : ascii) (s : string) :
  no_space s = true -> no_t_space prev s = true.
Proof.
  revert prev. induction s as [|c s IH]; intros prev; [reflexivity|].
  cbn [no_space no_t_space]. intros H. apply andb_true_iff in H.
  destruct H as [Hc Hs]. rewrite (IH c Hs), andb_true_r.
  destruct (Ascii.eqb c " ") eqn:E; [|reflexivity].
  apply Ascii.eqb_eq in E. subst c. discriminate.
Qed.

Lemma prefix_form (p s : string) :
  String.prefix p s = true -> exists r, s = p +:+ r.
Proof.
  revert s. induction p as [|c p IH]; intros s H.
  - exists s. reflexivity.
  - destruct s as [|x s]; [discriminate H|].
    cbn [String.prefix] in H. destruct (ascii_dec c x) as [->|]; [|discriminate H].
    destruct (IH s H) as [r ->]. exists r. reflexivity.
Qed.

Lemma prefix_app (p r : string) : String.prefix p (p +:+ r) = true.
Proof.
  induction p as [|c p IH]; [destruct r; reflexivity|].
  rewrite append_cons. cbn [String.prefix].
  destruct (ascii_dec c c); [exact IH|congruence].
Qed.

(** A text in which no space follows a t does not contain "inet ". *)
Lemma no_t_space_inet (prev : ascii) (s : string) :
  no_t_space prev s = true -> contains "inet " s = false.
Proof.
  revert prev. induction s as [|c s IH]; intros prev H; [reflexivity|].
  cbn [contains]. cbn [no_t_space] in H. apply andb_true_iff in H.
  destruct H as [_ Hs]. rewrite (IH c Hs), orb_false_r.
  destruct (String.prefix "inet " (String c s)) eqn:E; [|reflexivity].
  exfalso. destruct (prefix_form _ _ E) as [r Hr].
  injection Hr as -> ->. cbn in Hs. discriminate.
Qed.

End ListingStrings.

Section ListingLines.
Import Py PyStr Checker Shapes Collector CollectorFacts Listing.

Lemma contains_app_r (sub a b : string) :
  contains sub b = true -> contains sub (a +:+ b) = true.
Proof.
  intros H. induction a as [|c a IH]; [exact H|].
  rewrite append_cons. cbn [contains]. rewrite IH. apply orb_true_r.
Qed.

Lemma contains_prefix (sub r : string) : contains sub (sub +:+ r) = true.
Proof.
  pose proof (prefix_app sub r) as P.
  destruct (sub +:+ r); cbn [contains]; rewrite P; reflexivity.
Qed.

Lemma no_t_space_app (prev : ascii) (a b : string) :
  no_space a = true -> (forall p, no_t_space p b = true) ->
  no_t_space prev (a +:+ b) = true.
Proof.
  intros Ha Hb. revert prev. induction a as [|c a IH]; intros prev; [apply Hb|].
  cbn [no_space] in Ha. apply andb_true_iff in Ha. destruct Ha as [Hc Ha].
  rewrite append_cons. cbn [no_t_space]. rewrite (IH Ha), andb_true_r.
  destruct (Ascii.eqb c " ") eqn:E; [|reflexivity].
  apply Ascii.eqb_eq in E. subst c. discriminate.
Qed.

Lemma lstrip_clean (c : ascii) (s : string) :
  is_space c = false -> lstrip (String c s) = String c s.
Proof. intros H. cbn [lstrip]. rewrite H. reflexivity. Qed.

Lemma span_digits_app (n r : string) :
  all_decimal n = true -> span_digits r = ("", r) ->
  span_digits (n +:+ r) = (n, r).
Proof.
  intros Hn Hr. induction n as [|c n IH]; [exact Hr|].
  cbn [all_decimal] in Hn. apply andb_true_iff in Hn. destruct Hn as [Hc Hn].
  rewrite append_cons. cbn [span_digits]. rewrite Hc, (IH Hn). reflexivity.
Qed.

Lemma digits_dot_app (n rest : string) :
  is_number n = true ->
  digits_dot (n +:+ "." +:+ rest) = Some (n +:+ ".", rest).
Proof.
  unfold is_number. intros H. apply andb_true_iff in H. destruct H as [Hn He].
  change ("." +:+ rest) with (String "." rest).
  unfold digits_dot. rewrite (span_digits_app n (String "." rest) Hn eq_refl).
  destruct n as [|c n]; [discriminate He|]. reflexivity.
Qed.

Lemma split_nonempty (sep : ascii) (s : string) : split sep s <> [].
Proof.
  destruct s as [|c s]; [discriminate|].
  cbn [split]. destruct (Ascii.eqb c sep); [discriminate|].
  destruct (split sep s); discriminate.
Qed.

(** The parts of a split, put back together. *)
Lemma split_form (sep : ascii) (s p : string) (ps : list string) :
  split sep s = p :: ps ->
  (ps = [] /\ s = p) \/
  (exists rest, s = p +:+ String sep rest /\ split sep rest = ps).
Proof.
  revert p ps. induction s as [|c s IH]; intros p ps H.
  - injection H as <- <-. left. split; reflexivity.
  - cbn [split] in H. destruct (Ascii.eqb c sep) eqn:E.
    + apply Ascii.eqb_eq in E. subst c. injection H as <- <-.
      right. exists s. split; reflexivity.
    + destruct (split sep s) as [|p' ps'] eqn:Es; [destruct (split_nonempty _ _ Es)|].
      injection H as <- <-.
      destruct (IH p' ps' eq_refl) as [[-> ->]|(rest & -> & Hr)].
      * left. split; reflexivity.
      * right. exists rest. split; [reflexivity | exact Hr].
Qed.

Lemma dotted_quad_form (a : string) :
  is_dotted_quad a = true ->
  exists n1 n2 n3 n4,
    a = n1 +:+ "." +:+ n2 +:+ "." +:+ n3 +:+ "." +:+ n4 /\
    is_number n1 = true /\ is_number n2 = true /\
    is_number n3 = true /\ is_number n4 = true.
Proof.
  unfold is_dotted_quad.
  destruct (split "." a) as [|n1 [|n2 [|n3 [|n4 [|? ?]]]]] eqn:E; try discriminate.
  intros H. apply andb_true_iff in H. destruct H as [H H4].
  apply andb_true_iff in H. destruct H as [H H3].
  apply andb_true_iff in H. destruct H as [H1 H2].
  exists n1, n2, n3, n4. split; [|auto].
  destruct (split_form _ _ _ _ E) as [[? _]|(r1 & -> & E1)]; [discriminate|].
  destruct (split_form _ _ _ _ E1) as [[? _]|(r2 & -> & E2)]; [discriminate|].
  destruct (split_form _ _ _ _ E2) as [[? _]|(r3 & -> & E3)]; [discriminate|].
  destruct (split_form _ _ _ _ E3) as [[_ ->]|(r4 & _ & E4)].
  - reflexivity.
  - destruct (split_nonempty _ _ E4).
Qed.

(** The pattern for a dotted quad matches one that is followed by anything
    but a digit. *)
Lemma match_quad_complete (a r : string) :
  is_dotted_quad a = true -> span_digits r = ("", r) ->
  match_quad (a +:+ r) = Some a.
Proof.
  intros Ha Hr.
  destruct (dotted_quad_form a Ha) as (n1 & n2 & n3 & n4 & -> & H1 & H2 & H3 & H4).
  rewrite !append_assoc.
  unfold match_quad.
  rewrite (digits_dot_app n1 _ H1). cbn [mbind option_bind].
  rewrite (digits_dot_app n2 _ H2). cbn [mbind option_bind].
  rewrite (digits_dot_app n3 _ H3). cbn [mbind option_bind].
  unfold is_number in H4. apply andb_true_iff in H4. destruct H4 as [H4 He].
  rewrite (span_digits_app n4 r H4 Hr).
  destruct n4 as [|x d]; [discriminate He|].
  rewrite !append_assoc. reflexivity.
Qed.

Lemma number_without_newline (n : string) :
  is_number n = true -> without (ascii_of_N 10) n = true.
Proof.
  unfold is_number. intros H. apply andb_true_iff in H. destruct H as [H _].
  apply no_space_without_newline, plain_no_space, all_decimal_plain, H.
Qed.

Lemma dotted_quad_without_newline (a : string) :
  is_dotted_quad a = true -> without (ascii_of_N 10) a = true.
Proof.
  intros Ha.
  destruct (dotted_quad_form a Ha) as (n1 & n2 & n3 & n4 & -> & H1 & H2 & H3 & H4).
  rewrite !without_app.
  rewrite (number_without_newline n1 H1), (number_without_newline n2 H2),
    (number_without_newline n3 H3), (number_without_newline n4 H4).
  reflexivity.
Qed.

End ListingLines.

Section ListingRoundTrip.
Import Py PyStr Checker Shapes Collector CollectorFacts Listing.

Lemma plain_name_parts (name : string) :
  plain_name name = true ->
  plain name = true /\ exists c r, name = String c r /\ is_space c = false.
Proof.
  unfold plain_name. intros H. apply andb_true_iff in H. destruct H as [Hp He].
  split; [exact Hp|].
  destruct name as [|c r]; [discriminate He|].
  exists c, r. split; [reflexivity|].
  cbn [plain] in Hp. apply andb_true_iff in Hp. destruct Hp as [Hp _].
  apply andb_true_iff in Hp. destruct Hp as [Hp _].
  apply negb_true_iff, Hp.
Qed.

Lemma number_head (z : Z) :
  exists c r, PyFloat.digits_of_Z z = String c r /\ is_decimal c = true /\
              plain (String c r) = true.
Proof.
  pose proof (digits_of_Z_number z) as H. unfold is_number in H.
  apply andb_true_iff in H. destruct H as [Hd He].
  destruct (PyFloat.digits_of_Z z) as [|c r]; [discriminate He|].
  exists c, r. split; [reflexivity|]. split; [|apply all_decimal_plain, Hd].
  cbn [all_decimal] in Hd. apply andb_true_iff in Hd. apply Hd.
Qed.

Lemma decimal_isdigit (c : ascii) : is_decimal c = true -> isdigit c = true.
Proof.
  unfold is_decimal, isdigit. intros ->. reflexivity.
Qed.

(** The header line of an interface opens a new dictionary. *)
Lemma header_step (st : parser) (k : nat) (name : string) :
  plain_name name = true ->
  ip_addr_line st (header_line k name) =
  {| interfaces := flush st;
     current_interface :=
       Some {| iface_name := name;
               iface_type := _determine_interface_type name;
               iface_ip := None |} |}.
Proof.
  intros Hname.
  destruct (plain_name_parts name Hname) as (Hp & c0 & r0 & En & Hc0).
  destruct (number_head (Z.of_nat k)) as (c & r & Ek & Hc & Hk).
  pose proof (plain_no_space _ Hk) as Hks.
  pose proof (plain_no_space _ Hp) as Hns.
  set (tail := ": <BROADCAST,MULTICAST,UP,LOWER_UP> mtu 1500").
  assert (Hform : header_line k name = String c r +:+ ": " +:+ name +:+ tail).
  { unfold header_line. rewrite Ek. reflexivity. }
  assert (Hstrip : strip (header_line k name) = header_line k name).
  { rewrite Hform. unfold strip.
    assert (E : lstrip (String c r +:+ ": " +:+ name +:+ tail)
                = String c r +:+ ": " +:+ name +:+ tail).
    { rewrite append_cons. apply lstrip_clean.
      cbn [no_space] in Hks. apply andb_true_iff in Hks.
      apply negb_true_iff, Hks. }
    rewrite E.
    assert (E' : String c r +:+ ": " +:+ name +:+ tail
                 = (String c r +:+ ": " +:+ name) +:+ tail)
      by (rewrite !append_assoc; reflexivity).
    rewrite E'. rewrite rstrip_app by (vm_compute; discriminate). reflexivity. }
  assert (Hsplit : exists rest,
             split ":" (header_line k name) = String c r :: String " " name :: rest).
  { rewrite Hform.
    change (": " +:+ name +:+ tail) with (String ":" (String " " name +:+ String ":"
      " <BROADCAST,MULTICAST,UP,LOWER_UP> mtu 1500")).
    rewrite split_sep_cons by (apply plain_without_colon, Hk).
    rewrite split_sep_cons by (cbn [without]; apply plain_without_colon, Hp).
    eexists. reflexivity. }
  assert (Hcolon : contains ":" (header_line k name) = true).
  { rewrite Hform. apply contains_app_r, (contains_prefix ":"). }
  assert (Hinet : contains "inet " (header_line k name) = false).
  { apply (no_t_space_inet "x"). rewrite Hform.
    apply no_t_space_app; [exact Hks|]. intros p.
    change (no_t_space " " (name +:+ tail) = true).
    apply no_t_space_app; [exact Hns|]. intros q. reflexivity. }
  assert (Hdigit : starts_with_digit (header_line k name) = true).
  { rewrite Hform. apply decimal_isdigit, Hc. }
  assert (Hpart : strip (String " " name) = name).
  { unfold strip. change (lstrip (String " " name)) with (lstrip name).
    rewrite En, lstrip_clean by exact Hc0. rewrite <- En.
    apply no_space_rstrip, Hns. }
  destruct Hsplit as (rest & Hsplit).
  unfold ip_addr_line. rewrite Hstrip, Hdigit, Hcolon, Hsplit, Hpart.
  cbn [andb current_interface interfaces]. rewrite Hinet. reflexivity.
Qed.

(** The address line assigns the address, unless it is a loopback one. *)
Lemma inet_step (st : parser) (cur : InterfaceInfo) (a : string) :
  is_dotted_quad a = true -> current_interface st = Some cur ->
  ip_addr_line st (inet_line a) =
  if startswith a "127." then st
  else {| interfaces := interfaces st;
          current_interface := Some (set_ip a cur) |}.
Proof.
  intros Ha Hcur.
  set (tail := "/24 scope global").
  assert (Hstrip : strip (inet_line a) = "inet " +:+ a +:+ tail).
  { unfold strip.
    change (lstrip (inet_line a)) with ("inet " +:+ a +:+ tail).
    assert (E : "inet " +:+ a +:+ tail = ("inet " +:+ a) +:+ tail)
      by (rewrite !append_assoc; reflexivity).
    rewrite E at 1. rewrite rstrip_app by (vm_compute; discriminate).
    rewrite append_assoc. reflexivity. }
  assert (Hinet : contains "inet " ("inet " +:+ a +:+ tail) = true).
  { apply contains_prefix. }
  assert (Hsearch : search_inet_quad ("inet " +:+ a +:+ tail) = Some a).
  { change ("inet " +:+ a +:+ tail)
      with (String "i" (String "n" (String "e" (String "t" (String " " (a +:+ tail)))))).
    cbn [search_inet_quad].
    assert (Hm : match_inet_quad
                   (String "i" (String "n" (String "e" (String "t" (String " " (a +:+ tail))))))
                 = Some a).
    { unfold match_inet_quad.
      pose proof (prefix_app "inet " (a +:+ tail)) as P.
      change ("inet " +:+ a +:+ tail)
        with (String "i" (String "n" (String "e" (String "t" (String " " (a +:+ tail)))))) in P.
      rewrite P. cbn [drop_chars].
      apply match_quad_complete; [exact Ha | reflexivity]. }
    rewrite Hm. reflexivity. }
  unfold ip_addr_line. rewrite Hstrip.
  change (starts_with_digit ("inet " +:+ a +:+ tail)) with false.
  cbn [andb]. rewrite Hcur, Hinet, Hsearch.
  destruct (startswith a "127."); reflexivity.
Qed.

Lemma empty_step (st : parser) : ip_addr_line st "" = st.
Proof.
  unfold ip_addr_line. change (strip "") with "".
  cbn [starts_with_digit andb]. destruct (current_interface st); reflexivity.
Qed.

Lemma header_without_newline (k : nat) (name : string) :
  plain_name name = true -> without (ascii_of_N 10) (header_line k name) = true.
Proof.
  intros Hname. destruct (plain_name_parts name Hname) as (Hp & _).
  destruct (number_head (Z.of_nat k)) as (c & r & Ek & _ & Hk).
  unfold header_line. rewrite Ek, !without_app.
  rewrite (no_space_without_newline _ (plain_no_space _ Hk)).
  rewrite (no_space_without_newline _ (plain_no_space _ Hp)).
  reflexivity.
Qed.

Lemma inet_without_newline (a : string) :
  is_dotted_quad a = true -> without (ascii_of_N 10) (inet_line a) = true.
Proof.
  intros Ha. unfold inet_line. rewrite !without_app.
  rewrite (dotted_quad_without_newline a Ha). reflexivity.
Qed.

Lemma listing_lines (k : nat) (name a : string) (l : list (string * string)) :
  plain_name name = true -> is_dotted_quad a = true ->
  split (ascii_of_N 10) (listing k ((name, a) :: l)) =
  header_line k name :: inet_line a :: split (ascii_of_N 10) (listing (S k) l).
Proof.
  intros Hn Ha. cbn [listing].
  change (newline +:+ ?x) with (String (ascii_of_N 10) x).
  rewrite split_sep_cons by (apply header_without_newline, Hn).
  change (newline +:+ listing (S k) l) with (String (ascii_of_N 10) (listing (S k) l)).
  rewrite split_sep_cons by (apply inet_without_newline, Ha).
  reflexivity.
Qed.

(** What the loop holds after a listing. *)
Lemma listing_fold (l : list (string * string)) (k : nat) (st : parser) :
  Forall (fun na => plain_name (fst na) = true /\ is_dotted_quad (snd na) = true) l ->
  flush (fold_left ip_addr_line (split (ascii_of_N 10) (listing k l)) st) =
  flush st ++ map held l.
Proof.
  intros H. revert k st. induction H as [|[name a] l [Hn Ha] _ IH]; intros k st.
  - cbn [listing split fold_left map]. rewrite empty_step, app_nil_r. reflexivity.
  - cbn [fst snd] in Hn, Ha.
    rewrite (listing_lines k name a l Hn Ha). cbn [fold_left].
    rewrite (header_step st k name Hn).
    rewrite (inet_step
               {| interfaces := flush st;
                  current_interface :=
                    Some {| iface_name := name;
                            iface_type := _determine_interface_type name;
                            iface_ip := None |} |}
               {| iface_name := name;
                  iface_type := _determine_interface_type name;
                  iface_ip := None |} a Ha eq_refl).
    cbn [map]. 
    assert (E : (if startswith a "127."
                 then {| interfaces := flush st;
                         current_interface :=
                           Some {| iface_name := name;
                                   iface_type := _determine_interface_type name;
                                   iface_ip := None |} |}
                 else {| interfaces := flush st;
                         current_interface :=
                           Some (set_ip a {| iface_name := name;
                                   iface_type := _determine_interface_type name;
                                   iface_ip := None |}) |})
                = {| interfaces := flush st;
                     current_interface := Some (held (name, a)) |}).
    { unfold held, is_loopback. cbn [fst snd].
      destruct (startswith a "127."); reflexivity. }
    cbn [interfaces] in E |- *. rewrite E, IH.
    change (flush {| interfaces := flush st;
                     current_interface := Some (held (name, a)) |})
      with (flush st ++ [held (name, a)]).
    rewrite <- app_assoc. reflexivity.
Qed.

Lemma held_filter (l : list (string * string)) :
  Forall (fun na => plain_name (fst na) = true /\ is_dotted_quad (snd na) = true) l ->
  List.filter has_ip (map held l) =
  map entry (List.filter (fun na => negb (is_loopback na)) l).
Proof.
  induction 1 as [|na l [_ Ha] _ IH]; [reflexivity|].
  cbn [map List.filter]. rewrite IH.
  assert (Hh : has_ip (held na) = negb (is_loopback na) /\
               (is_loopback na = false -> held na = entry na)).
  { unfold has_ip, held, entry.
    destruct (is_loopback na); cbn [iface_ip of_opt_str scalar_truthy negb].
    - split; [reflexivity | discriminate].
    - split; [|reflexivity].
      destruct (String.eqb_spec (snd na) "") as [E|_]; [|reflexivity].
      destruct (dotted_quad_nonempty _ Ha E). }
  destruct Hh as [Hh1 Hh2]. rewrite Hh1.
  destruct (is_loopback na); cbn [negb map]; [reflexivity|].
  rewrite Hh2 by reflexivity. reflexivity.
Qed.

(** X22. [_parse_ip_addr] reads back a listing of [ip addr show]: from the
    header line and the address line of each interface, whatever the names
    (without white space or colon) and the addresses (dotted quads), it
    returns the interfaces in order with their names, the types that
    [_determine_interface_type] gives the names and their addresses, leaving
    out exactly the interfaces with an address that starts with "127.". *)
Theorem X22_ip_addr_round_trip (k : nat) (l : list (string * string)) :
  Forall (fun na => plain_name (fst na) = true /\ is_dotted_quad (snd na) = true) l ->
  _parse_ip_addr (listing k l) =
  map entry (List.filter (fun na => negb (is_loopback na)) l).
Proof.
  intros H. unfold _parse_ip_addr. cbn zeta.
  rewrite (listing_fold l k _ H). apply (held_filter l H).
Qed.

Lemma X22_ip_addr_round_trip_witness :
  Forall (fun na => plain_name (fst na) = true /\ is_dotted_quad (snd na) = true)
    [("lo", "127.0.0.1"); ("eth0", "192.168.1.10"); ("wlan0", "10.0.0.5")] /\
  _parse_ip_addr
    (listing 1 [("lo", "127.0.0.1"); ("eth0", "192.168.1.10"); ("wlan0", "10.0.0.5")]) =
  [ {| iface_name := "eth0"; iface_type := "Ethernet"; iface_ip := Some "192.168.1.10" |};
    {| iface_name := "wlan0"; iface_type := "Wi-Fi"; iface_ip := Some "10.0.0.5" |} ].
Proof.
  assert (H : Forall (fun na => plain_name (fst na) = true /\ is_dotted_quad (snd na) = true)
    [("lo", "127.0.0.1"); ("eth0", "192.168.1.10"); ("wlan0", "10.0.0.5")]).
  { repeat constructor. }
  split; [exact H|].
  rewrite (X22_ip_addr_round_trip 1 _ H). reflexivity.
Defined.

End ListingRoundTrip.

(** ** The report of [formatter.py] *)

Section Report.
Import Py PyStr Diagnostics Formatter.
#[local] Open Scope Z_scope.

(** [format(float(n), '.0f')] is [str(n)] for a positive integer below
    [2^53]. *)
Lemma float_format_0f_of_Z (n : Z) :
  0 < n < 2 ^ 53 ->
  float_format_0f (PyFloat.of_Z n) = PyFloat.digits_of_Z n.
Proof.
  intros [Hn0 Hn]. destruct n as [|x|x]; [lia| |lia].
  unfold PyFloat.of_Z. set (p := Z.pos x) in *.
  assert (Hl0 : 0 <= Z.log2 p) by apply Z.log2_nonneg.
  assert (Hl : Z.log2 p < 53) by (apply Z.log2_lt_pow2; lia).
  set (sh := 53 - Z.log2 p - 1).
  assert (Hsh : 0 <= sh) by (unfold sh; lia).
  assert (Hpow : 0 < 2 ^ sh) by (apply Z.pow_pos_nonneg; lia).
  assert (Hpos : 0 < p * 2 ^ sh) by (apply Z.mul_pos_pos; lia).
  unfold float_format_0f, fixed0, PyFloat.scale, PyFloat.sign_str.
  rewrite Z2Pos.id by exact Hpos.
  change ("" +:+ ?s) with s.
  destruct (0 <=? - sh) eqn:E.
  - apply Z.leb_le in E. assert (sh = 0) as Hz by lia. rewrite Hz.
    change (- 0) with 0. change (2 ^ 0) with 1.
    rewrite round_half_even_1. f_equal. lia.
  - rewrite Z.opp_involutive. unfold PyFloat.round_half_even.
    rewrite Z.mod_mul, Z.div_mul by lia.
    assert (Hc : (2 * 0 ?= 2 ^ sh) = Lt) by (apply Z.compare_lt_iff; lia).
    rewrite Hc. reflexivity.
Qed.

Lemma avg_str_total (o : option spec_float) :
  exists a, avg_str (of_opt_float o) = Done a.
Proof.
  destruct o as [f|]; unfold avg_str; cbn [of_opt_float scalar_truthy].
  - destruct (PyFloat.float_bool f); eexists; reflexivity.
  - eexists; reflexivity.
Qed.

Lemma loss_str_total (o : option spec_float) :
  exists l, loss_str (of_opt_float o) = Done l.
Proof.
  destruct o as [f|]; unfold loss_str; cbn [of_opt_float scalar_truthy].
  - destruct (PyFloat.float_bool f); [|eexists; reflexivity].
    cbn [gt_int lift mbind outcome_bind].
    destruct (PyFloat.gt_Z f 0); eexists; reflexivity.
  - eexists; reflexivity.
Qed.

Lemma loss_str_of_Z (n : Z) :
  0 < n < 2 ^ 53 ->
  loss_str (PFloat (PyFloat.of_Z n)) =
  Done (", loss=" +:+ PyFloat.digits_of_Z n +:+ "%").
Proof.
  intros Hn. unfold loss_str. cbn [scalar_truthy].
  assert (Hb : PyFloat.float_bool (PyFloat.of_Z n) = true).
  { destruct n; [lia|reflexivity|lia]. }
  rewrite Hb. cbn [gt_int lift mbind outcome_bind].
  unfold PyFloat.gt_Z. rewrite cmp_Z_of_Z by lia.
  assert (Hc : (n ?= 0) = Gt) by (apply Z.compare_gt_iff; lia).
  rewrite Hc. cbn [format_0f lift mbind outcome_bind].
  rewrite float_format_0f_of_Z by exact Hn. reflexivity.
Qed.

(** The two ping lines on a ping dictionary of a diagnostic. *)
Lemma ping_dns_line_typed (p : PingResult) :
  exists a l,
    avg_str (of_opt_float (avg p)) = Done a /\
    loss_str (of_opt_float (loss p)) = Done l /\
    ping_dns_line (VDict (ping_dict p)) =
    Done (format_status "PING"
            ("8.8.8.8: " +:+ (if success p then a +:+ l else "failed"))
            (success p)).
Proof.
  destruct (avg_str_total (avg p)) as [a Ha].
  destruct (loss_str_total (loss p)) as [l Hl].
  exists a, l. split; [exact Ha|]. split; [exact Hl|].
  unfold ping_dns_line, get.
  assert (E1 : ping_dict p !! "success" = Some (PBool (success p))) by reflexivity.
  assert (E2 : ping_dict p !! "avg" = Some (of_opt_float (avg p))) by reflexivity.
  assert (E3 : ping_dict p !! "loss" = Some (of_opt_float (loss p))) by reflexivity.
  rewrite E1, E2, E3. cbn [default from_option id mbind outcome_bind scalar_truthy].
  destruct (success p); [|reflexivity].
  rewrite Ha. cbn [mbind outcome_bind]. rewrite Hl. reflexivity.
Qed.

Lemma ping_domain_line_typed (p : PingResult) :
  exists a,
    ping_domain_line (VDict (ping_dict p)) =
    Done (format_status "PING"
            ("google.com: " +:+ (if success p then a else "failed"))
            (success p)).
Proof.
  destruct (avg_str_total (avg p)) as [a Ha].
  exists a.
  unfold ping_domain_line, get.
  assert (E1 : ping_dict p !! "success" = Some (PBool (success p))) by reflexivity.
  assert (E2 : ping_dict p !! "avg" = Some (of_opt_float (avg p))) by reflexivity.
  rewrite E1, E2. cbn [default from_option id mbind outcome_bind scalar_truthy].
  destruct (success p); [|reflexivity].
  rewrite Ha. reflexivity.
Qed.

Lemma connectivity_lines (m : Measurement) (l1 l2 : string) :
  ping_dns_line (VDict (ping_dict (ping_google_dns m))) = Done l1 ->
  ping_domain_line (VDict (ping_dict (ping_domain m))) = Done l2 ->
  print_connectivity_results (to_results m) =
  ([ format_header "CONNECTIVITY TEST"; l1; l2;
     format_status "DNS"
       ("google.com: " +:+ (if dns_working m then "working" else "not responding"))
       (dns_working m) ], None).
Proof.
  intros H1 H2. unfold print_connectivity_results, get_dict.
  assert (E1 : to_results m !! "ping_google_dns"
               = Some (VDict (ping_dict (ping_google_dns m)))) by reflexivity.
  assert (E2 : to_results m !! "ping_domain"
               = Some (VDict (ping_dict (ping_domain m)))) by reflexivity.
  assert (E3 : to_results m !! "dns_working"
               = Some (VScalar (PBool (dns_working m)))) by reflexivity.
  rewrite E1, E2, E3. cbn [default from_option id]. rewrite H1, H2.
  cbn [truthy scalar_truthy app]. destruct (dns_working m); reflexivity.
Qed.

(** X23. On the results of a diagnostic [print_connectivity_results] raises
    nothing, whatever floats the pings returned, and prints four strings: the
    header, the line of the ping of 8.8.8.8, the line of the ping of
    google.com and the DNS line, each of the three ending in "[OK]" when its
    check succeeded and in "[FAIL]" when it did not. *)
Theorem X23_connectivity_report (m : Measurement) :
  exists a b c,
    print_connectivity_results (to_results m) =
    ([ format_header "CONNECTIVITY TEST";
       format_status "PING" ("8.8.8.8: " +:+ a) (success (ping_google_dns m));
       format_status "PING" ("google.com: " +:+ b) (success (ping_domain m));
       format_status "DNS" ("google.com: " +:+ c) (dns_working m) ], None).
Proof.
  destruct (ping_dns_line_typed (ping_google_dns m)) as (a & l & _ & _ & H1).
  destruct (ping_domain_line_typed (ping_domain m)) as (b & H2).
  eexists _, _, _. apply (connectivity_lines m _ _ H1 H2).
Qed.

(** What [get_diagnosis] leaves in the two lists. *)
Lemma diagnosis_lists (self : NetworkDiagnostics) (m : Measurement) :
  exists d,
    get_diagnosis self (Some (to_results m)) = Ok d /\
    advice d <> [] /\
    (status d = "healthy" -> issues d = [] /\ advice d = ["Internet is working normally"]) /\
    (status d <> "healthy" -> issues d <> []).
Proof.
  destruct (internet_connected m) eqn:Hc.
  2:{ rewrite diagnosis_no_connection by assumption. eexists.
      split; [reflexivity|]. cbn [status issues advice].
      destruct (local_ip m), (gateway m);
        (split_and!; [discriminate | discriminate | discriminate]). }
  destruct (dns_working m) eqn:Hd.
  2:{ rewrite diagnosis_dns_issue by assumption. eexists.
      split; [reflexivity|]. cbn [status issues advice].
      split_and!; [discriminate | discriminate | discriminate]. }
  rewrite diagnosis_connected by assumption.
  destruct (exceeds (loss (ping_google_dns m)) 20) eqn:Hl.
  { eexists. split; [reflexivity|]. cbn [status issues advice].
    split_and!; [discriminate | discriminate | discriminate]. }
  destruct (exceeds (avg (ping_google_dns m)) 100) eqn:Ha.
  - apply exceeds_Some in Ha. destruct Ha as (f & -> & _).
    eexists. split; [reflexivity|]. cbn [status issues advice].
    split_and!; [discriminate | discriminate | discriminate].
  - eexists. split; [reflexivity|]. cbn [status issues advice].
    split_and!; [discriminate | split; reflexivity | intros H; congruence].
Qed.

(** X24. The same loss figure reads differently in the two reports.  After a
    full diagnostic in which the ping of 8.8.8.8 succeeded with a loss of n
    percent, n a whole number from 21 to 100, and DNS resolution works, the
    connectivity report prints the loss without decimals, ", loss=n%", while
    the issue of the diagnosis reads "High packet loss (n.0%)". *)
Theorem X24_loss_in_report_and_diagnosis (self : NetworkDiagnostics) (c : Probes)
    (a : option spec_float) (n : nat) :
  ping_host c "8.8.8.8" =
    {| success := true; avg := a; loss := Some (PyFloat.of_Z (Z.of_nat n)) |} ->
  check_dns c "google.com" = true ->
  (20 < n <= 100)%nat ->
  exists s d,
    nth 1 (fst (print_connectivity_results (snd (run_full_diagnostic self c)))) "" =
      "[PING] 8.8.8.8: " +:+ s +:+ ", loss=" +:+
      PyFloat.digits_of_Z (Z.of_nat n) +:+ "% [OK]" /\
    get_diagnosis (fst (run_full_diagnostic self c)) None = Ok d /\
    issues d =
      ["High packet loss (" +:+ PyFloat.digits_of_Z (Z.of_nat n) +:+ ".0%)"].
Proof.
  intros Hping Hdns Hn.
  rewrite run_full_diagnostic_results. cbn [fst snd].
  assert (Hg : ping_google_dns (collect c) =
               {| success := true; avg := a;
                  loss := Some (PyFloat.of_Z (Z.of_nat n)) |}) by exact Hping.
  destruct (ping_dns_line_typed (ping_google_dns (collect c)))
    as (s & l & _ & Hl & H1).
  destruct (ping_domain_line_typed (ping_domain (collect c))) as (b & H2).
  rewrite Hg in Hl. cbn [loss of_opt_float] in Hl.
  rewrite loss_str_of_Z in Hl by lia. injection Hl as <-.
  exists s. eexists. split; [|split].
  - rewrite (connectivity_lines (collect c) _ _ H1 H2). cbn [fst nth].
    rewrite Hg. cbn [success].
    unfold format_status. rewrite !append_assoc. reflexivity.
  - change (get_diagnosis
              {| is_windows := is_windows self;
                 results := to_results (collect c) |} None)
      with (get_diagnosis self (Some (to_results (collect c)))).
    rewrite diagnosis_connected;
      [| cbn [collect internet_connected]; rewrite Hping; reflexivity
       | exact Hdns ].
    cbn [collect ping_google_dns]. rewrite Hping. cbn [loss exceeds].
    destruct (percent_str n Hn) as [Hgt Hstr]. rewrite Hgt. reflexivity.
  - cbn [issues of_opt_float format_default].
    destruct (percent_str n Hn) as [_ Hstr]. rewrite Hstr.
    rewrite append_assoc. reflexivity.
Qed.

Lemma X24_loss_in_report_and_diagnosis_witness :
  exists s d,
    nth 1 (fst (print_connectivity_results
                  (snd (run_full_diagnostic (NetworkDiagnostics_init false)
                          (Build_Probes (Some host_address) None (Some router_address) []
                             (fun _ => {| success := true;
                                          avg := Some (PyFloat.of_Z 23);
                                          loss := Some (PyFloat.of_Z (Z.of_nat 25)) |})
                             (fun _ => true)))))) "" =
      "[PING] 8.8.8.8: " +:+ s +:+ ", loss=" +:+
      PyFloat.digits_of_Z (Z.of_nat 25) +:+ "% [OK]" /\
    get_diagnosis
      (fst (run_full_diagnostic (NetworkDiagnostics_init false)
              (Build_Probes (Some host_address) None (Some router_address) []
                 (fun _ => {| success := true;
                              avg := Some (PyFloat.of_Z 23);
                              loss := Some (PyFloat.of_Z (Z.of_nat 25)) |})
                 (fun _ => true)))) None = Ok d /\
    issues d =
      ["High packet loss (" +:+ PyFloat.digits_of_Z (Z.of_nat 25) +:+ ".0%)"].
Proof.
  apply (X24_loss_in_report_and_diagnosis (NetworkDiagnostics_init false) _
           (Some (PyFloat.of_Z 23)) 25);
    [reflexivity | reflexivity | lia].
Defined.

(** X25. The report of a diagnosis has no empty section and leaves nothing
    out.  For the diagnosis of the results of a diagnostic,
    [print_diagnosis] prints, after the header, either the status line with
    "[OK]" and the one recommended action of a healthy connection, without
    any issues section, or the status line with "[FAIL]", the issues section
    with every issue and the actions section with every advice. *)
Theorem X25_diagnosis_report (self : NetworkDiagnostics) (m : Measurement) :
  exists d,
    get_diagnosis self (Some (to_results m)) = Ok d /\
    print_diagnosis d =
      format_header "DIAGNOSIS" ::
      if String.eqb (status d) "healthy"
      then [ "[STATUS] Internet is working normally [OK]";
             newline +:+ "[Recommended Actions]";
             "  - Internet is working normally" ]
      else [ "[STATUS] Issues detected [FAIL]";
             newline +:+ "[Issues Detected]" ] ++
           map (fun x => "  - " +:+ x) (issues d) ++
           [ newline +:+ "[Recommended Actions]" ] ++
           map (fun x => "  - " +:+ x) (advice d).
Proof.
  destruct (diagnosis_lists self m) as (d & Hd & Hadv & Hh & Hn).
  exists d. split; [exact Hd|]. unfold print_diagnosis.
  destruct (String.eqb_spec (status d) "healthy") as [E|E].
  - destruct (Hh E) as [-> ->]. reflexivity.
  - specialize (Hn E).
    destruct (issues d) as [|i rest]; [congruence|].
    destruct (advice d) as [|x xs]; [congruence|].
    reflexivity.
Qed.

End Report.
